(** * Trading-Bot: validator, signed request envelope and order orchestration

    A shallow embedding of [bot/validators.py], [bot/client.py] and
    [bot/orders.py], followed by the properties the specification states
    about them.

    Modelling conventions.
    - A Python [str] is a [string]; the model covers ASCII text: a
      character above 127 is an ordinary symbol for it (Python's case
      mapping, white space and digit classes beyond ASCII are outside the
      model), and [quote_plus] escapes it as a byte.
    - A raised exception is the [Raise] branch of [result]; the exception
      classes the three modules can meet are the constructors of [exn].
    - A Python [dict] is an association list with unique keys kept in
      insertion order ([Dict]).
    - [decimal.Decimal] follows the decimal module of CPython (the C
      implementation, 64-bit build): sign, coefficient digits and exponent,
      or a special value, with the module's limits [MAX_EMAX] and
      [MIN_ETINY] on what the constructor builds; the context is the
      default one (InvalidOperation trapped), which the program never
      changes.  Strings are shorter than [MAX_PREC] = 10^18 - 1 characters,
      so that the module's limit on the number of digits is never met.
    - The clock and the HTTP transport are inputs of the client ([Env]). *)

From Stdlib Require Import ZArith NArith List Bool Ascii String Lia.
From Stdlib Require Import QArith Qpower Qfield.
From Stdlib Require Import Numbers.DecimalString Floats.
From Stdlib Require DecimalPos.
Import ListNotations.

Local Open Scope string_scope.
Local Open Scope Z_scope.

(* ------------------------------------------------------------------ *)
(** * Python strings *)
(* ------------------------------------------------------------------ *)

Module PyStr.

Definition code (c : ascii) : N := N_of_ascii c.

Definition in_range (lo hi : N) (c : ascii) : bool :=
  (lo <=? code c)%N && (code c <=? hi)%N.

(** [str.isspace] on ASCII: TAB..CR, FS..US and the space. *)
Definition is_space (c : ascii) : bool :=
  in_range 9 13 c || in_range 28 32 c.

Definition is_digit (c : ascii) : bool := in_range 48 57 c.
Definition is_upper (c : ascii) : bool := in_range 65 90 c.
Definition is_lower (c : ascii) : bool := in_range 97 122 c.
Definition is_alnum (c : ascii) : bool :=
  is_digit c || is_upper c || is_lower c.

Definition upper_char (c : ascii) : ascii :=
  if is_lower c then ascii_of_N (code c - 32) else c.

Definition lower_char (c : ascii) : ascii :=
  if is_upper c then ascii_of_N (code c + 32) else c.

Fixpoint map (f : ascii -> ascii) (s : string) : string :=
  match s with
  | EmptyString => EmptyString
  | String c r => String (f c) (map f r)
  end.

(** [s.upper()] and [s.lower()] *)
Definition upper : string -> string := map upper_char.
Definition lower : string -> string := map lower_char.

Fixpoint forallb (p : ascii -> bool) (s : string) : bool :=
  match s with
  | EmptyString => true
  | String c r => p c && forallb p r
  end.

(** [s.lstrip()], [s.rstrip()], [s.strip()] *)
Fixpoint lstrip (s : string) : string :=
  match s with
  | EmptyString => EmptyString
  | String c r => if is_space c then lstrip r else s
  end.

Fixpoint rstrip (s : string) : string :=
  match s with
  | EmptyString => EmptyString
  | String c r =>
      match rstrip r with
      | EmptyString => if is_space c then EmptyString else String c EmptyString
      | r' => String c r'
      end
  end.

Definition strip (s : string) : string := rstrip (lstrip s).

(** [s.rstrip(x)] for a one-character [x] *)
Fixpoint rstrip_char (x : ascii) (s : string) : string :=
  match s with
  | EmptyString => EmptyString
  | String c r =>
      match rstrip_char x r with
      | EmptyString =>
          if Ascii.eqb c x then EmptyString else String c EmptyString
      | r' => String c r'
      end
  end.

(** [s.replace(x, "")] for a one-character [x] *)
Fixpoint remove (x : ascii) (s : string) : string :=
  match s with
  | EmptyString => EmptyString
  | String c r => if Ascii.eqb c x then remove x r else String c (remove x r)
  end.

(** Longest prefix of characters satisfying [p], and the rest. *)
Fixpoint span (p : ascii -> bool) (s : string) : string * string :=
  match s with
  | EmptyString => (EmptyString, EmptyString)
  | String c r =>
      if p c then let (a, b) := span p r in (String c a, b)
      else (EmptyString, s)
  end.

(** ["c" * n] *)
Fixpoint repeat (c : ascii) (n : nat) : string :=
  match n with
  | O => EmptyString
  | S k => String c (repeat c k)
  end.

(** [s[:n]] and [s[n:]] for [0 <= n] *)
Fixpoint take (n : nat) (s : string) : string :=
  match n, s with
  | S k, String c r => String c (take k r)
  | _, _ => EmptyString
  end.

Fixpoint drop (n : nat) (s : string) : string :=
  match n, s with
  | S k, String _ r => drop k r
  | _, _ => s
  end.

(** [s[-1]] when there is one *)
Fixpoint last (s : string) : option ascii :=
  match s with
  | EmptyString => None
  | String c EmptyString => Some c
  | String _ r => last r
  end.

(** [sep.join(l)] *)
Definition join (sep : string) (l : list string) : string :=
  String.concat sep l.

(** [str(n)] for an [int] *)
Definition of_Z (z : Z) : string := NilZero.string_of_int (Z.to_int z).

(** [x in l] for a collection of strings *)
Definition mem (x : string) (l : list string) : bool :=
  existsb (String.eqb x) l.

(** [sorted(l)] for strings: insertion sort by code point order. *)
Fixpoint insert_sorted (x : string) (l : list string) : list string :=
  match l with
  | [] => [x]
  | y :: r => if String.leb x y then x :: l else y :: insert_sorted x r
  end.

Definition sorted (l : list string) : list string :=
  fold_right insert_sorted [] l.

End PyStr.

(* ------------------------------------------------------------------ *)
(** * JSON values and exceptions *)
(* ------------------------------------------------------------------ *)

(** A decoded JSON document, as [resp.json()] returns it: [int] and [float]
    numbers are distinct, and a float is an IEEE binary64 value. *)
#[warnings="-register-all"]
Inductive json : Type :=
| JNull
| JBool (b : bool)
| JInt (z : Z)
| JFloat (f : float)
| JStr (s : string)
| JArr (l : list json)
| JObj (d : list (string * json)).

(** [type(x).__name__] for a decoded JSON value. *)
Definition type_name (x : json) : string :=
  match x with
  | JNull => "NoneType"
  | JBool _ => "bool"
  | JInt _ => "int"
  | JFloat _ => "float"
  | JStr _ => "str"
  | JArr _ => "list"
  | JObj _ => "dict"
  end.

(** The exception classes met by the three modules. *)
Inductive exn : Type :=
| ValidationError (msg : string)           (* bot.validators.ValidationError *)
| InvalidOperation                         (* decimal.InvalidOperation *)
| BinanceAPIError (code msg : json) (status_code : Z)
| ConnectionError (msg : string)           (* builtin ConnectionError *)
| TimeoutError (msg : string)              (* builtin TimeoutError *)
| HTTPError (msg : string)                 (* requests.exceptions.HTTPError *)
| ValueError (msg : string)                (* JSON decoding failure *)
| TypeError (msg : string)
| AttributeError (msg : string)
| OtherException (msg : string).           (* any other Exception subclass *)

Inductive result (A : Type) : Type :=
| Return (a : A)
| Raise (e : exn).
Arguments Return {A} a.
Arguments Raise {A} e.

Definition bind {A B : Type} (m : result A) (k : A -> result B) : result B :=
  match m with
  | Return a => k a
  | Raise e => Raise e
  end.

Notation "x <- m ;; k" := (bind m (fun x => k))
  (at level 61, m at next level, right associativity).

Definition is_ValidationError (e : exn) : bool :=
  match e with ValidationError _ => true | _ => false end.

(** What [x.get] raises for an [x] that has no such method. *)
Definition no_get (x : json) : exn :=
  AttributeError ("'" ++ type_name x ++ "' object has no attribute 'get'").

(* ------------------------------------------------------------------ *)
(** * decimal.Decimal *)
(* ------------------------------------------------------------------ *)

Module PyDecimal.

(** A [Decimal] is its [_sign], its coefficient [_int] (a digit string
    without leading zeros, ["0"] for zero) and its [_exp]; the special values
    have [_exp] ['F'] (infinity), ['n'] (quiet NaN) or ['N'] (signaling NaN),
    a NaN keeping its diagnostic digits. *)
Inductive Decimal : Type :=
| Finite (sign : bool) (digits : string) (exp : Z)
| Infinity (sign : bool)
| NaN (sign : bool) (signaling : bool) (diag : string).

Definition digit_val (c : ascii) : N := (PyStr.code c - 48)%N.

(** [int(s)] for a string of digits (the empty string counts as zero). *)
Definition digits_val (s : string) : N :=
  (fix go (acc : N) (s : string) : N :=
     match s with
     | EmptyString => acc
     | String c r => go (10 * acc + digit_val c)%N r
     end) 0%N s.

Fixpoint lstrip_zeros (s : string) : string :=
  match s with
  | String "0" r => lstrip_zeros r
  | _ => s
  end.

(** [str(int(s))] for a non-empty string of digits: the leading zeros go,
    and ["0"] stays when nothing else is left. *)
Definition str_int (s : string) : string :=
  match lstrip_zeros s with
  | EmptyString => "0"
  | t => t
  end.

(** [int(s)] for an optionally signed string of digits. *)
Definition int_signed (s : string) : Z :=
  match s with
  | String "-" r => - Z.of_N (digits_val r)
  | String "+" r => Z.of_N (digits_val r)
  | _ => Z.of_N (digits_val s)
  end.

(** The sign group [(?P<sign>[-+])?] of the parser. *)
Definition take_sign (s : string) : bool * string :=
  match s with
  | String "-" r => (true, r)
  | String "+" r => (false, r)
  | _ => (false, s)
  end.

(** The exponent group [(E(?P<exp>[-+]?\d+))?] followed by the end of the
    string: [Some ""] when there is no exponent, [Some e] for [E] and the
    signed digits [e], [None] when the rest is anything else. *)
Definition parse_exp (s : string) : option string :=
  match s with
  | EmptyString => Some EmptyString
  | String c r =>
      if Ascii.eqb (PyStr.lower_char c) "e" then
        let (_, ds) := take_sign r in
        match ds with
        | EmptyString => None
        | _ => if PyStr.forallb PyStr.is_digit ds then Some r else None
        end
      else None
  end.

(** The fraction group: a point and the digits after it, when the rest
    starts with a point. *)
Definition take_fraction (s : string) : string * string :=
  match s with
  | String "." r => PyStr.span PyStr.is_digit r
  | _ => (EmptyString, s)
  end.

(** The finite alternative: integer part, optional fraction, optional
    exponent, with at least one digit in the coefficient.  The result is
    the groups [int], [frac] and [exp] ([frac] and [exp] empty when the
    group did not take part, as [or ''] and [or '0'] make them). *)
Definition parse_number (s : string) : option (string * string * string) :=
  let (intpart, r1) := PyStr.span PyStr.is_digit s in
  let (fracpart, r2) := take_fraction r1 in
  match (intpart ++ fracpart)%string with
  | EmptyString => None
  | _ =>
      match parse_exp r2 with
      | Some e => Some (intpart, fracpart, e)
      | None => None
      end
  end.

(** The alternative [Inf(inity)?], case-insensitive. *)
Definition parse_inf (s : string) : bool :=
  let l := PyStr.lower s in
  String.eqb l "inf" || String.eqb l "infinity".

(** The alternative of an optional [s], then [NaN], then any number of
    diagnostic digits, case-insensitive: the signaling flag and the digits. *)
Definition parse_nan (s : string) : option (bool * string) :=
  let (signal, r) :=
    match s with
    | String c r' =>
        if Ascii.eqb (PyStr.lower_char c) "s" then (true, r') else (false, s)
    | _ => (false, s)
    end in
  if String.eqb (PyStr.lower (PyStr.take 3 r)) "nan"
     && PyStr.forallb PyStr.is_digit (PyStr.drop 3 r)
  then Some (signal, PyStr.drop 3 r)
  else None.

Definition MAX_EMAX : Z := 999999999999999999.
Definition MIN_EMIN : Z := -999999999999999999.
Definition MIN_ETINY : Z := -1999999999999999997.

(** The constructor converts exactly or not at all: the number is
    finalized in the widest context, and a conversion that had to clamp or
    round is an error.  That happens when the adjusted exponent (the
    exponent of the first digit) is above [MAX_EMAX], and when it is below
    [MIN_EMIN] and the exponent itself below [MIN_ETINY]; zero is treated
    as any other coefficient. *)
Definition within_limits (digits : string) (exp : Z) : bool :=
  let adjexp := exp + Z.of_nat (String.length digits) - 1 in
  if MAX_EMAX <? adjexp then false
  else if (adjexp <? MIN_EMIN) && (exp <? MIN_ETINY) then false
  else true.

(** [Decimal(value)] for a [str]: the literal is stripped, its underscores
    are removed, and it is matched against the numeric-string grammar.  A
    string outside the grammar raises [InvalidOperation], and so does a
    number outside the limits. *)
Definition of_str (value : string) : result Decimal :=
  let m := PyStr.remove "_" (PyStr.strip value) in
  let (sign, body) := take_sign m in
  match parse_number body with
  | Some (intpart, fracpart, e) =>
      let digits := str_int (intpart ++ fracpart) in
      let exp :=
        int_signed (match e with EmptyString => "0" | _ => e end)
        - Z.of_nat (String.length fracpart) in
      if within_limits digits exp then Return (Finite sign digits exp)
      else Raise InvalidOperation
  | None =>
      if parse_inf body then Return (Infinity sign)
      else
        match parse_nan body with
        | Some (signal, diag) => Return (NaN sign signal (lstrip_zeros diag))
        | None => Raise InvalidOperation
        end
  end.

Definition is_zero (digits : string) : bool := String.eqb digits "0".

(** [d <= 0]: a comparison involving a NaN signals InvalidOperation, which
    the default context traps; otherwise the sign of [d] decides. *)
Definition le_zero (d : Decimal) : result bool :=
  match d with
  | NaN _ _ _ => Raise InvalidOperation
  | Infinity sign => Return sign
  | Finite sign digits _ => Return (is_zero digits || sign)
  end.

(** ["%+d" % n] *)
Definition fmt_plus_d (n : Z) : string :=
  if n <? 0 then PyStr.of_Z n else "+" ++ PyStr.of_Z n.

(** [str(d)]: the scientific string of the decimal specification. *)
Definition to_str (d : Decimal) : string :=
  match d with
  | Infinity sign => (if sign then "-" else "") ++ "Infinity"
  | NaN sign false diag => (if sign then "-" else "") ++ "NaN" ++ diag
  | NaN sign true diag => (if sign then "-" else "") ++ "sNaN" ++ diag
  | Finite sign digits exp =>
      let n := Z.of_nat (String.length digits) in
      let leftdigits := exp + n in
      let dotplace :=
        if (exp <=? 0) && (-6 <? leftdigits) then leftdigits else 1 in
      let intpart :=
        if dotplace <=? 0 then "0"
        else if n <=? dotplace
             then digits ++ PyStr.repeat "0" (Z.to_nat (dotplace - n))
             else PyStr.take (Z.to_nat dotplace) digits in
      let fracpart :=
        if dotplace <=? 0
        then "." ++ PyStr.repeat "0" (Z.to_nat (- dotplace)) ++ digits
        else if n <=? dotplace then ""
             else "." ++ PyStr.drop (Z.to_nat dotplace) digits in
      let e :=
        if leftdigits =? dotplace then ""
        else "E" ++ fmt_plus_d (leftdigits - dotplace) in
      (if sign then "-" else "") ++ intpart ++ fracpart ++ e
  end.

(** The number a finite [Decimal] stands for. *)
Definition pow10 (e : Z) : Q := Qpower (inject_Z 10) e.

Definition value (d : Decimal) : option Q :=
  match d with
  | Finite sign digits exp =>
      let m := (inject_Z (Z.of_N (digits_val digits)) * pow10 exp)%Q in
      Some (if sign then (- m)%Q else m)
  | _ => None
  end.

End PyDecimal.

(* ------------------------------------------------------------------ *)
(** * bot/validators.py *)
(* ------------------------------------------------------------------ *)

Module Validators.

Import PyDecimal.

Definition VALID_SIDES : list string := ["BUY"; "SELL"].
Definition VALID_ORDER_TYPES : list string :=
  ["MARKET"; "LIMIT"; "STOP_MARKET"; "STOP_LIMIT"].

(** [SYMBOL_PATTERN.match(s)] for the pattern [^[A-Z0-9]{3,20}$]: between
    three and twenty characters of the class, up to the end of the string
    or up to a final line feed, which [$] lets pass. *)
Definition symbol_char (c : ascii) : bool :=
  PyStr.is_upper c || PyStr.is_digit c.

Definition SYMBOL_PATTERN_match (s : string) : bool :=
  let (body, rest) := PyStr.span symbol_char s in
  (3 <=? String.length body)%nat && (String.length body <=? 20)%nat
  && (String.eqb rest "" || String.eqb rest (String "010" "")).

(** The canonical parameter dict of [validate_all]. *)
Record params : Type := mk_params {
  p_symbol : string;
  p_side : string;
  p_order_type : string;
  p_quantity : Decimal;
  p_price : option Decimal;
  p_stop_price : option Decimal
}.

Definition validate_symbol (symbol : string) : result string :=
  let s := PyStr.upper (PyStr.strip symbol) in
  if negb (SYMBOL_PATTERN_match s) then
    Raise (ValidationError
      ("Invalid symbol '" ++ symbol
       ++ "'. Expected uppercase alphanumeric (e.g. BTCUSDT)."))
  else Return s.

Definition validate_side (side : string) : result string :=
  let s := PyStr.upper (PyStr.strip side) in
  if negb (PyStr.mem s VALID_SIDES) then
    Raise (ValidationError
      ("Invalid side '" ++ side ++ "'. Must be one of: "
       ++ PyStr.join ", " (PyStr.sorted VALID_SIDES) ++ "."))
  else Return s.

Definition validate_order_type (order_type : string) : result string :=
  let ot := PyStr.upper (PyStr.strip order_type) in
  if negb (PyStr.mem ot VALID_ORDER_TYPES) then
    Raise (ValidationError
      ("Invalid order type '" ++ order_type ++ "'. Must be one of: "
       ++ PyStr.join ", " (PyStr.sorted VALID_ORDER_TYPES) ++ "."))
  else Return ot.

(** [try: d = Decimal(str(x)) / except InvalidOperation: raise
    ValidationError(msg)]: only the exception of the constructor is
    translated. *)
Definition parse_or (msg : string) (x : string) : result Decimal :=
  match of_str x with
  | Return d => Return d
  | Raise InvalidOperation => Raise (ValidationError msg)
  | Raise e => Raise e
  end.

Definition validate_quantity (quantity : string) : result Decimal :=
  qty <- parse_or ("Invalid quantity '" ++ quantity
                   ++ "'. Must be a positive number.") quantity ;;
  nonpos <- le_zero qty ;;
  if (nonpos : bool) then
    Raise (ValidationError
      ("Quantity must be greater than zero, got: " ++ to_str qty ++ "."))
  else Return qty.

(** [x is None or str(x).strip() == ""] *)
Definition absent (x : option string) : bool :=
  match x with
  | None => true
  | Some s => String.eqb (PyStr.strip s) ""
  end.

Definition validate_price (price : option string) (order_type : string)
  : result (option Decimal) :=
  let ot := PyStr.upper (PyStr.strip order_type) in
  let needs_price := PyStr.mem ot ["LIMIT"; "STOP_LIMIT"] in
  if needs_price && absent price then
    Raise (ValidationError ("Price is required for " ++ ot ++ " orders."))
  else
    match price with
    | None => Return None
    | Some s =>
        if String.eqb (PyStr.strip s) "" then Return None
        else
          p <- parse_or ("Invalid price '" ++ s
                         ++ "'. Must be a positive number.") s ;;
          nonpos <- le_zero p ;;
          if (nonpos : bool) then
            Raise (ValidationError
              ("Price must be greater than zero, got: " ++ to_str p ++ "."))
          else Return (Some p)
    end.

Definition validate_stop_price (stop_price : option string)
  (order_type : string) : result (option Decimal) :=
  let ot := PyStr.upper (PyStr.strip order_type) in
  let needs_stop := PyStr.mem ot ["STOP_MARKET"; "STOP_LIMIT"] in
  if needs_stop && absent stop_price then
    Raise (ValidationError
      ("Stop price (--stop-price) is required for " ++ ot ++ " orders."))
  else
    match stop_price with
    | None => Return None
    | Some s =>
        if String.eqb (PyStr.strip s) "" then Return None
        else
          sp <- parse_or ("Invalid stop price '" ++ s
                          ++ "'. Must be a positive number.") s ;;
          nonpos <- le_zero sp ;;
          if (nonpos : bool) then
            Raise (ValidationError
              ("Stop price must be greater than zero, got: "
               ++ to_str sp ++ "."))
          else Return (Some sp)
    end.

(** The dict display evaluates its values in order, so the first failing
    validator decides the exception. *)
Definition validate_all (symbol side order_type quantity : string)
  (price stop_price : option string) : result params :=
  v_symbol <- validate_symbol symbol ;;
  v_side <- validate_side side ;;
  v_type <- validate_order_type order_type ;;
  v_quantity <- validate_quantity quantity ;;
  v_price <- validate_price price order_type ;;
  v_stop <- validate_stop_price stop_price order_type ;;
  Return (mk_params v_symbol v_side v_type v_quantity v_price v_stop).

End Validators.

(* ------------------------------------------------------------------ *)
(** * hashlib.sha256 and hmac *)
(* ------------------------------------------------------------------ *)

Module Sha256.

Local Open Scope list_scope.

Definition w32 (x : Z) : Z := x mod 2 ^ 32.
Definition add32 (x y : Z) : Z := w32 (x + y).
Definition rotr (n x : Z) : Z :=
  Z.lor (Z.shiftr x n) (w32 (Z.shiftl x (32 - n))).
Definition not32 (x : Z) : Z := Z.lxor x (2 ^ 32 - 1).

Definition ch (x y z : Z) : Z := Z.lxor (Z.land x y) (Z.land (not32 x) z).
Definition maj (x y z : Z) : Z :=
  Z.lxor (Z.lxor (Z.land x y) (Z.land x z)) (Z.land y z).
Definition bsig0 (x : Z) : Z := Z.lxor (Z.lxor (rotr 2 x) (rotr 13 x)) (rotr 22 x).
Definition bsig1 (x : Z) : Z := Z.lxor (Z.lxor (rotr 6 x) (rotr 11 x)) (rotr 25 x).
Definition ssig0 (x : Z) : Z := Z.lxor (Z.lxor (rotr 7 x) (rotr 18 x)) (Z.shiftr x 3).
Definition ssig1 (x : Z) : Z := Z.lxor (Z.lxor (rotr 17 x) (rotr 19 x)) (Z.shiftr x 10).

(** The round constants and the initial state are the leading 32 fraction
    bits of the cube roots, respectively square roots, of the first primes;
    they are computed here rather than tabulated. *)
Definition is_prime (n : Z) : bool :=
  (1 <? n) && forallb (fun d => negb (n mod d =? 0) || (n <=? d))
                      (List.map Z.of_nat (seq 2 18)).

Definition primes64 : list Z :=
  Eval vm_compute in filter is_prime (List.map Z.of_nat (seq 2 310)).

(** Integer cube root by bisection on [lo, hi). *)
Fixpoint cbrt_search (fuel : nat) (n lo hi : Z) : Z :=
  match fuel with
  | O => lo
  | S k =>
      if hi - lo <=? 1 then lo
      else let mid := (lo + hi) / 2 in
           if mid * mid * mid <=? n then cbrt_search k n mid hi
           else cbrt_search k n lo mid
  end.

Definition cbrt (n : Z) : Z := cbrt_search 200 n 0 (2 ^ 40).

Definition K : list Z :=
  Eval vm_compute in List.map (fun p => w32 (cbrt (p * 2 ^ 96))) primes64.

Record state : Type := mk_state {
  h0 : Z; h1 : Z; h2 : Z; h3 : Z; h4 : Z; h5 : Z; h6 : Z; h7 : Z
}.

Definition init : state :=
  Eval vm_compute in
  let r i := w32 (Z.sqrt (nth i primes64 0 * 2 ^ 64)) in
  mk_state (r 0%nat) (r 1%nat) (r 2%nat) (r 3%nat)
           (r 4%nat) (r 5%nat) (r 6%nat) (r 7%nat).

Definition bytes_of_string (s : string) : list Z :=
  List.map (fun c => Z.of_N (N_of_ascii c)) (list_ascii_of_string s).

Definition be_bytes (n : nat) (x : Z) : list Z :=
  List.map (fun i => Z.land (Z.shiftr x (8 * Z.of_nat i)) 255) (rev (seq 0 n)).

(** Padding: a one bit, zeros, and the bit length on eight bytes. *)
Definition pad (msg : list Z) : list Z :=
  let len := Z.of_nat (List.length msg) in
  let zeros := Z.to_nat ((55 - len) mod 64) in
  msg ++ [128] ++ List.repeat 0 zeros ++ be_bytes 8 (8 * len).

Fixpoint words (fuel : nat) (bs : list Z) : list Z :=
  match fuel, bs with
  | S k, a :: b :: c :: d :: r =>
      (Z.shiftl a 24 + Z.shiftl b 16 + Z.shiftl c 8 + d) :: words k r
  | _, _ => []
  end.

(** The message schedule, newest word first. *)
Fixpoint schedule (n : nat) (rev_w : list Z) : list Z :=
  match n with
  | O => rev_w
  | S k =>
      let w := add32 (add32 (ssig1 (nth 1 rev_w 0)) (nth 6 rev_w 0))
                     (add32 (ssig0 (nth 14 rev_w 0)) (nth 15 rev_w 0)) in
      schedule k (w :: rev_w)
  end.

Definition round (st : state) (kw : Z * Z) : state :=
  let (k, w) := kw in
  let t1 := add32 (add32 (add32 (h7 st) (bsig1 (h4 st)))
                         (add32 (ch (h4 st) (h5 st) (h6 st)) k)) w in
  let t2 := add32 (bsig0 (h0 st)) (maj (h0 st) (h1 st) (h2 st)) in
  mk_state (add32 t1 t2) (h0 st) (h1 st) (h2 st)
           (add32 (h3 st) t1) (h4 st) (h5 st) (h6 st).

Definition compress (st : state) (block : list Z) : state :=
  let ws := rev (schedule 48 (rev (words 16 block))) in
  let r := fold_left round (combine K ws) st in
  mk_state (add32 (h0 st) (h0 r)) (add32 (h1 st) (h1 r))
           (add32 (h2 st) (h2 r)) (add32 (h3 st) (h3 r))
           (add32 (h4 st) (h4 r)) (add32 (h5 st) (h5 r))
           (add32 (h6 st) (h6 r)) (add32 (h7 st) (h7 r)).

Fixpoint blocks (fuel : nat) (st : state) (bs : list Z) : state :=
  match fuel, bs with
  | S k, _ :: _ => blocks k (compress st (firstn 64 bs)) (skipn 64 bs)
  | _, _ => st
  end.

Definition sha256 (msg : list Z) : state :=
  let p := pad msg in blocks (List.length p) init p.

Definition digest (st : state) : list Z :=
  be_bytes 4 (h0 st) ++ be_bytes 4 (h1 st) ++ be_bytes 4 (h2 st)
  ++ be_bytes 4 (h3 st) ++ be_bytes 4 (h4 st) ++ be_bytes 4 (h5 st)
  ++ be_bytes 4 (h6 st) ++ be_bytes 4 (h7 st).

Definition hexdigits : list ascii :=
  list_ascii_of_string "0123456789abcdef".

Definition hexchar (x : Z) : ascii := nth (Z.to_nat x) hexdigits "0"%char.

Definition nibble (x : Z) (i : Z) : ascii :=
  hexchar (Z.land (Z.shiftr x (4 * i)) 15).

Definition hex8 (x : Z) (tail : string) : string :=
  String (nibble x 7) (String (nibble x 6) (String (nibble x 5)
  (String (nibble x 4) (String (nibble x 3) (String (nibble x 2)
  (String (nibble x 1) (String (nibble x 0) tail))))))).

(** [.hexdigest()] *)
Definition hexdigest (st : state) : string :=
  hex8 (h0 st) (hex8 (h1 st) (hex8 (h2 st) (hex8 (h3 st)
  (hex8 (h4 st) (hex8 (h5 st) (hex8 (h6 st) (hex8 (h7 st) ""))))))).

(** [hmac.new(key, msg, hashlib.sha256)] *)
Definition hmac (key msg : list Z) : state :=
  let key1 := if (64 <? Z.of_nat (List.length key)) then digest (sha256 key)
              else key in
  let key2 := key1 ++ List.repeat 0 (64 - List.length key1) in
  let ipad := List.map (Z.lxor 54) key2 in
  let opad := List.map (Z.lxor 92) key2 in
  sha256 (opad ++ digest (sha256 (ipad ++ msg))).

Definition hmac_hexdigest (key msg : string) : string :=
  hexdigest (hmac (bytes_of_string key) (bytes_of_string msg)).

End Sha256.

(* ------------------------------------------------------------------ *)
(** * Python dicts and urllib.parse.urlencode *)
(* ------------------------------------------------------------------ *)

Module Dict.

Local Open Scope list_scope.

(** Items in insertion order; a well-formed dict has no repeated key. *)
Definition dict (V : Type) : Type := list (string * V).

Definition keys {V} (d : dict V) : list string := List.map fst d.

Definition wf {V} (d : dict V) : Prop := NoDup (keys d).

(** [d.get(k)] *)
Fixpoint get {V} (k : string) (d : dict V) : option V :=
  match d with
  | [] => None
  | (k', v) :: r => if String.eqb k k' then Some v else get k r
  end.

(** [k in d] *)
Definition has {V} (k : string) (d : dict V) : bool :=
  match get k d with Some _ => true | None => false end.

(** [d[k] = v]: an existing key keeps its place and takes the new value,
    a new key goes last. *)
Fixpoint set {V} (k : string) (v : V) (d : dict V) : dict V :=
  match d with
  | [] => [(k, v)]
  | (k', v') :: r =>
      if String.eqb k k' then (k', v) :: r else (k', v') :: set k v r
  end.

(** [{**d, **e}] is [update (update [] d) e]. *)
Definition update {V} (d e : dict V) : dict V :=
  fold_left (fun acc kv => set (fst kv) (snd kv) acc) e d.

End Dict.

(** The values the client puts in request mappings. *)
Inductive pyval : Type :=
| VStr (s : string)
| VInt (z : Z).

Definition pyval_str (v : pyval) : string :=
  match v with
  | VStr s => s
  | VInt z => PyStr.of_Z z
  end.

Module Url.

(** Characters [quote] never escapes: letters, digits and [_.-~]. *)
Definition always_safe (c : ascii) : bool :=
  PyStr.is_alnum c
  || Ascii.eqb c "_" || Ascii.eqb c "." || Ascii.eqb c "-" || Ascii.eqb c "~".

Definition upper_hexchar (x : Z) : ascii :=
  PyStr.upper_char (Sha256.hexchar x).

Definition quote_char (c : ascii) (tail : string) : string :=
  if always_safe c then String c tail
  else if Ascii.eqb c " " then String "+" tail
  else
    let n := Z.of_N (N_of_ascii c) in
    String "%" (String (upper_hexchar (n / 16))
                       (String (upper_hexchar (n mod 16)) tail)).

(** [quote_plus(s)] with the default empty [safe]. *)
Fixpoint quote_plus (s : string) : string :=
  match s with
  | EmptyString => EmptyString
  | String c r => quote_char c (quote_plus r)
  end.

Definition encode_item (kv : string * pyval) : string :=
  quote_plus (fst kv) ++ "=" ++ quote_plus (pyval_str (snd kv)).

(** [urlencode(d)] *)
Definition urlencode (d : Dict.dict pyval) : string :=
  PyStr.join "&" (List.map encode_item d).

End Url.

(* ------------------------------------------------------------------ *)
(** * bot/client.py *)
(* ------------------------------------------------------------------ *)

Module Client.

Import Dict.

Definition BASE_URL : string := "https://testnet.binance.vision".
Definition RECV_WINDOW : Z := 5000.

Record BinanceClient : Type := mk_client {
  api_key : string;
  api_secret : string;
  base_url : string
}.

(** What [session.request] is called with. *)
Record HttpRequest : Type := mk_request {
  rq_method : string;
  rq_url : string;
  rq_params : option (dict pyval);
  rq_data : option string;
  rq_timeout : Z
}.

Record Response : Type := mk_response {
  status_code : Z;
  text : string;
  json_body : option json      (* [None]: [resp.json()] raises ValueError *)
}.

(** What [session.request] does with a request: it answers, or it raises.
    Of the exceptions of [requests], [ConnectTimeout] is a
    [ConnectionError] and a [Timeout] at once; the other connection errors
    are no timeouts, and the other timeouts ([ReadTimeout]) no connection
    errors. *)
Inductive outcome : Type :=
| Responded (resp : Response)
| ConnectionFailed (detail : string)  (* a ConnectionError that is no Timeout *)
| ConnectTimedOut (detail : string)   (* requests.exceptions.ConnectTimeout *)
| TimedOut (detail : string)          (* a Timeout that is no ConnectionError *)
| Failed (e : exn).                   (* any other exception of the transport *)

(** [isinstance(exc, requests.exceptions.ConnectionError)] and
    [isinstance(exc, requests.exceptions.Timeout)] for what was raised. *)
Definition is_ConnectionError (o : outcome) : bool :=
  match o with ConnectionFailed _ | ConnectTimedOut _ => true | _ => false end.

Definition is_Timeout (o : outcome) : bool :=
  match o with ConnectTimedOut _ | TimedOut _ => true | _ => false end.

(** The world around one call: the clock reading of [_timestamp] and the
    transport. *)
Record Env : Type := mk_env {
  now_ms : Z;
  session_request : HttpRequest -> outcome
}.

Definition _sign (c : BinanceClient) (params : dict pyval) : string :=
  let query := Url.urlencode params in
  Sha256.hmac_hexdigest (api_secret c) query.

Definition _timestamp (env : Env) : Z := now_ms env.

(** The mapping that is signed: [{**params, **data, "timestamp": ...,
    "recvWindow": RECV_WINDOW}]. *)
Definition unsigned_payload (env : Env) (params data : dict pyval)
  : dict pyval :=
  set "recvWindow" (VInt RECV_WINDOW)
    (set "timestamp" (VInt (_timestamp env))
       (update (update [] params) data)).

(** [payload] after [payload["signature"] = self._sign(payload)]. *)
Definition signed_payload (c : BinanceClient) (env : Env)
  (params data : dict pyval) : dict pyval :=
  let payload := unsigned_payload env params data in
  set "signature" (VStr (_sign c payload)) payload.

Definition is_query_method (method : string) : bool :=
  PyStr.mem (PyStr.upper method) ["GET"; "DELETE"].

(** The request [_request] hands to the session. *)
Definition build_request (c : BinanceClient) (env : Env)
  (method endpoint : string) (signed : bool) (params data : dict pyval)
  : HttpRequest :=
  let url := base_url c ++ endpoint in
  let (params1, data1) :=
    if signed then
      let payload := signed_payload c env params data in
      if is_query_method method then (payload, []) else ([], payload)
    else (params, data) in
  mk_request method url
    (match params1 with [] => None | _ => Some params1 end)
    (match data1 with [] => None | _ => Some (Url.urlencode data1) end)
    10.

(** [resp.raise_for_status()]; the library's message, which names the
    reason phrase and the URL, is shortened. *)
Definition raise_for_status (resp : Response) : result unit :=
  if (400 <=? status_code resp) && (status_code resp <? 600)
  then Raise (HTTPError (PyStr.of_Z (status_code resp) ++ " Error"))
  else Return tt.

(** [x < 0] for a decoded JSON value: numbers compare ([bool] is an
    [int]), anything else is a TypeError. *)
Definition lt_zero (x : json) : result bool :=
  match x with
  | JInt z => Return (z <? 0)
  | JFloat f => Return (PrimFloat.ltb f 0%float)
  | JBool _ => Return false
  | _ => Raise (TypeError "'<' not supported")
  end.

Definition json_get (k : string) (default : json) (d : dict json) : json :=
  match get k d with Some v => v | None => default end.

(** The closing test of [_request]: a status of 400 or more is an error
    even when the body carries no negative code. *)
Definition check_status (resp : Response) (body : json) : result json :=
  if 400 <=? status_code resp then
    match body with
    | JObj d =>
        Raise (BinanceAPIError
                 (json_get "code" (JInt (status_code resp)) d)
                 (json_get "msg" (JStr (text resp)) d)
                 (status_code resp))
    | _ => _ <- raise_for_status resp ;; Return body
    end
  else Return body.

(** The part of [_request] after the response has arrived. *)
Definition handle_response (resp : Response) : result json :=
  match json_body resp with
  | None =>
      _ <- raise_for_status resp ;;
      Raise (ValueError "response body is not JSON")
  | Some body =>
      match body with
      | JObj d =>
          match get "code" d with
          | Some code =>
              negative <- lt_zero code ;;
              if (negative : bool) then
                Raise (BinanceAPIError code
                         (json_get "msg" (JStr "Unknown error") d)
                         (status_code resp))
              else check_status resp body
          | None => check_status resp body
          end
      | _ => check_status resp body
      end
  end.

Definition _request (c : BinanceClient) (env : Env)
  (method endpoint : string) (signed : bool) (params data : dict pyval)
  : result json :=
  let rq := build_request c env method endpoint signed params data in
  match session_request env rq with
  | Responded resp => handle_response resp
  | Failed e => Raise e
  | raised =>
      (* the [except] clauses in their order: the first one that fits *)
      if is_ConnectionError raised then
        Raise (ConnectionError
          ("Cannot connect to Binance Testnet (" ++ rq_url rq
           ++ "). Check your internet."))
      else Raise (TimeoutError "Request to Binance timed out.")
  end.

(** The [data] mapping of [place_order]. *)
Definition order_data (symbol side order_type : string)
  (quantity : PyDecimal.Decimal) (price stop_price : option PyDecimal.Decimal)
  (time_in_force : string) : dict pyval :=
  let data :=
    [("symbol", VStr symbol); ("side", VStr side); ("type", VStr order_type);
     ("quantity", VStr (PyDecimal.to_str quantity))] in
  let data :=
    if String.eqb order_type "LIMIT" then
      let data := set "timeInForce" (VStr time_in_force) data in
      match price with
      | Some p => set "price" (VStr (PyDecimal.to_str p)) data
      | None => data
      end
    else data in
  match stop_price with
  | Some sp => set "stopPrice" (VStr (PyDecimal.to_str sp)) data
  | None => data
  end.

(** [response.get(...)] of the closing log line needs a mapping. *)
Definition log_order (response : json) : result unit :=
  match response with
  | JObj _ => Return tt
  | _ => Raise (no_get response)
  end.

Definition place_order (c : BinanceClient) (env : Env)
  (symbol side order_type : string) (quantity : PyDecimal.Decimal)
  (price stop_price : option PyDecimal.Decimal)
  (time_in_force : string) (reduce_only : bool) : result json :=
  let data :=
    order_data symbol side order_type quantity price stop_price
               time_in_force in
  response <- _request c env "POST" "/api/v3/order" true [] data ;;
  _ <- log_order response ;;
  Return response.

Definition cancel_order (c : BinanceClient) (env : Env)
  (symbol : string) (order_id : Z) : result json :=
  let data := [("symbol", VStr symbol); ("orderId", VInt order_id)] in
  _request c env "DELETE" "/api/v3/order" true [] data.

Definition symbol_filter (symbol : option string) : dict pyval :=
  match symbol with
  | Some (String c r) => [("symbol", VStr (String c r))]
  | _ => []
  end.

Definition get_open_orders (c : BinanceClient) (env : Env)
  (symbol : option string) : result json :=
  _request c env "GET" "/api/v3/openOrders" true (symbol_filter symbol) [].

Definition get_account (c : BinanceClient) (env : Env) : result json :=
  _request c env "GET" "/api/v3/account" true [] [].

(** [BinanceClient.__init__]: empty credentials are refused, and the base
    URL loses its trailing slashes. *)
Definition init (key secret url : string) : result BinanceClient :=
  if String.eqb key "" || String.eqb secret "" then
    Raise (ValueError "API key and secret must not be empty.")
  else Return (mk_client key secret (PyStr.rstrip_char "/" url)).

(** [ping]: every exception of the request is swallowed. *)
Definition ping (c : BinanceClient) (env : Env) : bool :=
  match _request c env "GET" "/api/v3/ping" false [] [] with
  | Return _ => true
  | Raise _ => false
  end.

Definition get_exchange_info (c : BinanceClient) (env : Env)
  (symbol : option string) : result json :=
  _request c env "GET" "/api/v3/exchangeInfo" false (symbol_filter symbol) [].

End Client.

(* ------------------------------------------------------------------ *)
(** * bot/orders.py *)
(* ------------------------------------------------------------------ *)

Module Orders.

Import Validators.

Record OrderResult : Type := mk_result {
  success : bool;
  data : json;
  error : option string
}.

Section Formatting.

(** [str(x)] for a decoded JSON value that is neither a string nor an
    integer (Python's own rendering of floats, lists and dicts). *)
Variable py_repr : json -> string.

Definition json_str (x : json) : string :=
  match x with
  | JStr s => s
  | JInt z => PyStr.of_Z z
  | JNull => "None"
  | JBool true => "True"
  | JBool false => "False"
  | _ => py_repr x
  end.

(** [str(exc)] *)
Definition exn_str (e : exn) : string :=
  match e with
  | ValidationError m | ConnectionError m | TimeoutError m | HTTPError m
  | ValueError m | TypeError m | AttributeError m | OtherException m => m
  | InvalidOperation => "[<class 'decimal.InvalidOperation'>]"
  | BinanceAPIError code msg _ => "[" ++ json_str code ++ "] " ++ json_str msg
  end.

Definition failure (msg : string) : OrderResult :=
  mk_result false (JObj []) (Some msg).

Definition place_order (c : Client.BinanceClient) (env : Client.Env)
  (symbol side order_type quantity : string)
  (price stop_price : option string) (reduce_only : bool)
  : result OrderResult :=
  (* 1. Validate: only ValidationError is caught here *)
  match validate_all symbol side order_type quantity price stop_price with
  | Raise (ValidationError m) => Return (failure m)
  | Raise e => Raise e
  | Return params =>
      (* 2. Place order *)
      match Client.place_order c env (p_symbol params) (p_side params)
              (p_order_type params) (p_quantity params) (p_price params)
              (p_stop_price params) "GTC" reduce_only with
      | Return response => Return (mk_result true response None)
      | Raise (ValidationError m) => Return (failure m)
      | Raise (BinanceAPIError code msg _) =>
          Return (failure ("Binance API Error [" ++ json_str code ++ "]: "
                           ++ json_str msg))
      | Raise (ConnectionError m) | Raise (TimeoutError m) =>
          Return (failure ("Network Error: " ++ m))
      | Raise e => Return (failure ("Unexpected error: " ++ exn_str e))
      end
  end.

End Formatting.

(** [self.data.get(key, default)], on which the properties of an
    [OrderResult] rest; [None] is JSON's null. *)
Definition data_get (r : OrderResult) (key : string) (default : json)
  : result json :=
  match data r with
  | JObj d => Return (Client.json_get key default d)
  | x => Raise (no_get x)
  end.

Definition order_id (r : OrderResult) : result json :=
  data_get r "orderId" JNull.
Definition status (r : OrderResult) : result json :=
  data_get r "status" JNull.
Definition executed_qty (r : OrderResult) : result json :=
  data_get r "executedQty" (JStr "0").
Definition avg_price (r : OrderResult) : result json :=
  data_get r "avgPrice" (JStr "N/A").
Definition client_order_id (r : OrderResult) : result json :=
  data_get r "clientOrderId" JNull.

End Orders.

(* ------------------------------------------------------------------ *)
(** * bot/cli.py: the client of the commands *)
(* ------------------------------------------------------------------ *)

Module Cli.

(** How a command step ends: with a value, with [typer.Exit(code)], or
    with an exception nobody caught. *)
Inductive outcome (A : Type) : Type :=
| Done (a : A)
| Exit (code : Z)
| Uncaught (e : exn).
Arguments Done {A} a.
Arguments Exit {A} code.
Arguments Uncaught {A} e.

(** [os.getenv(name, "")] *)
Definition getenv_or_empty (environ : string -> option string)
  (name : string) : string :=
  match environ name with Some v => v | None => "" end.

(** [_get_client], given the process environment (the message printed
    before the exit is left out). *)
Definition _get_client (environ : string -> option string)
  : outcome Client.BinanceClient :=
  let api_key := PyStr.strip (getenv_or_empty environ "BINANCE_API_KEY") in
  let api_secret :=
    PyStr.strip (getenv_or_empty environ "BINANCE_API_SECRET") in
  if String.eqb api_key "" || String.eqb api_secret "" then Exit 1
  else
    match Client.init api_key api_secret Client.BASE_URL with
    | Return c => Done c
    | Raise e => Uncaught e
    end.

End Cli.


(* ------------------------------------------------------------------ *)
(** * Specification-side notions *)
(* ------------------------------------------------------------------ *)

Module Spec.

Import PyDecimal Validators.

(** The language of [^[A-Z0-9]{3,20}$] read as a whole-string match. *)
Definition is_symbol (s : string) : bool :=
  (3 <=? String.length s)%nat && (String.length s <=? 20)%nat
  && PyStr.forallb symbol_char s.

(** The canonical form the validators work on. *)
Definition canonical (s : string) : string := PyStr.upper (PyStr.strip s).

(** Empty or white space only. *)
Definition blank (s : string) : bool := PyStr.forallb PyStr.is_space s.


(** *** Trimming and upper-casing, said without the string methods *)








Definition price_required_msg (ot : string) : string :=
  "Price is required for " ++ ot ++ " orders.".

Definition stop_required_msg (ot : string) : string :=
  "Stop price (--stop-price) is required for " ++ ot ++ " orders.".

(** ** Decimal literals and the numbers they denote *)

Inductive sign : Type := NoSign | Plus | Minus.

Definition sign_str (sg : sign) : string :=
  match sg with NoSign => "" | Plus => "+" | Minus => "-" end.

Definition is_minus (sg : sign) : bool :=
  match sg with Minus => true | _ => false end.

(** A decimal literal as written: white space, an optional sign, the
    digits before the point, the digits after it when there is a point, an
    optional exponent (its marker, its sign, its digits), white space. *)
Record literal : Type := mk_literal {
  lit_lead : string;
  lit_sign : sign;
  lit_int : string;
  lit_frac : option string;
  lit_exp : option (ascii * sign * string);
  lit_trail : string
}.

Definition frac_digits (l : literal) : string :=
  match lit_frac l with Some f => f | None => "" end.

Definition frac_str (f : option string) : string :=
  match f with Some f => "." ++ f | None => "" end.

Definition exp_str (e : option (ascii * sign * string)) : string :=
  match e with
  | Some (m, sg, ds) => String m (sign_str sg ++ ds)
  | None => ""
  end.

(** The signed digits of the exponent, without the marker. *)
Definition exp_text (ex : option (ascii * sign * string)) : string :=
  match ex with
  | Some (_, sg, ds) => sign_str sg ++ ds
  | None => ""
  end.

(** The characters of a literal's core: not white space, not an
    underscore. *)
Definition solid (c : ascii) : bool :=
  negb (PyStr.is_space c) && negb (Ascii.eqb c "_").

(** The literal without its surrounding white space. *)
Definition core (l : literal) : string :=
  sign_str (lit_sign l) ++ lit_int l ++ frac_str (lit_frac l)
  ++ exp_str (lit_exp l).

(** The text of the literal. *)
Definition render (l : literal) : string :=
  lit_lead l ++ core l ++ lit_trail l.

Definition all_digits (s : string) : bool := PyStr.forallb PyStr.is_digit s.

Definition nonempty (s : string) : bool :=
  match s with EmptyString => false | _ => true end.

Definition exp_ok (e : option (ascii * sign * string)) : bool :=
  match e with
  | Some (m, _, ds) =>
      (Ascii.eqb m "e" || Ascii.eqb m "E") && all_digits ds && nonempty ds
  | None => true
  end.

(** Well-formed literals: digits where digits belong, and at least one
    digit in the coefficient. *)
Definition well_formed (l : literal) : bool :=
  blank (lit_lead l) && blank (lit_trail l)
  && all_digits (lit_int l) && all_digits (frac_digits l)
  && nonempty (lit_int l ++ frac_digits l)
  && exp_ok (lit_exp l).

(** Positional value of a string of digits. *)
Fixpoint positional (s : string) : N :=
  match s with
  | EmptyString => 0%N
  | String c r =>
      (digit_val c * 10 ^ N.of_nat (String.length r) + positional r)%N
  end.

Definition exponent (l : literal) : Z :=
  match lit_exp l with
  | Some (_, sg, ds) =>
      if is_minus sg then - Z.of_N (positional ds) else Z.of_N (positional ds)
  | None => 0
  end.

(** The decimal the constructor is expected to build for a literal. *)
Definition lit_decimal (l : literal) : Decimal :=
  Finite (is_minus (lit_sign l))
         (str_int (lit_int l ++ frac_digits l))
         (exponent l - Z.of_nat (String.length (frac_digits l))).





(** *** The limits of the decimal module, on literals *)





(** *** Exact decimals, as the specification words them *)





(** ** The signed envelope *)

Definition is_hex (c : ascii) : bool :=
  PyStr.is_digit c || PyStr.in_range 97 102 c.

(** Sixty-four hexadecimal digits. *)
Definition is_hex64 (s : string) : bool :=
  (String.length s =? 64)%nat && PyStr.forallb is_hex s.

(** The keys the envelope adds itself. *)
Definition RESERVED : list string := ["timestamp"; "recvWindow"; "signature"].

Definition no_reserved_key (d : Dict.dict pyval) : bool :=
  List.forallb (fun k => negb (PyStr.mem k RESERVED)) (Dict.keys d).

(** The caller's fields: [{**params, **data}]. *)
Definition merged (params data : Dict.dict pyval) : Dict.dict pyval :=
  Dict.update (Dict.update [] params) data.

(** The two synchronisation fields, in the order they are written. *)
Definition sync_fields (env : Client.Env) : Dict.dict pyval :=
  [("timestamp", VInt (Client.now_ms env));
   ("recvWindow", VInt Client.RECV_WINDOW)].

(** The signature the layout calls for: HMAC-SHA256, keyed by the secret,
    of the encoded caller fields followed by the synchronisation fields. *)
Definition expected_signature (c : Client.BinanceClient) (env : Client.Env)
  (params data : Dict.dict pyval) : string :=
  Sha256.hmac_hexdigest (Client.api_secret c)
    (Url.urlencode (merged params data ++ sync_fields env)%list).

(** The layout of a signed mapping: caller fields, [timestamp],
    [recvWindow], and the signature as the last key. *)
Definition envelope_items (c : Client.BinanceClient) (env : Client.Env)
  (params data : Dict.dict pyval) : Prop :=
  Client.signed_payload c env params data
  = (merged params data ++ sync_fields env
     ++ [("signature", VStr (expected_signature c env params data))])%list
  /\ is_hex64 (expected_signature c env params data) = true.

Definition envelope_tail (c : Client.BinanceClient) (env : Client.Env)
  (params data : Dict.dict pyval) : string :=
  "timestamp=" ++ PyStr.of_Z (Client.now_ms env)
  ++ "&recvWindow=5000&signature=" ++ expected_signature c env params data.

(** The layout as the specification words it for every signed request:
    the encoded mapping ends in [&timestamp=..&recvWindow=5000&signature=..]. *)
Definition envelope_as_stated (c : Client.BinanceClient) (env : Client.Env)
  (params data : Dict.dict pyval) : Prop :=
  envelope_items c env params data
  /\ exists front,
      Url.urlencode (Client.signed_payload c env params data)
      = front ++ "&" ++ envelope_tail c env params data.

(** The layout the code has: the tail follows the encoded caller fields
    and an ampersand when there are caller fields, and stands alone
    otherwise. *)
Definition envelope_as_built (c : Client.BinanceClient) (env : Client.Env)
  (params data : Dict.dict pyval) : Prop :=
  envelope_items c env params data
  /\ Url.urlencode (Client.signed_payload c env params data)
     = match merged params data with
       | [] => envelope_tail c env params data
       | m => Url.urlencode m ++ "&" ++ envelope_tail c env params data
       end.

(** *** Reading a form back *)

(** The place of a character in a string. *)
Fixpoint index_in (s : string) (c : ascii) : option nat :=
  match s with
  | EmptyString => None
  | String a r =>
      if Ascii.eqb c a then Some O else option_map S (index_in r c)
  end.

Definition hex_value (c : ascii) : option nat :=
  match index_in "0123456789ABCDEF" c with
  | Some n => Some n
  | None => index_in "0123456789abcdef" c
  end.

(** The text an escaped form field stands for: [+] is a space and [%XY]
    the character of code [XY]. *)
Fixpoint unquote_plus (s : string) : string :=
  match s with
  | EmptyString => EmptyString
  | String c r =>
      if Ascii.eqb c "+" then String " " (unquote_plus r)
      else if Ascii.eqb c "%" then
        match r with
        | String a (String b r') =>
            match hex_value a, hex_value b with
            | Some x, Some y =>
                String (ascii_of_nat (16 * x + y)) (unquote_plus r')
            | _, _ => String c (unquote_plus r)
            end
        | _ => String c (unquote_plus r)
        end
      else String c (unquote_plus r)
  end.

(** [s] cut at its first [sep], and the pieces of [s] between the
    [sep]s. *)
Fixpoint cut (sep : ascii) (s : string) : string * string :=
  match s with
  | EmptyString => (EmptyString, EmptyString)
  | String c r =>
      if Ascii.eqb c sep then (EmptyString, r)
      else let (a, b) := cut sep r in (String c a, b)
  end.

Fixpoint pieces (sep : ascii) (s : string) : list string :=
  match s with
  | EmptyString => [EmptyString]
  | String c r =>
      if Ascii.eqb c sep then EmptyString :: pieces sep r
      else match pieces sep r with
           | x :: l => String c x :: l
           | [] => [String c EmptyString]
           end
  end.

(** A form-encoded body as its receiver reads it: the items between the
    ampersands, each a name and a value around its first equals sign. *)
Definition decode_form (body : string) : list (string * string) :=
  match body with
  | EmptyString => []
  | _ =>
      List.map (fun item => let (k, v) := cut "=" item in
                            (unquote_plus k, unquote_plus v))
               (pieces "&" body)
  end.

(** The fields of a mapping as text. *)
Definition fields_text (d : Dict.dict pyval) : list (string * string) :=
  List.map (fun kv => (fst kv, pyval_str (snd kv))) d.

(** The characters that may stand inside an escaped name or value. *)
Definition inner (c : ascii) : bool :=
  negb (Ascii.eqb c "&") && negb (Ascii.eqb c "=").

Definition no_ampersand (c : ascii) : bool := negb (Ascii.eqb c "&").

(** A client and a world for worked examples: the transport of
    [demo_env] times out. *)
Definition demo_client : Client.BinanceClient :=
  Client.mk_client "key" "secret" Client.BASE_URL.

Definition demo_env : Client.Env :=
  Client.mk_env 1499827319559 (fun _ => Client.TimedOut "").

(** ** Responses *)

(** A JSON number below zero. *)
Definition negative_number (x : json) : bool :=
  match x with
  | JInt z => z <? 0
  | JFloat f => PrimFloat.ltb f 0%float
  | _ => false
  end.

(** The responses [_request] answers with their body: a JSON body that,
    when it is a mapping, has no [code] or a number (or boolean) that is
    not below zero, on a status below 400; for a body that is no mapping a
    status of 600 or more passes too. *)
Definition accepted_response (resp : Client.Response) : bool :=
  match Client.json_body resp with
  | None => false
  | Some (JObj d) =>
      match Dict.get "code" d with
      | Some (JInt z) => negb (z <? 0)
      | Some (JFloat f) => negb (PrimFloat.ltb f 0%float)
      | Some (JBool _) => true
      | Some _ => false
      | None => true
      end
      && (Client.status_code resp <? 400)
  | Some _ =>
      (Client.status_code resp <? 400) || (600 <=? Client.status_code resp)
  end.

(** A [code] that cannot be compared with zero. *)
Definition incomparable (x : json) : bool :=
  match x with
  | JNull | JStr _ | JArr _ | JObj _ => true
  | _ => false
  end.

(** The decimals the numeric validators let through: a finite decimal
    with a non-zero coefficient and no minus sign, or plus infinity. *)
Definition positive_decimal (d : Decimal) : bool :=
  match d with
  | Finite sg ds _ => negb (is_zero ds) && negb sg
  | Infinity sg => negb sg
  | NaN _ _ _ => false
  end.

Definition positive_or_none (x : option Decimal) : bool :=
  match x with Some d => positive_decimal d | None => true end.

Definition present {A} (x : option A) : bool :=
  match x with Some _ => true | None => false end.

(** A mapping whose [code], if any, is a number (or boolean) that is not
    below zero. *)
Definition code_not_negative (d : Dict.dict json) : bool :=
  match Dict.get "code" d with
  | Some c => negb (incomparable c) && negb (negative_number c)
  | None => true
  end.

(** One round trip: the request goes to the transport, and the answer is
    turned into the result of [_request]. *)
Definition exchange (env : Client.Env) (rq : Client.HttpRequest)
  : result json :=
  match Client.session_request env rq with
  | Client.ConnectionFailed _ | Client.ConnectTimedOut _ =>
      Raise (ConnectionError
        ("Cannot connect to Binance Testnet (" ++ Client.rq_url rq
         ++ "). Check your internet."))
  | Client.TimedOut _ => Raise (TimeoutError "Request to Binance timed out.")
  | Client.Failed e => Raise e
  | Client.Responded resp => Client.handle_response resp
  end.

(** The query string that is signed for caller fields [d]. *)
Definition signed_query (env : Client.Env) (d : Dict.dict pyval) : string :=
  Url.urlencode (d ++ sync_fields env)%list.

(** The fields of an order as they go on the wire. *)
Definition order_fields (symbol side order_type : string)
  (quantity : Decimal) (price stop_price : option Decimal)
  (time_in_force : string) : Dict.dict pyval :=
  ([("symbol", VStr symbol); ("side", VStr side); ("type", VStr order_type);
    ("quantity", VStr (to_str quantity))]
   ++ (if String.eqb order_type "LIMIT" then
         ("timeInForce", VStr time_in_force)
         :: match price with
            | Some p => [("price", VStr (to_str p))]
            | None => []
            end
       else [])
   ++ match stop_price with
      | Some sp => [("stopPrice", VStr (to_str sp))]
      | None => []
      end)%list.

(** The symbol filter of the queries: a missing or empty symbol is no
    filter. *)
Definition filter_fields (symbol : option string) : Dict.dict pyval :=
  match symbol with
  | Some s => if String.eqb s "" then [] else [("symbol", VStr s)]
  | None => []
  end.

(** Caller fields [d] inside their envelope. *)
Definition enveloped (c : Client.BinanceClient) (env : Client.Env)
  (d : Dict.dict pyval) : Dict.dict pyval :=
  (d ++ sync_fields env
   ++ [("signature",
        VStr (Sha256.hmac_hexdigest (Client.api_secret c)
                (signed_query env d)))])%list.

(** A coefficient as the constructor stores it: digits, at least one, and
    no leading zero except for ["0"] itself. *)
Definition canonical_coeff (ds : string) : bool :=
  all_digits ds && nonempty ds && String.eqb (str_int ds) ds.

(** The decimals the constructor builds from a number or an infinity. *)
Definition canonical_decimal (d : Decimal) : bool :=
  match d with
  | Finite _ ds _ => canonical_coeff ds
  | Infinity _ => true
  | NaN _ _ _ => false
  end.

(** The literal that [str(d)] writes for a finite decimal, piece by
    piece. *)
Definition printed (sg : bool) (ds : string) (exp : Z) : literal :=
  let n := Z.of_nat (String.length ds) in
  let leftdigits := exp + n in
  let dotplace :=
    if (exp <=? 0) && (-6 <? leftdigits) then leftdigits else 1 in
  let k := leftdigits - dotplace in
  mk_literal ""
    (if sg then Minus else NoSign)
    (if dotplace <=? 0 then "0"
     else if n <=? dotplace then ds
          else PyStr.take (Z.to_nat dotplace) ds)
    (if dotplace <=? 0
     then Some (PyStr.repeat "0" (Z.to_nat (- dotplace)) ++ ds)
     else if n <=? dotplace then None
          else Some (PyStr.drop (Z.to_nat dotplace) ds))
    (if leftdigits =? dotplace then None
     else Some ("E"%char, if k <? 0 then Minus else Plus,
                PyStr.of_Z (Z.abs k)))
    "".

(** A number written without an exponent: digits, a point, a minus. *)
Definition plain_char (c : ascii) : bool :=
  PyStr.is_digit c || Ascii.eqb c "." || Ascii.eqb c "-".

Definition plain_number (s : string) : bool := PyStr.forallb plain_char s.

(** The strings the constructor reads as a NaN. *)
Definition reads_as_nan (s : string) : Prop :=
  exists sg signaling diag, of_str s = Return (NaN sg signaling diag).

Definition given_as_nan (x : option string) : Prop :=
  exists s, x = Some s /\ reads_as_nan s.

(** What validation returns for a market order of one BTCUSDT. *)
Definition sample_params : params :=
  mk_params "BTCUSDT" "BUY" "MARKET" (Finite false "1" 0) None None.

(** The request of an order: a POST whose form body is the order's
    fields in their envelope. *)
Definition order_request (c : Client.BinanceClient) (env : Client.Env)
  (symbol side order_type : string) (quantity : Decimal)
  (price stop_price : option Decimal) (time_in_force : string)
  : Client.HttpRequest :=
  Client.mk_request "POST" (Client.base_url c ++ "/api/v3/order") None
    (Some (Url.urlencode
             (enveloped c env
                (order_fields symbol side order_type quantity price
                              stop_price time_in_force))))
    10.

(** The request that [orders.place_order] makes for validated
    parameters. *)
Definition request_of (c : Client.BinanceClient) (env : Client.Env)
  (p : params) : Client.HttpRequest :=
  order_request c env (p_symbol p) (p_side p) (p_order_type p)
    (p_quantity p) (p_price p) (p_stop_price p) "GTC".

End Spec.

(* ------------------------------------------------------------------ *)
(** * Facts about strings *)
(* ------------------------------------------------------------------ *)

Module PyStrFacts.

Import PyStr.

Lemma append_nil_r (s : string) : s ++ "" = s.
Proof. induction s as [|c r IH]; simpl; [reflexivity | now rewrite IH]. Qed.

Lemma append_assoc (a b c : string) : (a ++ b) ++ c = a ++ (b ++ c).
Proof. induction a as [|x r IH]; simpl; [reflexivity | now rewrite IH]. Qed.

Lemma length_append (a b : string) :
  String.length (a ++ b) = (String.length a + String.length b)%nat.
Proof. induction a as [|x r IH]; simpl; [reflexivity | now rewrite IH]. Qed.

Lemma forallb_append (p : ascii -> bool) (a b : string) :
  forallb p (a ++ b) = forallb p a && forallb p b.
Proof.
  induction a as [|x r IH]; simpl; [reflexivity|].
  now rewrite IH, andb_assoc.
Qed.

Lemma forallb_impl (p q : ascii -> bool) (s : string) :
  (forall c, p c = true -> q c = true) ->
  forallb p s = true -> forallb q s = true.
Proof.
  intros I. induction s as [|c r IH]; simpl; [reflexivity|].
  intros H. apply andb_prop in H. destruct H as [Hc Hr].
  now rewrite (I _ Hc), IH.
Qed.

(** [span] splits its argument, the prefix satisfies the predicate and the
    rest does not start with a character that does. *)
Lemma span_spec (p : ascii -> bool) (s a b : string) :
  span p s = (a, b) ->
  s = a ++ b /\ forallb p a = true /\
  match b with String c _ => p c = false | EmptyString => True end.
Proof.
  revert a b. induction s as [|c r IH]; simpl; intros a b E.
  - inversion E; subst; simpl; auto.
  - destruct (p c) eqn:Pc.
    + destruct (span p r) as [a' b'] eqn:Er.
      inversion E; subst; clear E.
      destruct (IH a' b eq_refl) as (-> & Ha & Hb).
      simpl. rewrite Pc, Ha. auto.
    + inversion E; subst; simpl. rewrite Pc. auto.
Qed.

(** When the rest cannot be eaten, [span] finds exactly the prefix. *)
Lemma span_append (p : ascii -> bool) (a b : string) :
  forallb p a = true ->
  match b with String c _ => p c = false | EmptyString => True end ->
  span p (a ++ b) = (a, b).
Proof.
  intros Ha Hb. induction a as [|c r IH]; simpl in *.
  - destruct b as [|c r]; [reflexivity|]. simpl. now rewrite Hb.
  - apply andb_prop in Ha. destruct Ha as [Hc Hr].
    rewrite Hc, (IH Hr). reflexivity.
Qed.

Lemma last_append_one (a : string) (c : ascii) :
  last (a ++ String c "") = Some c.
Proof.
  induction a as [|x r IH]; simpl; [reflexivity|].
  destruct (r ++ String c "") eqn:E; [|exact IH].
  destruct r; discriminate.
Qed.

Lemma last_map (f : ascii -> ascii) (s : string) :
  last (map f s) = option_map f (last s).
Proof.
  induction s as [|c r IH]; simpl; [reflexivity|].
  destruct r as [|c' r']; simpl in *; [reflexivity | exact IH].
Qed.

Lemma rstrip_last (s : string) (c : ascii) :
  last (rstrip s) = Some c -> is_space c = false.
Proof.
  revert c. induction s as [|x r IH]; simpl; intros c; [discriminate|].
  destruct (rstrip r) as [|y r'] eqn:E.
  - destruct (is_space x) eqn:Sx; simpl; [discriminate|].
    now intros [= <-].
  - intros H. apply IH. exact H.
Qed.

Lemma strip_last (s : string) (c : ascii) :
  last (strip s) = Some c -> is_space c = false.
Proof. apply rstrip_last. Qed.

Lemma lstrip_blank (s : string) :
  forallb is_space s = true -> lstrip s = "".
Proof.
  induction s as [|c r IH]; simpl; [reflexivity|].
  intros H. apply andb_prop in H. destruct H as [Hc Hr].
  now rewrite Hc, IH.
Qed.

Lemma strip_blank (s : string) :
  forallb is_space s = true -> strip s = "".
Proof. intros H. unfold strip. now rewrite lstrip_blank. Qed.

Lemma rstrip_empty (s : string) :
  rstrip s = "" -> forallb is_space s = true.
Proof.
  induction s as [|c r IH]; simpl; [reflexivity|].
  destruct (rstrip r) eqn:E; [|discriminate].
  destruct (is_space c); [intros _; now rewrite IH | discriminate].
Qed.

Lemma lstrip_forallb (s : string) :
  forallb is_space (lstrip s) = true -> forallb is_space s = true.
Proof.
  induction s as [|c r IH]; simpl; [reflexivity|].
  destruct (is_space c) eqn:Sc; simpl; [exact IH|].
  rewrite Sc. discriminate.
Qed.

(** [s.strip() == ""] holds exactly for blank strings. *)
Lemma strip_empty_iff (s : string) :
  strip s = "" <-> forallb is_space s = true.
Proof.
  split; [|apply strip_blank].
  intros H. apply lstrip_forallb, rstrip_empty, H.
Qed.

Lemma upper_char_preserves_lf (c : ascii) :
  upper_char c = "010"%char -> c = "010"%char.
Proof.
  destruct c as [[] [] [] [] [] [] [] []]; vm_compute; congruence.
Qed.

Lemma mem_cons (x y : string) (l : list string) :
  mem x (y :: l) = String.eqb x y || mem x l.
Proof. reflexivity. Qed.

Lemma mem2 (x a b : string) :
  mem x [a; b] = true <-> x = a \/ x = b.
Proof.
  unfold mem; simpl. rewrite orb_false_r, orb_true_iff.
  now rewrite !String.eqb_eq.
Qed.

(** *** Stripping is trimming *)








End PyStrFacts.

(* ------------------------------------------------------------------ *)
(** * The decimal constructor *)
(* ------------------------------------------------------------------ *)

Module DecimalFacts.

Import PyStr PyStrFacts PyDecimal Spec.

(** The constructor has one way to fail. *)
Lemma of_str_raises (s : string) (e : exn) :
  of_str s = Raise e -> e = InvalidOperation.
Proof.
  unfold of_str.
  destruct (take_sign (remove "_" (strip s))) as [sg body].
  destruct (parse_number body) as [[[ip fp] ex]|].
  - cbv zeta. destruct (within_limits _ _); [discriminate|].
    now intros [= <-].
  - destruct (parse_inf body); [discriminate|].
    destruct (parse_nan body) as [[sig dg]|]; [discriminate|].
    now intros [= <-].
Qed.

(** *** Characters *)

Ltac by_cases c :=
  destruct c as [[] [] [] [] [] [] [] []]; vm_compute; intuition congruence.

Lemma digit_solid (c : ascii) : is_digit c = true -> solid c = true.
Proof. by_cases c. Qed.

Lemma digit_not_sign (c : ascii) :
  is_digit c = true -> c <> "-"%char /\ c <> "+"%char.
Proof. by_cases c. Qed.

Lemma digit_not_point (c : ascii) : is_digit c = true -> c <> "."%char.
Proof. by_cases c. Qed.

Lemma marker_cases (c : ascii) :
  Ascii.eqb (lower_char c) "e" = (Ascii.eqb c "e" || Ascii.eqb c "E").
Proof. by_cases c. Qed.

Lemma marker_facts (c : ascii) :
  (Ascii.eqb c "e" || Ascii.eqb c "E") = true ->
  solid c = true /\ is_digit c = false /\ c <> "."%char
  /\ c <> "-"%char /\ c <> "+"%char.
Proof. by_cases c. Qed.

(** *** Signs *)

Lemma take_sign_other (c : ascii) (r : string) :
  c <> "-"%char -> c <> "+"%char ->
  take_sign (String c r) = (false, String c r).
Proof.
  intros H1 H2.
  destruct c as [[] [] [] [] [] [] [] []]; try reflexivity; congruence.
Qed.

(** Reading a sign splits the string into a sign and the rest. *)
Lemma take_sign_spec (t body : string) (b : bool) :
  take_sign t = (b, body) ->
  exists sg, t = sign_str sg ++ body /\ is_minus sg = b.
Proof.
  destruct t as [|c r].
  - intros [= <- <-]. now exists NoSign.
  - destruct (Ascii.eqb c "-") eqn:E1.
    + apply Ascii.eqb_eq in E1. subst c. intros [= <- <-]. now exists Minus.
    + destruct (Ascii.eqb c "+") eqn:E2.
      * apply Ascii.eqb_eq in E2. subst c. intros [= <- <-]. now exists Plus.
      * apply Ascii.eqb_neq in E1, E2. rewrite take_sign_other by assumption.
        intros [= <- <-]. now exists NoSign.
Qed.

(** A sign in front of something that does not start with a sign is
    read back. *)
Lemma take_sign_render (sg : sign) (c : ascii) (r : string) :
  c <> "-"%char -> c <> "+"%char ->
  take_sign (sign_str sg ++ String c r) = (is_minus sg, String c r).
Proof.
  intros H1 H2. destruct sg; simpl; try reflexivity.
  now apply take_sign_other.
Qed.

(** *** Stripping and underscores *)

Lemma lstrip_append_blank (a b : string) :
  forallb is_space a = true -> lstrip (a ++ b) = lstrip b.
Proof.
  induction a as [|c r IH]; simpl; [reflexivity|].
  intros H. apply andb_prop in H. destruct H as [Hc Hr].
  now rewrite Hc, IH.
Qed.

Lemma rstrip_blank (a : string) :
  forallb is_space a = true -> rstrip a = "".
Proof.
  induction a as [|c r IH]; simpl; [reflexivity|].
  intros H. apply andb_prop in H. destruct H as [Hc Hr].
  now rewrite (IH Hr), Hc.
Qed.

Lemma rstrip_solid_append (a b : string) :
  forallb solid a = true -> forallb is_space b = true ->
  rstrip (a ++ b) = a.
Proof.
  intros Ha Hb. induction a as [|c r IH]; simpl.
  - now apply rstrip_blank.
  - simpl in Ha. apply andb_prop in Ha. destruct Ha as [Hc Hr].
    rewrite (IH Hr). destruct r as [|c' r']; [|reflexivity].
    unfold solid in Hc. apply andb_prop in Hc. destruct Hc as [Hc _].
    apply negb_true_iff in Hc. now rewrite Hc.
Qed.

Lemma strip_solid (lead a trail : string) :
  forallb is_space lead = true -> forallb is_space trail = true ->
  forallb solid a = true ->
  strip (lead ++ a ++ trail) = a.
Proof.
  intros Hl Ht Ha. unfold strip. rewrite lstrip_append_blank by assumption.
  destruct a as [|c r].
  - simpl. rewrite lstrip_blank by assumption. reflexivity.
  - assert (Hc : is_space c = false).
    { simpl in Ha. apply andb_prop in Ha. destruct Ha as [Hc _].
      unfold solid in Hc. apply andb_prop in Hc.
      now apply negb_true_iff, (proj1 Hc). }
    change (String c r ++ trail) with (String c (r ++ trail)).
    cbn [lstrip]. rewrite Hc.
    change (String c (r ++ trail)) with (String c r ++ trail).
    now apply rstrip_solid_append.
Qed.

Lemma remove_solid (a : string) :
  forallb solid a = true -> remove "_" a = a.
Proof.
  induction a as [|c r IH]; simpl; [reflexivity|].
  intros H. apply andb_prop in H. destruct H as [Hc Hr].
  unfold solid in Hc. apply andb_prop in Hc. destruct Hc as [_ Hc].
  apply negb_true_iff in Hc. now rewrite Hc, IH.
Qed.

Lemma take_drop (n : nat) (s : string) : take n s ++ drop n s = s.
Proof.
  revert s. induction n as [|k IH]; intros [|c r]; simpl; try reflexivity.
  now rewrite IH.
Qed.

(** *** The exponent and the fraction *)

Lemma parse_exp_sound (r e : string) :
  parse_exp r = Some e ->
  exists ex, exp_ok ex = true /\ r = exp_str ex /\ e = exp_text ex.
Proof.
  destruct r as [|c r]; simpl.
  - intros [= <-]. now exists None.
  - rewrite marker_cases.
    destruct (Ascii.eqb c "e" || Ascii.eqb c "E") eqn:M; [|discriminate].
    destruct (take_sign r) as [b ds] eqn:T.
    destruct (take_sign_spec _ _ _ T) as (sg & -> & _).
    destruct ds as [|d ds']; [discriminate|].
    destruct (forallb is_digit (String d ds')) eqn:D; [|discriminate].
    intros [= <-]. exists (Some (c, sg, String d ds')).
    simpl. unfold all_digits. now rewrite M, D.
Qed.

Lemma parse_exp_complete (ex : option (ascii * sign * string)) :
  exp_ok ex = true -> parse_exp (exp_str ex) = Some (exp_text ex).
Proof.
  destruct ex as [[[m sg] ds]|]; simpl; [|reflexivity].
  intros H. apply andb_prop in H. destruct H as [H Hn].
  apply andb_prop in H. destruct H as [Hm Hd].
  rewrite marker_cases, Hm.
  destruct ds as [|d ds']; [discriminate|].
  assert (Hd' := Hd). unfold all_digits in Hd'. simpl in Hd'.
  apply andb_prop in Hd'. destruct Hd' as [Hdig _].
  destruct (digit_not_sign _ Hdig) as [N1 N2].
  rewrite take_sign_render by assumption.
  unfold all_digits in Hd. now rewrite Hd.
Qed.

Lemma take_fraction_other (c : ascii) (r : string) :
  c <> "."%char -> take_fraction (String c r) = ("", String c r).
Proof.
  intros H.
  destruct c as [[] [] [] [] [] [] [] []]; try reflexivity; congruence.
Qed.

Lemma take_fraction_sound (r1 fp r2 : string) :
  take_fraction r1 = (fp, r2) ->
  exists frac, r1 = frac_str frac ++ r2
               /\ fp = match frac with Some f => f | None => "" end
               /\ all_digits fp = true.
Proof.
  destruct r1 as [|c r].
  - intros [= <- <-]. now exists None.
  - destruct (Ascii.eqb c ".") eqn:E.
    + apply Ascii.eqb_eq in E. subst c. simpl. intros H.
      destruct (span_spec _ _ _ _ H) as (-> & Hd & _).
      now exists (Some fp).
    + apply Ascii.eqb_neq in E. rewrite take_fraction_other by assumption.
      intros [= <- <-]. now exists None.
Qed.

(** The start of an exponent, or of nothing, is not a digit. *)
Lemma exp_str_no_digit (ex : option (ascii * sign * string)) :
  exp_ok ex = true ->
  match exp_str ex with
  | String c _ => is_digit c = false
  | EmptyString => True
  end.
Proof.
  destruct ex as [[[m sg] ds]|]; simpl; [|trivial].
  intros H. apply andb_prop in H. destruct H as [H _].
  apply andb_prop in H. destruct H as [Hm _].
  now destruct (marker_facts _ Hm) as (_ & ? & _).
Qed.

Lemma take_fraction_complete (frac : option string)
  (ex : option (ascii * sign * string)) :
  all_digits (match frac with Some f => f | None => "" end) = true ->
  exp_ok ex = true ->
  take_fraction (frac_str frac ++ exp_str ex)
  = (match frac with Some f => f | None => "" end, exp_str ex).
Proof.
  intros Hf He. destruct frac as [f|]; simpl.
  - apply span_append; [exact Hf | now apply exp_str_no_digit].
  - destruct ex as [[[m sg] ds]|]; simpl; [|reflexivity].
    simpl in He. apply andb_prop in He. destruct He as [He _].
    apply andb_prop in He. destruct He as [Hm _].
    destruct (marker_facts _ Hm) as (_ & _ & Np & _).
    now apply take_fraction_other.
Qed.

(** *** The finite alternative *)

Lemma nonempty_match {A} (s : string) (a b : A) :
  match s with EmptyString => a | String _ _ => b end
  = if nonempty s then b else a.
Proof. now destruct s. Qed.

Lemma parse_number_sound (body ip fp e : string) :
  parse_number body = Some (ip, fp, e) ->
  exists frac ex,
    body = ip ++ frac_str frac ++ exp_str ex
    /\ fp = match frac with Some f => f | None => "" end
    /\ all_digits ip = true /\ all_digits fp = true
    /\ nonempty (ip ++ fp) = true
    /\ exp_ok ex = true /\ e = exp_text ex.
Proof.
  unfold parse_number.
  destruct (span is_digit body) as [ip' r1] eqn:S1.
  destruct (take_fraction r1) as [fp' r2] eqn:F.
  rewrite nonempty_match.
  destruct (nonempty (ip' ++ fp')) eqn:Ne; [|discriminate].
  destruct (parse_exp r2) as [e'|] eqn:E; [|discriminate].
  intros [= <- <- <-].
  destruct (span_spec _ _ _ _ S1) as (-> & Hip & _).
  destruct (take_fraction_sound _ _ _ F) as (frac & -> & Hfp & Hfd).
  destruct (parse_exp_sound _ _ E) as (ex & Hex & -> & ->).
  exists frac, ex. repeat split; assumption.
Qed.

Lemma parse_number_complete (ip : string) (frac : option string)
  (ex : option (ascii * sign * string)) :
  let fp := match frac with Some f => f | None => "" end in
  all_digits ip = true -> all_digits fp = true ->
  nonempty (ip ++ fp) = true -> exp_ok ex = true ->
  parse_number (ip ++ frac_str frac ++ exp_str ex)
  = Some (ip, fp, exp_text ex).
Proof.
  intros fp Hip Hfp Hne Hex. unfold parse_number.
  rewrite (span_append is_digit ip (frac_str frac ++ exp_str ex)); [|exact Hip|].
  - rewrite take_fraction_complete by assumption. fold fp.
    rewrite nonempty_match, Hne.
    now rewrite parse_exp_complete.
  - destruct frac as [f|]; simpl; [reflexivity|].
    now apply exp_str_no_digit.
Qed.

(** *** The value of the digits *)

Lemma digits_val_positional (s : string) : digits_val s = positional s.
Proof.
  unfold digits_val.
  enough (H : forall acc,
             (fix go (acc : N) (s : string) : N :=
                match s with
                | EmptyString => acc
                | String c r => go (10 * acc + digit_val c)%N r
                end) acc s
             = (acc * 10 ^ N.of_nat (String.length s) + positional s)%N).
  { rewrite H. lia. }
  induction s as [|c r IH]; intros acc.
  - simpl. lia.
  - rewrite IH. cbn [String.length positional].
    rewrite Nat2N.inj_succ, N.pow_succ_r'. lia.
Qed.


Lemma lstrip_zeros_cases (s : string) :
  positional (lstrip_zeros s) = positional s
  /\ (all_digits s = true -> all_digits (lstrip_zeros s) = true)
  /\ match lstrip_zeros s with
     | String c _ => c <> "0"%char
     | EmptyString => True
     end.
Proof.
  induction s as [|c r IH]; [simpl; auto|].
  destruct (Ascii.eqb c "0") eqn:E.
  - apply Ascii.eqb_eq in E. subst c.
    change (lstrip_zeros (String "0" r)) with (lstrip_zeros r).
    destruct IH as (H1 & H2 & H3). repeat split.
    + rewrite H1. cbn [positional]. change (digit_val "0") with 0%N. lia.
    + intros H. apply H2. unfold all_digits in *. simpl in H.
      exact H.
    + exact H3.
  - apply Ascii.eqb_neq in E.
    assert (L : lstrip_zeros (String c r) = String c r).
    { destruct c as [[] [] [] [] [] [] [] []]; try reflexivity; congruence. }
    rewrite L. repeat split; auto.
Qed.




(** *** Literals are read as written *)

Lemma well_formed_parts (l : literal) :
  well_formed l = true ->
  blank (lit_lead l) = true /\ blank (lit_trail l) = true
  /\ all_digits (lit_int l) = true /\ all_digits (frac_digits l) = true
  /\ nonempty (lit_int l ++ frac_digits l) = true
  /\ exp_ok (lit_exp l) = true.
Proof.
  unfold well_formed. intros H.
  repeat (apply andb_prop in H; destruct H as [H ?]). auto 10.
Qed.

Lemma sign_str_solid (sg : sign) : forallb solid (sign_str sg) = true.
Proof. now destruct sg. Qed.

Lemma digits_solid (s : string) :
  all_digits s = true -> forallb solid s = true.
Proof. apply forallb_impl, digit_solid. Qed.

Lemma core_solid (l : literal) :
  well_formed l = true -> forallb solid (core l) = true.
Proof.
  intros W. destruct (well_formed_parts l W) as (_ & _ & Hi & Hf & _ & He).
  unfold core. rewrite !forallb_append, sign_str_solid, (digits_solid _ Hi).
  simpl. apply andb_true_intro. split.
  - unfold frac_digits in Hf. destruct (lit_frac l) as [f|]; simpl;
      [now apply digits_solid | reflexivity].
  - destruct (lit_exp l) as [[[m sg] ds]|]; simpl; [|reflexivity].
    simpl in He. apply andb_prop in He. destruct He as [He _].
    apply andb_prop in He. destruct He as [Hm Hd].
    destruct (marker_facts _ Hm) as (-> & _).
    rewrite forallb_append, sign_str_solid. now apply digits_solid.
Qed.

(** The unsigned part of a literal starts with a digit or the point. *)
Lemma unsigned_head (l : literal) :
  well_formed l = true ->
  exists c r, lit_int l ++ frac_str (lit_frac l) ++ exp_str (lit_exp l)
              = String c r
              /\ c <> "-"%char /\ c <> "+"%char.
Proof.
  intros W. destruct (well_formed_parts l W) as (_ & _ & Hi & Hf & Hn & _).
  destruct (lit_int l) as [|c r] eqn:E.
  - unfold frac_digits in Hn. destruct (lit_frac l) as [f|]; [|discriminate].
    simpl. eexists _, _. split; [reflexivity|]. split; discriminate.
  - unfold all_digits in Hi. simpl in Hi. apply andb_prop in Hi.
    destruct Hi as [Hc _]. simpl. eexists _, _. split; [reflexivity|].
    now apply digit_not_sign.
Qed.

Lemma int_signed_exp_text (ex : option (ascii * sign * string)) :
  exp_ok ex = true ->
  int_signed (match exp_text ex with EmptyString => "0" | _ => exp_text ex end)
  = match ex with
    | Some (_, sg, ds) =>
        if is_minus sg then - Z.of_N (positional ds)
        else Z.of_N (positional ds)
    | None => 0
    end.
Proof.
  destruct ex as [[[m sg] ds]|]; [|reflexivity].
  simpl. intros H. apply andb_prop in H. destruct H as [H Hn].
  apply andb_prop in H. destruct H as [_ Hd].
  destruct ds as [|d ds']; [discriminate|].
  rewrite <- digits_val_positional.
  destruct sg; try reflexivity.
  unfold all_digits in Hd. simpl in Hd. apply andb_prop in Hd.
  destruct Hd as [Hd _]. destruct (digit_not_sign _ Hd) as [N1 N2].
  simpl sign_str. cbn [append].
  destruct d as [[] [] [] [] [] [] [] []]; try reflexivity; congruence.
Qed.

(** The constructor builds, for a well-formed literal, the decimal with
    the literal's sign, its digits and its exponent lowered by the number
    of fraction digits, when that decimal is within the limits, and fails
    otherwise. *)
Lemma of_str_literal (l : literal) :
  well_formed l = true ->
  of_str (render l)
  = if within_limits (str_int (lit_int l ++ frac_digits l))
         (exponent l - Z.of_nat (String.length (frac_digits l)))
    then Return (lit_decimal l)
    else Raise InvalidOperation.
Proof.
  intros W. pose proof (core_solid l W) as Hs.
  destruct (well_formed_parts l W) as (Hl & Ht & Hi & Hf & Hn & He).
  unfold of_str, render.
  rewrite strip_solid by assumption. rewrite remove_solid by assumption.
  unfold core. destruct (unsigned_head l W) as (c & r & E & N1 & N2).
  rewrite E, take_sign_render by assumption. rewrite <- E.
  unfold frac_digits in *.
  rewrite (parse_number_complete (lit_int l) (lit_frac l) (lit_exp l))
    by assumption.
  cbv zeta. rewrite int_signed_exp_text by assumption. reflexivity.
Qed.


(** What the constructor returns is within the limits. *)
Lemma of_str_within_limits (s : string) (sg : bool) (ds : string) (ex : Z) :
  of_str s = Return (Finite sg ds ex) -> within_limits ds ex = true.
Proof.
  unfold of_str.
  destruct (take_sign (remove "_" (strip s))) as [b body].
  destruct (parse_number body) as [[[ip fp] e]|].
  - cbv zeta. destruct (within_limits _ _) eqn:L; [|discriminate].
    intros [= <- <- <-]. exact L.
  - destruct (parse_inf body); [discriminate|].
    destruct (parse_nan body) as [[sig dg]|]; discriminate.
Qed.


(** *** The value of a literal's decimal *)







End DecimalFacts.

(* ------------------------------------------------------------------ *)
(** * The validator *)
(* ------------------------------------------------------------------ *)

Module ValidatorFacts.

Import PyStr PyStrFacts PyDecimal Validators Spec DecimalFacts.

(** On a stripped and upper-cased string the pattern's [$] cannot use its
    licence to stop before a final line feed, so [match] decides the
    whole-string language. *)
Lemma SYMBOL_PATTERN_match_canonical (x : string) :
  SYMBOL_PATTERN_match (canonical x) = is_symbol (canonical x).
Proof.
  unfold SYMBOL_PATTERN_match, is_symbol.
  destruct (span symbol_char (canonical x)) as [body rest] eqn:E.
  destruct (span_spec _ _ _ _ E) as (Hs & Hbody & Hrest).
  destruct rest as [|c r].
  - rewrite append_nil_r in Hs. rewrite Hs, Hbody. simpl.
    now rewrite !andb_true_r.
  - destruct (String.eqb (String c r) (String "010" "")) eqn:Elf.
    + exfalso. apply String.eqb_eq in Elf. rewrite Elf in Hs.
      assert (L : last (canonical x) = Some "010"%char)
        by (rewrite Hs; apply last_append_one).
      unfold canonical, upper in L. rewrite last_map in L.
      destruct (last (strip x)) as [d|] eqn:Ed; [|discriminate].
      simpl in L. injection L as L. apply upper_char_preserves_lf in L.
      subst d. apply strip_last in Ed. discriminate.
    + simpl. rewrite andb_false_r.
      rewrite Hs, forallb_append. simpl. rewrite Hrest.
      now rewrite andb_false_r, andb_false_r.
Qed.

(** ** C9 *)







(** ** C7 *)


Lemma validate_price_absent (x : option string) (order_type : string) :
  absent x = true ->
  validate_price x order_type =
    if mem (canonical order_type) ["LIMIT"; "STOP_LIMIT"]
    then Raise (ValidationError (price_required_msg (canonical order_type)))
    else Return None.
Proof.
  intros A. unfold validate_price. fold (canonical order_type).
  rewrite A, andb_true_r.
  destruct (mem (canonical order_type) ["LIMIT"; "STOP_LIMIT"]);
    [reflexivity|].
  destruct x as [s|]; [|reflexivity]. simpl in A. now rewrite A.
Qed.

Lemma validate_stop_price_absent (x : option string) (order_type : string) :
  absent x = true ->
  validate_stop_price x order_type =
    if mem (canonical order_type) ["STOP_MARKET"; "STOP_LIMIT"]
    then Raise (ValidationError (stop_required_msg (canonical order_type)))
    else Return None.
Proof.
  intros A. unfold validate_stop_price. fold (canonical order_type).
  rewrite A, andb_true_r.
  destruct (mem (canonical order_type) ["STOP_MARKET"; "STOP_LIMIT"]);
    [reflexivity|].
  destruct x as [s|]; [|reflexivity]. simpl in A. now rewrite A.
Qed.

(** A present price never produces the price-required message: the other
    messages of [validate_price] start differently. *)
Lemma validate_price_present (s order_type t : string) :
  absent (Some s) = false ->
  validate_price (Some s) order_type
    <> Raise (ValidationError (price_required_msg t)).
Proof.
  intros A. unfold validate_price. rewrite A, andb_false_r.
  simpl in A. rewrite A. unfold parse_or, price_required_msg.
  destruct (of_str s) as [d|e] eqn:E; simpl.
  - destruct d as [sg ds ex|[]|sg sig ds]; simpl;
      try destruct (is_zero ds || sg); simpl; intros H; discriminate H.
  - rewrite (of_str_raises _ _ E). simpl. intros H; discriminate H.
Qed.

Lemma validate_stop_price_present (s order_type t : string) :
  absent (Some s) = false ->
  validate_stop_price (Some s) order_type
    <> Raise (ValidationError (stop_required_msg t)).
Proof.
  intros A. unfold validate_stop_price. rewrite A, andb_false_r.
  simpl in A. rewrite A. unfold parse_or, stop_required_msg.
  destruct (of_str s) as [d|e] eqn:E; simpl.
  - destruct d as [sg ds ex|[]|sg sig ds]; simpl;
      try destruct (is_zero ds || sg); simpl; intros H; discriminate H.
  - rewrite (of_str_raises _ _ E). simpl. intros H; discriminate H.
Qed.

(** C7: [validate_price] fails with the price-required error exactly when
    the (trimmed, upper-cased) order type is LIMIT or STOP_LIMIT and the
    price is absent ([None] or blank), and returns [None] for an absent
    price with MARKET and STOP_MARKET; [validate_stop_price] fails with the
    stop-price-required error exactly when the type is STOP_MARKET or
    STOP_LIMIT and the stop price is absent, and returns [None] for an
    absent stop price with every other type. *)
Theorem price_and_stop_price_requirement
  (x : option string) (order_type : string) :
  let ot := canonical order_type in
  ((exists t, validate_price x order_type
              = Raise (ValidationError (price_required_msg t)))
   <-> ((ot = "LIMIT" \/ ot = "STOP_LIMIT") /\ absent x = true))
  /\ (absent x = true -> ot = "MARKET" \/ ot = "STOP_MARKET" ->
      validate_price x order_type = Return None)
  /\ ((exists t, validate_stop_price x order_type
                 = Raise (ValidationError (stop_required_msg t)))
      <-> ((ot = "STOP_MARKET" \/ ot = "STOP_LIMIT") /\ absent x = true))
  /\ (absent x = true -> ~ (ot = "STOP_MARKET" \/ ot = "STOP_LIMIT") ->
      validate_stop_price x order_type = Return None).
Proof.
  intros ot. split; [split | split; [ | split; [split | ]]].
  - intros [t H]. destruct (absent x) eqn:A.
    + rewrite (validate_price_absent _ _ A) in H. fold ot in H.
      destruct (mem ot ["LIMIT"; "STOP_LIMIT"]) eqn:M; [|discriminate].
      apply mem2 in M. auto.
    + destruct x as [s|]; [|discriminate].
      now apply validate_price_present in H.
  - intros [M A]. exists ot. rewrite (validate_price_absent _ _ A).
    fold ot. apply mem2 in M. now rewrite M.
  - intros A M. rewrite (validate_price_absent _ _ A). fold ot.
    destruct M as [-> | ->]; reflexivity.
  - intros [t H]. destruct (absent x) eqn:A.
    + rewrite (validate_stop_price_absent _ _ A) in H. fold ot in H.
      destruct (mem ot ["STOP_MARKET"; "STOP_LIMIT"]) eqn:M; [|discriminate].
      apply mem2 in M. auto.
    + destruct x as [s|]; [|discriminate].
      now apply validate_stop_price_present in H.
  - intros [M A]. exists ot. rewrite (validate_stop_price_absent _ _ A).
    fold ot. apply mem2 in M. now rewrite M.
  - intros A M. rewrite (validate_stop_price_absent _ _ A). fold ot.
    destruct (mem ot ["STOP_MARKET"; "STOP_LIMIT"]) eqn:E; [|reflexivity].
    apply mem2 in E. contradiction.
Qed.

Lemma price_and_stop_price_requirement_witness :
  validate_price None "market" = Return None
  /\ validate_stop_price (Some "  ") " limit " = Return None
  /\ (exists t, validate_price (Some " ") "Stop_Limit"
                = Raise (ValidationError (price_required_msg t)))
  /\ (exists t, validate_stop_price None "STOP_MARKET"
                = Raise (ValidationError (stop_required_msg t))).
Proof.
  split; [ | split; [ | split]].
  - apply (proj1 (proj2 (price_and_stop_price_requirement None "market")));
      [reflexivity | left; reflexivity].
  - apply (proj2 (proj2 (proj2
             (price_and_stop_price_requirement (Some "  ") " limit "))));
      [reflexivity | vm_compute; intros [H|H]; discriminate H].
  - apply (proj1 (price_and_stop_price_requirement (Some " ") "Stop_Limit")).
    split; [right; reflexivity | reflexivity].
  - apply (proj1 (proj2 (proj2
             (price_and_stop_price_requirement None "STOP_MARKET")))).
    split; [left; reflexivity | reflexivity].
Defined.

(** ** C10 *)

(** C10: an empty or white-space-only string is treated exactly like
    [None] by [validate_price] and [validate_stop_price]: the result is the
    one for an absent value, which is [None] when the type does not need
    the field and the field-required error when it does; the string is
    never handed to the decimal parser. *)
Theorem blank_is_absent (s order_type : string) :
  blank s = true ->
  validate_price (Some s) order_type = validate_price None order_type
  /\ validate_stop_price (Some s) order_type
     = validate_stop_price None order_type
  /\ validate_price None order_type =
       (if mem (canonical order_type) ["LIMIT"; "STOP_LIMIT"]
        then Raise (ValidationError
                      (price_required_msg (canonical order_type)))
        else Return None)
  /\ validate_stop_price None order_type =
       (if mem (canonical order_type) ["STOP_MARKET"; "STOP_LIMIT"]
        then Raise (ValidationError
                      (stop_required_msg (canonical order_type)))
        else Return None).
Proof.
  intros B.
  assert (A : absent (Some s) = true).
  { simpl. apply String.eqb_eq, strip_blank, B. }
  rewrite (validate_price_absent _ _ A), (validate_stop_price_absent _ _ A).
  rewrite (validate_price_absent None order_type eq_refl).
  rewrite (validate_stop_price_absent None order_type eq_refl).
  repeat split.
Qed.

Lemma blank_is_absent_witness :
  validate_price (Some "   ") "LIMIT" = validate_price None "LIMIT"
  /\ validate_stop_price (Some "   ") "LIMIT"
     = validate_stop_price None "LIMIT".
Proof.
  destruct (blank_is_absent "   " "LIMIT" eq_refl) as (H1 & H2 & _).
  split; [exact H1 | exact H2].
Defined.

(** ** The numeric validators *)

(** The three numeric validators share one shape once the value is
    present. *)
Lemma validate_quantity_parsed (s : string) (d : Decimal) :
  of_str s = Return d ->
  validate_quantity s =
    (nonpos <- le_zero d ;;
     if (nonpos : bool) then
       Raise (ValidationError
         ("Quantity must be greater than zero, got: " ++ to_str d ++ "."))
     else Return d).
Proof. intros H. unfold validate_quantity, parse_or. now rewrite H. Qed.

Lemma validate_price_parsed (s order_type : string) (d : Decimal) :
  blank s = false -> of_str s = Return d ->
  validate_price (Some s) order_type =
    (nonpos <- le_zero d ;;
     if (nonpos : bool) then
       Raise (ValidationError
         ("Price must be greater than zero, got: " ++ to_str d ++ "."))
     else Return (Some d)).
Proof.
  intros B H.
  assert (A : String.eqb (strip s) "" = false).
  { apply String.eqb_neq. intros E. apply strip_empty_iff in E.
    unfold blank in B. congruence. }
  unfold validate_price, parse_or. simpl absent.
  now rewrite A, andb_false_r, H.
Qed.

Lemma validate_stop_price_parsed (s order_type : string) (d : Decimal) :
  blank s = false -> of_str s = Return d ->
  validate_stop_price (Some s) order_type =
    (nonpos <- le_zero d ;;
     if (nonpos : bool) then
       Raise (ValidationError
         ("Stop price must be greater than zero, got: " ++ to_str d ++ "."))
     else Return (Some d)).
Proof.
  intros B H.
  assert (A : String.eqb (strip s) "" = false).
  { apply String.eqb_neq. intros E. apply strip_empty_iff in E.
    unfold blank in B. congruence. }
  unfold validate_stop_price, parse_or. simpl absent.
  now rewrite A, andb_false_r, H.
Qed.



(** ** C2 *)

(** The quantity check lets [InvalidOperation] through exactly for the
    literals the constructor reads as a NaN. *)
Lemma validate_quantity_InvalidOperation (quantity : string) :
  validate_quantity quantity = Raise InvalidOperation
  <-> exists sg signaling diag, of_str quantity = Return (NaN sg signaling diag).
Proof.
  unfold validate_quantity, parse_or.
  destruct (of_str quantity) as [d|e] eqn:E; simpl.
  - destruct d as [sg ds ex|sg|sg sig dg]; simpl.
    + destruct (is_zero ds || sg); split; try discriminate;
        intros (? & ? & ? & H); discriminate H.
    + destruct sg; split; try discriminate;
        intros (? & ? & ? & H); discriminate H.
    + split; [intros _; eauto | reflexivity].
  - rewrite (of_str_raises _ _ E). split; [discriminate|].
    intros (? & ? & ? & H); discriminate H.
Qed.

(** After a successful parse only the comparison and the range message
    can end a numeric validator. *)
Lemma checked_raises (A : Type) (d : Decimal) (msg : string) (a : A)
  (e : exn) :
  (nonpos <- le_zero d ;;
   if (nonpos : bool) then Raise (ValidationError msg) else Return a)
  = Raise e ->
  e = InvalidOperation \/ exists m, e = ValidationError m.
Proof.
  destruct d as [sg ds ex|sg|sg sig dg]; simpl.
  - destruct (is_zero ds || sg); [|discriminate].
    intros [= <-]. right. eexists. reflexivity.
  - destruct sg; [|discriminate].
    intros [= <-]. right. eexists. reflexivity.
  - intros [= <-]. now left.
Qed.

Lemma parsed_raises (A : Type) (s msg1 : string)
  (msg2 : Decimal -> string) (f : Decimal -> A) (e : exn) :
  (d <- parse_or msg1 s ;;
   nonpos <- le_zero d ;;
   if (nonpos : bool) then Raise (ValidationError (msg2 d))
   else Return (f d))
  = Raise e ->
  e = InvalidOperation \/ exists m, e = ValidationError m.
Proof.
  unfold parse_or. destruct (of_str s) as [d|e2] eqn:E; simpl.
  - apply checked_raises.
  - rewrite (of_str_raises _ _ E). intros [= <-]. right.
    eexists. reflexivity.
Qed.

Lemma validate_quantity_raises (quantity : string) (e : exn) :
  validate_quantity quantity = Raise e ->
  e = InvalidOperation \/ exists m, e = ValidationError m.
Proof.
  unfold validate_quantity.
  apply (parsed_raises Decimal quantity _
           (fun qty => "Quantity must be greater than zero, got: "
                       ++ to_str qty ++ ".")
           (fun qty => qty)).
Qed.

Lemma validate_price_raises (price : option string) (order_type : string)
  (e : exn) :
  validate_price price order_type = Raise e ->
  e = InvalidOperation \/ exists m, e = ValidationError m.
Proof.
  unfold validate_price.
  destruct (mem (upper (strip order_type)) ["LIMIT"; "STOP_LIMIT"]
            && absent price).
  - intros [= <-]. right. eexists. reflexivity.
  - destruct price as [s|]; [|discriminate].
    destruct (String.eqb (strip s) ""); [discriminate|].
    apply (parsed_raises (option Decimal) s _
             (fun p => "Price must be greater than zero, got: "
                       ++ to_str p ++ ".")
             (fun p => Some p)).
Qed.

Lemma validate_stop_price_raises (stop_price : option string)
  (order_type : string) (e : exn) :
  validate_stop_price stop_price order_type = Raise e ->
  e = InvalidOperation \/ exists m, e = ValidationError m.
Proof.
  unfold validate_stop_price.
  destruct (mem (upper (strip order_type)) ["STOP_MARKET"; "STOP_LIMIT"]
            && absent stop_price).
  - intros [= <-]. right. eexists. reflexivity.
  - destruct stop_price as [s|]; [|discriminate].
    destruct (String.eqb (strip s) ""); [discriminate|].
    apply (parsed_raises (option Decimal) s _
             (fun sp => "Stop price must be greater than zero, got: "
                        ++ to_str sp ++ ".")
             (fun sp => Some sp)).
Qed.

(** Nothing but [ValidationError] and [InvalidOperation] leaves
    [validate_all]. *)
Lemma validate_all_raises (symbol side order_type quantity : string)
  (price stop_price : option string) (e : exn) :
  validate_all symbol side order_type quantity price stop_price = Raise e ->
  e = InvalidOperation \/ exists m, e = ValidationError m.
Proof.
  unfold validate_all.
  destruct (validate_symbol symbol) as [v1|e1] eqn:E1; simpl.
  2:{ intros [= <-]. right. revert E1. unfold validate_symbol.
      destruct (negb (SYMBOL_PATTERN_match (upper (strip symbol))));
        [|discriminate].
      intros [= <-]. eexists. reflexivity. }
  destruct (validate_side side) as [v2|e2] eqn:E2; simpl.
  2:{ intros [= <-]. right. revert E2. unfold validate_side.
      destruct (negb (mem (upper (strip side)) VALID_SIDES)); [|discriminate].
      intros [= <-]. eexists. reflexivity. }
  destruct (validate_order_type order_type) as [v3|e3] eqn:E3; simpl.
  2:{ intros [= <-]. right. revert E3. unfold validate_order_type.
      destruct (negb (mem (upper (strip order_type)) VALID_ORDER_TYPES));
        [|discriminate].
      intros [= <-]. eexists. reflexivity. }
  destruct (validate_quantity quantity) as [v4|e4] eqn:E4; simpl.
  2:{ intros [= <-]. now apply (validate_quantity_raises quantity). }
  destruct (validate_price price order_type) as [v5|e5] eqn:E5; simpl.
  2:{ intros [= <-]. now apply (validate_price_raises price order_type). }
  destruct (validate_stop_price stop_price order_type) as [v6|e6] eqn:E6;
    simpl; [discriminate|].
  intros [= <-].
  now apply (validate_stop_price_raises stop_price order_type).
Qed.

(** An infinite quantity passes the check. *)
Lemma validate_quantity_Infinity :
  validate_quantity "Infinity" = Return (Infinity false).
Proof. reflexivity. Qed.

(** C2 (the input on which the code fails it): with the quantity ["NaN"]
    the validator neither returns the parameter dict nor raises a
    [ValidationError]; the comparison [qty <= 0] lies outside the [try]
    block and its [InvalidOperation] leaves [validate_all]. *)
Theorem validate_all_leaks_InvalidOperation :
  validate_all "BTCUSDT" "BUY" "MARKET" "NaN" None None
  = Raise InvalidOperation
  /\ validate_quantity "NaN" = Raise InvalidOperation
  /\ validate_price (Some "nan") "LIMIT" = Raise InvalidOperation
  /\ validate_stop_price (Some "sNaN") "STOP_LIMIT" = Raise InvalidOperation.
Proof. repeat split. Qed.

End ValidatorFacts.

(* ------------------------------------------------------------------ *)
(** * The signed request envelope *)
(* ------------------------------------------------------------------ *)

Module EnvelopeFacts.

Import PyStr PyStrFacts Dict Client Spec.

Lemma get_set_same {V} (k : string) (v : V) (d : dict V) :
  get k (set k v d) = Some v.
Proof.
  induction d as [|[k' v'] r IH]; simpl.
  - now rewrite String.eqb_refl.
  - destruct (String.eqb k k') eqn:E; simpl; rewrite E; [reflexivity|exact IH].
Qed.

Lemma get_set_other {V} (k k' : string) (v : V) (d : dict V) :
  k <> k' -> get k (set k' v d) = get k d.
Proof.
  intros N. induction d as [|[k2 v2] r IH]; simpl.
  - apply String.eqb_neq in N. now rewrite N.
  - destruct (String.eqb k' k2) eqn:E; simpl.
    + apply String.eqb_eq in E. subst k2.
      apply String.eqb_neq in N. now rewrite N.
    + now rewrite IH.
Qed.

(** A new key goes last. *)
Lemma set_fresh {V} (k : string) (v : V) (d : dict V) :
  get k d = None -> set k v d = (d ++ [(k, v)])%list.
Proof.
  induction d as [|[k' v'] r IH]; simpl; [reflexivity|].
  destruct (String.eqb k k'); [discriminate|].
  intros H. now rewrite IH.
Qed.

Lemma get_app_fresh {V} (k : string) (d e : dict V) :
  get k d = None -> get k (d ++ e)%list = get k e.
Proof.
  induction d as [|[k' v'] r IH]; simpl; [reflexivity|].
  destruct (String.eqb k k'); [discriminate|exact IH].
Qed.

Lemma set_nonempty {V} (k : string) (v : V) (d : dict V) : set k v d <> [].
Proof.
  destruct d as [|[k' v'] r]; simpl; [discriminate|].
  destruct (String.eqb k k'); discriminate.
Qed.

(** Updating does not invent keys. *)
Lemma get_update_none {V} (k : string) (d e : dict V) :
  get k d = None -> ~ In k (keys e) -> get k (update d e) = None.
Proof.
  unfold update. revert d.
  induction e as [|[k' v'] r IH]; simpl; intros d Hd He; [exact Hd|].
  apply IH; [|tauto].
  rewrite get_set_other; [exact Hd|]. intros ->. tauto.
Qed.

Lemma no_reserved_key_spec (d : dict pyval) (k : string) :
  no_reserved_key d = true -> In k RESERVED -> ~ In k (keys d).
Proof.
  unfold no_reserved_key. rewrite List.forallb_forall.
  intros H R I. specialize (H k I).
  apply negb_true_iff in H.
  assert (M : mem k RESERVED = true).
  { unfold mem. apply existsb_exists. exists k.
    split; [exact R | apply String.eqb_refl]. }
  congruence.
Qed.

Lemma merged_fresh (params data : dict pyval) (k : string) :
  no_reserved_key params = true -> no_reserved_key data = true ->
  In k RESERVED -> get k (merged params data) = None.
Proof.
  intros Hp Hd R. unfold merged.
  apply get_update_none; [|now apply no_reserved_key_spec].
  apply get_update_none; [reflexivity|now apply no_reserved_key_spec].
Qed.

(** The mapping that is signed, when the caller leaves the three keys
    alone. *)
Lemma unsigned_payload_layout (env : Env) (params data : dict pyval) :
  no_reserved_key params = true -> no_reserved_key data = true ->
  unsigned_payload env params data
  = (merged params data ++ sync_fields env)%list.
Proof.
  intros Hp Hd. unfold unsigned_payload, _timestamp. fold (merged params data).
  rewrite (set_fresh "timestamp");
    [|apply merged_fresh; simpl; auto].
  rewrite (set_fresh "recvWindow").
  - now rewrite <- app_assoc.
  - rewrite get_app_fresh; [reflexivity|].
    apply merged_fresh; simpl; auto.
Qed.

Lemma signed_payload_layout (c : BinanceClient) (env : Env)
  (params data : dict pyval) :
  no_reserved_key params = true -> no_reserved_key data = true ->
  signed_payload c env params data
  = (merged params data ++ sync_fields env
     ++ [("signature", VStr (expected_signature c env params data))])%list.
Proof.
  intros Hp Hd. unfold signed_payload, _sign, expected_signature.
  rewrite (unsigned_payload_layout env params data Hp Hd).
  rewrite set_fresh; [now rewrite <- app_assoc|].
  rewrite get_app_fresh; [reflexivity|].
  apply merged_fresh; simpl; auto.
Qed.

(** *** The digest is sixty-four hexadecimal digits *)

Lemma hexchar_is_hex (x : Z) : is_hex (Sha256.hexchar x) = true.
Proof.
  unfold Sha256.hexchar. generalize (Z.to_nat x) as n. intros n.
  do 16 (destruct n as [|n]; [reflexivity|]).
  destruct n; reflexivity.
Qed.

Lemma hexdigest_is_hex64 (st : Sha256.state) :
  is_hex64 (Sha256.hexdigest st) = true.
Proof.
  unfold is_hex64, Sha256.hexdigest, Sha256.hex8, Sha256.nibble.
  cbn [String.length PyStr.forallb Nat.eqb andb].
  now rewrite !hexchar_is_hex.
Qed.

(** *** Encoding a mapping followed by more items *)

Lemma concat_app (sep : string) (a b : list string) :
  b <> [] ->
  String.concat sep (a ++ b)%list
  = match a with
    | [] => String.concat sep b
    | _ => String.concat sep a ++ sep ++ String.concat sep b
    end.
Proof.
  intros Hb. induction a as [|x r IH]; [reflexivity|].
  destruct r as [|y r'].
  - simpl. destruct b; [contradiction|reflexivity].
  - change (String.concat sep ((x :: y :: r') ++ b)%list)
      with (x ++ sep ++ String.concat sep ((y :: r') ++ b)%list).
    rewrite IH.
    change (String.concat sep (x :: y :: r'))
      with (x ++ sep ++ String.concat sep (y :: r')).
    now rewrite !append_assoc.
Qed.

Lemma urlencode_app (d e : dict pyval) :
  e <> [] ->
  Url.urlencode (d ++ e)%list
  = match d with
    | [] => Url.urlencode e
    | _ => Url.urlencode d ++ "&" ++ Url.urlencode e
    end.
Proof.
  intros He. unfold Url.urlencode, join. rewrite map_app.
  rewrite concat_app by (destruct e; [contradiction|discriminate]).
  destruct d; reflexivity.
Qed.

Lemma quote_plus_safe (s : string) :
  forallb Url.always_safe s = true -> Url.quote_plus s = s.
Proof.
  induction s as [|c r IH]; simpl; [reflexivity|].
  intros H. apply andb_prop in H. destruct H as [Hc Hr].
  unfold Url.quote_char. now rewrite Hc, IH.
Qed.

Lemma hex_is_safe (c : ascii) : is_hex c = true -> Url.always_safe c = true.
Proof.
  destruct c as [[] [] [] [] [] [] [] []]; vm_compute; congruence.
Qed.

Lemma string_of_uint_safe (d : Decimal.uint) :
  forallb Url.always_safe (NilEmpty.string_of_uint d) = true.
Proof. induction d; simpl; auto. Qed.

(** [str(n)] needs no escaping. *)
Lemma of_Z_safe (z : Z) : forallb Url.always_safe (of_Z z) = true.
Proof.
  unfold of_Z, NilZero.string_of_int, NilZero.string_of_uint.
  destruct (Z.to_int z) as [d|d]; destruct d; simpl;
    try reflexivity; apply string_of_uint_safe.
Qed.

Lemma sync_and_signature_encoded (c : BinanceClient) (env : Env)
  (params data : dict pyval) :
  Url.urlencode
    (sync_fields env
     ++ [("signature", VStr (expected_signature c env params data))])%list
  = envelope_tail c env params data.
Proof.
  unfold Url.urlencode, join, sync_fields, envelope_tail, Url.encode_item.
  cbn [List.map app String.concat fst snd pyval_str].
  rewrite (quote_plus_safe (of_Z (now_ms env))) by apply of_Z_safe.
  rewrite (quote_plus_safe (expected_signature c env params data)).
  - change (Url.quote_plus "timestamp") with "timestamp".
    change (Url.quote_plus "recvWindow") with "recvWindow".
    change (Url.quote_plus "signature") with "signature".
    change (Url.quote_plus (of_Z RECV_WINDOW)) with "5000".
    rewrite !append_assoc. reflexivity.
  - apply (forallb_impl is_hex); [apply hex_is_safe|].
    pose proof (hexdigest_is_hex64
                  (Sha256.hmac
                     (Sha256.bytes_of_string (api_secret c))
                     (Sha256.bytes_of_string
                        (Url.urlencode
                           (merged params data ++ sync_fields env)%list))))
      as H.
    unfold is_hex64 in H. apply andb_prop in H. exact (proj2 H).
Qed.

(** The encoded signed mapping: the encoded caller fields, when there are
    any, and the tail made of the three fields of the envelope. *)
Lemma signed_payload_encoded (c : BinanceClient) (env : Env)
  (params data : dict pyval) :
  no_reserved_key params = true -> no_reserved_key data = true ->
  Url.urlencode (signed_payload c env params data)
  = match merged params data with
    | [] => envelope_tail c env params data
    | m => Url.urlencode m ++ "&" ++ envelope_tail c env params data
    end.
Proof.
  intros Hp Hd.
  rewrite (signed_payload_layout c env params data Hp Hd).
  rewrite urlencode_app by (unfold sync_fields; discriminate).
  rewrite sync_and_signature_encoded.
  destruct (merged params data); reflexivity.
Qed.

(** ** C4 *)

(** C4 (as amended): for every signed request whose query and body
    parameters do not themselves use the keys [timestamp], [recvWindow] or
    [signature], the payload is the caller's fields (query, then body), then
    [timestamp], then [recvWindow] with value 5000, and last the signature,
    which is the hexadecimal HMAC-SHA256, keyed by the API secret, of the
    URL-encoded form of exactly the fields before it and has 64 hexadecimal
    digits; the encoded signed mapping ends in
    [timestamp=<ms>&recvWindow=5000&signature=<64 hex>], after the encoded
    caller fields and an ampersand when there are caller fields. *)
Theorem signed_envelope_layout (c : BinanceClient) (env : Env)
  (params data : dict pyval) :
  no_reserved_key params = true -> no_reserved_key data = true ->
  envelope_as_built c env params data.
Proof.
  intros Hp Hd. unfold envelope_as_built, envelope_items.
  split; [split|].
  - now apply signed_payload_layout.
  - apply hexdigest_is_hex64.
  - now apply signed_payload_encoded.
Qed.

Lemma signed_envelope_layout_witness :
  envelope_as_built
    (mk_client "key" "secret" BASE_URL)
    (mk_env 1499827319559 (fun _ => TimedOut ""))
    [("symbol", VStr "BTCUSDT")] [].
Proof.
  apply (signed_envelope_layout
           (mk_client "key" "secret" BASE_URL)
           (mk_env 1499827319559 (fun _ => TimedOut ""))
           [("symbol", VStr "BTCUSDT")] []); reflexivity.
Defined.

(** The layout as worded fails for a signed request without caller
    fields, where no ampersand precedes [timestamp] (the account query),
    and for one whose caller fields use a key of the envelope, which
    then keeps the caller's position. *)
Lemma envelope_as_stated_fails :
  ~ envelope_as_stated
      (mk_client "key" "secret" BASE_URL)
      (mk_env 1499827319559 (fun _ => TimedOut "")) [] []
  /\ ~ envelope_as_stated
        (mk_client "key" "secret" BASE_URL)
        (mk_env 1499827319559 (fun _ => TimedOut ""))
        [("recvWindow", VInt 60000)] [].
Proof.
  split.
  - intros [_ [front H]].
    rewrite (signed_payload_encoded
               (mk_client "key" "secret" BASE_URL)
               (mk_env 1499827319559 (fun _ => TimedOut "")) [] []
               eq_refl eq_refl) in H.
    cbn [merged update fold_left] in H.
    apply (f_equal String.length) in H.
    rewrite length_append in H. cbn [append String.length] in H. lia.
  - intros [[H _] _].
    apply (f_equal (@List.length _)) in H. vm_compute in H. discriminate H.
Qed.

(** The signed calls the client itself makes never use a reserved key. *)
Lemma order_data_no_reserved_key (symbol side order_type tif : string)
  (quantity : PyDecimal.Decimal) (price stop : option PyDecimal.Decimal) :
  no_reserved_key (order_data symbol side order_type quantity price stop tif)
  = true.
Proof.
  unfold order_data.
  destruct (String.eqb order_type "LIMIT"), price, stop; reflexivity.
Qed.

Lemma cancel_and_filter_no_reserved_key (symbol : string) (order_id : Z)
  (filter : option string) :
  no_reserved_key [("symbol", VStr symbol); ("orderId", VInt order_id)] = true
  /\ no_reserved_key (symbol_filter filter) = true.
Proof. split; [reflexivity|]. destruct filter as [[|ch r]|]; reflexivity. Qed.

(** ** C5 *)

Lemma is_query_method_iff (method : string) :
  is_query_method method = true
  <-> upper method = "GET" \/ upper method = "DELETE".
Proof. apply mem2. Qed.

(** *** The mapping is complete *)

Lemma keys_set_self {V} (k : string) (v : V) (d : dict V) :
  In k (keys (set k v d)).
Proof.
  induction d as [|[k' v'] r IH]; simpl; [now left|].
  destruct (String.eqb k k') eqn:E; simpl.
  - apply String.eqb_eq in E. now left.
  - now right.
Qed.

Lemma keys_set_in {V} (k k' : string) (v : V) (d : dict V) :
  In k (keys d) -> In k (keys (set k' v d)).
Proof.
  induction d as [|[k2 v2] r IH]; simpl; [contradiction|].
  destruct (String.eqb k' k2); simpl; intros [H|H]; auto.
Qed.

Lemma keys_update_left {V} (k : string) (d e : dict V) :
  In k (keys d) -> In k (keys (update d e)).
Proof.
  unfold update. revert d.
  induction e as [|[k' v'] r IH]; simpl; intros d H; [exact H|].
  apply IH. now apply keys_set_in.
Qed.

Lemma keys_update_right {V} (k : string) (d e : dict V) :
  In k (keys e) -> In k (keys (update d e)).
Proof.
  revert d. induction e as [|[k' v'] r IH]; simpl; intros d H;
    [contradiction|].
  destruct H as [<- | H].
  - apply (keys_update_left k' (set k' v' d) r), keys_set_self.
  - apply (IH (set k' v' d) H).
Qed.

(** *** A form is read back as it was written *)

Lemma quote_char_inner (c : ascii) (tail : string) :
  forallb inner (Url.quote_char c tail) = forallb inner tail.
Proof. destruct c as [[] [] [] [] [] [] [] []]; reflexivity. Qed.

Lemma quote_plus_inner (s : string) :
  forallb inner (Url.quote_plus s) = true.
Proof.
  induction s as [|c r IH]; simpl; [reflexivity|].
  now rewrite quote_char_inner.
Qed.

Lemma unquote_quote_char (c : ascii) (tail : string) :
  unquote_plus (Url.quote_char c tail) = String c (unquote_plus tail).
Proof. destruct c as [[] [] [] [] [] [] [] []]; reflexivity. Qed.

Lemma unquote_quote_plus (s : string) :
  unquote_plus (Url.quote_plus s) = s.
Proof.
  induction s as [|c r IH]; simpl; [reflexivity|].
  now rewrite unquote_quote_char, IH.
Qed.

Lemma inner_facts (c : ascii) :
  inner c = true -> Ascii.eqb c "&" = false /\ Ascii.eqb c "=" = false.
Proof.
  unfold inner. intros H. apply andb_prop in H.
  now rewrite !negb_true_iff in H.
Qed.

Lemma cut_inner (a b : string) :
  forallb inner a = true -> cut "=" (a ++ String "=" b) = (a, b).
Proof.
  induction a as [|c r IH]; simpl; [reflexivity|].
  intros H. apply andb_prop in H. destruct H as [Hc Hr].
  destruct (inner_facts c Hc) as [_ ->]. now rewrite (IH Hr).
Qed.

Lemma pieces_whole (x : string) :
  forallb no_ampersand x = true -> pieces "&" x = [x].
Proof.
  induction x as [|c r IH]; simpl; [reflexivity|].
  intros H. apply andb_prop in H. destruct H as [Hc Hr].
  unfold no_ampersand in Hc. apply negb_true_iff in Hc.
  now rewrite Hc, (IH Hr).
Qed.

Lemma pieces_append (x rest : string) :
  forallb no_ampersand x = true ->
  pieces "&" (x ++ String "&" rest) = x :: pieces "&" rest.
Proof.
  induction x as [|c r IH]; simpl; [reflexivity|].
  intros H. apply andb_prop in H. destruct H as [Hc Hr].
  unfold no_ampersand in Hc. apply negb_true_iff in Hc.
  now rewrite Hc, (IH Hr).
Qed.

Lemma pieces_join (l : list string) :
  l <> [] -> List.forallb (forallb no_ampersand) l = true ->
  pieces "&" (join "&" l) = l.
Proof.
  unfold join. induction l as [|x r IH]; [contradiction|].
  intros _ H. simpl in H. apply andb_prop in H. destruct H as [Hx Hr].
  destruct r as [|y r'].
  - simpl. now apply pieces_whole.
  - change (String.concat "&" (x :: y :: r'))
      with (x ++ String "&" (String.concat "&" (y :: r'))).
    rewrite pieces_append by exact Hx.
    now rewrite IH.
Qed.

Lemma encode_item_no_ampersand (kv : string * pyval) :
  forallb no_ampersand (Url.encode_item kv) = true.
Proof.
  unfold Url.encode_item. rewrite !forallb_append. simpl.
  assert (I : forall x, forallb no_ampersand (Url.quote_plus x) = true).
  { intros x. apply (forallb_impl inner); [|apply quote_plus_inner].
    intros c H. unfold no_ampersand. now rewrite (proj1 (inner_facts c H)). }
  now rewrite !I.
Qed.

Lemma decode_encode_item (kv : string * pyval) :
  (let (k, v) := cut "=" (Url.encode_item kv) in
   (unquote_plus k, unquote_plus v))
  = (fst kv, pyval_str (snd kv)).
Proof.
  unfold Url.encode_item.
  change ("=" ++ Url.quote_plus (pyval_str (snd kv)))
    with (String "=" (Url.quote_plus (pyval_str (snd kv)))).
  rewrite cut_inner by apply quote_plus_inner.
  now rewrite !unquote_quote_plus.
Qed.

(** Read back, the encoded form of a mapping that is not empty is the
    mapping's fields, in their order. *)
Lemma decode_urlencode (d : dict pyval) :
  d <> [] -> decode_form (Url.urlencode d) = fields_text d.
Proof.
  intros N. unfold decode_form, Url.urlencode.
  assert (P : pieces "&" (join "&" (List.map Url.encode_item d))
              = List.map Url.encode_item d).
  { apply pieces_join; [destruct d; [contradiction|discriminate]|].
    apply List.forallb_forall. intros x Hx. apply in_map_iff in Hx.
    destruct Hx as (kv & <- & _). apply encode_item_no_ampersand. }
  destruct (join "&" (List.map Url.encode_item d)) eqn:J.
  - exfalso. destruct d as [|kv [|kv2 r]]; [contradiction| |].
    + cbn in P. injection P as P. unfold Url.encode_item in P.
      apply (f_equal String.length) in P. rewrite length_append in P.
      simpl in P. lia.
    + apply (f_equal (@List.length _)) in P. discriminate P.
  - rewrite P, map_map. unfold fields_text. apply map_ext.
    apply decode_encode_item.
Qed.

(** C5: the signed mapping holds every key of the caller, the timestamp,
    the receive window and the signature over the rest.  A signed request
    whose method is GET or DELETE (in any letter case, as [method.upper()]
    reads it) carries this whole mapping as its query parameters and has no
    body; with every other method there are no query parameters, and the
    body is the mapping form-encoded: read back as a form, it is the
    mapping's fields in their order. *)
Theorem signed_dispatch (c : BinanceClient) (env : Env)
  (method endpoint : string) (params data : dict pyval) :
  let rq := build_request c env method endpoint true params data in
  let payload := signed_payload c env params data in
  (forall k, In k (keys params) \/ In k (keys data) -> In k (keys payload))
  /\ get "timestamp" payload = Some (VInt (now_ms env))
  /\ get "recvWindow" payload = Some (VInt 5000)
  /\ get "signature" payload
     = Some (VStr (Sha256.hmac_hexdigest (api_secret c)
                     (Url.urlencode (unsigned_payload env params data))))
  /\ if mem (upper method) ["GET"; "DELETE"]
     then rq_params rq = Some payload /\ rq_data rq = None
     else rq_params rq = None
          /\ rq_data rq = Some (Url.urlencode payload)
          /\ decode_form (Url.urlencode payload) = fields_text payload.
Proof.
  intros rq payload.
  assert (N : payload <> []) by apply set_nonempty.
  split; [|split; [|split; [|split]]].
  - intros k H. subst payload. unfold signed_payload, unsigned_payload.
    do 3 apply keys_set_in.
    destruct H as [H|H]; [apply keys_update_left | ]; 
      now apply keys_update_right.
  - subst payload. unfold signed_payload, unsigned_payload.
    rewrite !get_set_other by discriminate. apply get_set_same.
  - subst payload. unfold signed_payload, unsigned_payload.
    rewrite get_set_other by discriminate. apply get_set_same.
  - subst payload. unfold signed_payload. apply get_set_same.
  - subst rq. unfold build_request, is_query_method. fold payload.
    destruct (mem (upper method) ["GET"; "DELETE"]);
      destruct payload eqn:P; try contradiction; rewrite <- P;
      repeat split.
    apply decode_urlencode. now rewrite P.
Qed.

(** The open orders of BTCUSDT are asked for with the symbol and the
    envelope in the query; a LIMIT order goes out as a form body. *)
Lemma signed_dispatch_witness :
  build_request demo_client demo_env "get" "/api/v3/openOrders" true
    [("symbol", VStr "BTCUSDT")] []
  = mk_request "get" "https://testnet.binance.vision/api/v3/openOrders"
      (Some [("symbol", VStr "BTCUSDT");
             ("timestamp", VInt 1499827319559);
             ("recvWindow", VInt 5000);
             ("signature",
              VStr "2dba1bd36cb11f2303bbb1f93a11a156db5074b57ab92d187993f623ad744792")])
      None 10
  /\ build_request demo_client demo_env "POST" "/api/v3/order" true []
       [("symbol", VStr "BTCUSDT"); ("side", VStr "BUY");
        ("type", VStr "LIMIT"); ("quantity", VStr "0.5");
        ("timeInForce", VStr "GTC"); ("price", VStr "50000")]
     = mk_request "POST" "https://testnet.binance.vision/api/v3/order"
         None
         (Some "symbol=BTCUSDT&side=BUY&type=LIMIT&quantity=0.5&timeInForce=GTC&price=50000&timestamp=1499827319559&recvWindow=5000&signature=73dd7e6d01540f7fdcf5f357a8042c43761f94df8926bf33a5761692ff94bbfc")
         10.
Proof.
  assert (R : forall rq p d,
            rq_params rq = p -> rq_data rq = d ->
            rq = mk_request (rq_method rq) (rq_url rq) p d (rq_timeout rq)).
  { intros [m u p0 d0 t] p d. simpl. now intros -> ->. }
  split.
  - destruct (signed_dispatch demo_client demo_env "get" "/api/v3/openOrders"
                [("symbol", VStr "BTCUSDT")] []) as (_ & _ & _ & _ & P & D).
    rewrite (R _ _ _ P D). vm_compute. reflexivity.
  - destruct (signed_dispatch demo_client demo_env "POST" "/api/v3/order" []
                [("symbol", VStr "BTCUSDT"); ("side", VStr "BUY");
                 ("type", VStr "LIMIT"); ("quantity", VStr "0.5");
                 ("timeInForce", VStr "GTC"); ("price", VStr "50000")])
      as (_ & _ & _ & _ & P & D & _).
    rewrite (R _ _ _ P D). vm_compute. reflexivity.
Defined.

(** What [_request] does after building the request depends on the
    transport's answer to exactly that request. *)
Lemma _request_dispatch (c : BinanceClient) (env : Env)
  (method endpoint : string) (signed : bool) (params data : dict pyval)
  (resp : Response) :
  session_request env (build_request c env method endpoint signed params data)
  = Responded resp ->
  _request c env method endpoint signed params data = handle_response resp.
Proof. intros H. unfold _request. now rewrite H. Qed.

(** ** C6 *)

Lemma lt_zero_negative (x : json) :
  negative_number x = true -> lt_zero x = Return true.
Proof. destruct x; simpl; try discriminate; now intros ->. Qed.

(** C6: when the response body is a JSON mapping whose [code] is a number
    below zero, [_request] raises [BinanceAPIError] with exactly that code,
    the body's [msg] (["Unknown error"] when the body has none) and the HTTP
    status of the response. *)
Theorem negative_code_raises (c : BinanceClient) (env : Env)
  (method endpoint : string) (signed : bool) (params data : dict pyval)
  (resp : Response) (body : dict json) (code : json) :
  session_request env (build_request c env method endpoint signed params data)
  = Responded resp ->
  json_body resp = Some (JObj body) ->
  get "code" body = Some code ->
  negative_number code = true ->
  _request c env method endpoint signed params data
  = Raise (BinanceAPIError code
             (match get "msg" body with
              | Some m => m
              | None => JStr "Unknown error"
              end)
             (status_code resp)).
Proof.
  intros Hs Hb Hc Hn.
  rewrite (_request_dispatch _ _ _ _ _ _ _ _ Hs).
  unfold handle_response. rewrite Hb, Hc, (lt_zero_negative _ Hn).
  reflexivity.
Qed.

(** The exchange's answer to an unknown symbol. *)
Lemma negative_code_raises_witness :
  _request (mk_client "key" "secret" BASE_URL)
    (mk_env 1499827319559
       (fun _ => Responded
          (mk_response 400 "{...}"
             (Some (JObj [("code", JInt (-1121));
                          ("msg", JStr "Invalid symbol.")])))))
    "GET" "/api/v3/openOrders" true [("symbol", VStr "NOPE")] []
  = Raise (BinanceAPIError (JInt (-1121)) (JStr "Invalid symbol.") 400).
Proof.
  apply (negative_code_raises
           (mk_client "key" "secret" BASE_URL)
           (mk_env 1499827319559
              (fun _ => Responded
                 (mk_response 400 "{...}"
                    (Some (JObj [("code", JInt (-1121));
                                 ("msg", JStr "Invalid symbol.")])))))
           "GET" "/api/v3/openOrders" true [("symbol", VStr "NOPE")] []
           (mk_response 400 "{...}"
              (Some (JObj [("code", JInt (-1121));
                           ("msg", JStr "Invalid symbol.")])))
           [("code", JInt (-1121)); ("msg", JStr "Invalid symbol.")]
           (JInt (-1121))); reflexivity.
Defined.

(** ** C1 *)

(** A LIMIT order carries its price, as the string form of the decimal. *)
Lemma limit_order_carries_price (c : BinanceClient) (env : Env)
  (symbol side tif : string) (quantity price : PyDecimal.Decimal)
  (stop : option PyDecimal.Decimal) :
  get "price"
    (signed_payload c env []
       (order_data symbol side "LIMIT" quantity (Some price) stop tif))
  = Some (VStr (PyDecimal.to_str price)).
Proof. destruct stop; reflexivity. Qed.

(** C1 (the case the code misses): for a STOP_LIMIT order with a price,
    the mapping [place_order] builds and the signed payload made of it have
    no [price] key, and no [timeInForce] either; only a LIMIT order gets
    them. *)
Theorem stop_limit_order_drops_price (c : BinanceClient) (env : Env)
  (symbol side tif : string) (quantity price : PyDecimal.Decimal)
  (stop : option PyDecimal.Decimal) :
  let data := order_data symbol side "STOP_LIMIT" quantity (Some price)
                         stop tif in
  get "price" data = None
  /\ get "timeInForce" data = None
  /\ get "price" (signed_payload c env [] data) = None.
Proof. destruct stop; repeat split. Qed.

End EnvelopeFacts.

(* ------------------------------------------------------------------ *)
(** * Order orchestration *)
(* ------------------------------------------------------------------ *)

Module OrderFacts.

Import Validators ValidatorFacts Orders.

Section WithFormatting.

Variable py_repr : json -> string.

(** Every exception of the client call is turned into a failure result. *)
Lemma client_errors_absorbed (outcome : result json) :
  exists r,
    match outcome with
    | Return response => Return (mk_result true response None)
    | Raise (ValidationError m) => Return (failure m)
    | Raise (BinanceAPIError code msg _) =>
        Return (failure ("Binance API Error [" ++ json_str py_repr code
                         ++ "]: " ++ json_str py_repr msg))
    | Raise (ConnectionError m) | Raise (TimeoutError m) =>
        Return (failure ("Network Error: " ++ m))
    | Raise e => Return (failure ("Unexpected error: " ++ exn_str py_repr e))
    end = Return r
    /\ match outcome with
       | Return response =>
           success r = true /\ data r = response /\ error r = None
       | Raise _ => success r = false /\ exists m, error r = Some m
       end.
Proof.
  destruct outcome as [response|e].
  - eexists. split; [reflexivity|]. repeat split.
  - destruct e; eexists; (split; [reflexivity|]);
      (split; [reflexivity | eexists; reflexivity]).
Qed.

(** Once validation has returned or raised a [ValidationError],
    [place_order] returns a result: a success carrying the response, or a
    failure carrying a message. *)
Lemma place_order_absorbs (c : Client.BinanceClient) (env : Client.Env)
  (symbol side order_type quantity : string)
  (price stop_price : option string) (reduce_only : bool) :
  validate_all symbol side order_type quantity price stop_price
  <> Raise InvalidOperation ->
  exists r,
    place_order py_repr c env symbol side order_type quantity price
                stop_price reduce_only = Return r
    /\ (success r = true /\ error r = None
        \/ success r = false /\ exists m, error r = Some m).
Proof.
  intros H. unfold place_order.
  destruct (validate_all symbol side order_type quantity price stop_price)
    as [params|e] eqn:E.
  - destruct (client_errors_absorbed
                (Client.place_order c env (p_symbol params) (p_side params)
                   (p_order_type params) (p_quantity params)
                   (p_price params) (p_stop_price params) "GTC" reduce_only))
      as (r & Hr & Hs).
    exists r. split; [exact Hr|].
    destruct (Client.place_order _ _ _ _ _ _ _ _ _ _).
    + left. tauto.
    + right. exact Hs.
  - destruct (validate_all_raises _ _ _ _ _ _ _ E) as [-> | [m ->]].
    + contradiction.
    + eexists. split; [reflexivity|]. right.
      split; [reflexivity | eexists; reflexivity].
Qed.

(** An exception crosses [place_order] exactly when validation raises
    [InvalidOperation]. *)
Lemma place_order_raises_iff (c : Client.BinanceClient) (env : Client.Env)
  (symbol side order_type quantity : string)
  (price stop_price : option string) (reduce_only : bool) (e : exn) :
  place_order py_repr c env symbol side order_type quantity price
              stop_price reduce_only = Raise e
  <-> e = InvalidOperation
      /\ validate_all symbol side order_type quantity price stop_price
         = Raise InvalidOperation.
Proof.
  split.
  - intros H.
    destruct (validate_all symbol side order_type quantity price stop_price)
      as [params|e'] eqn:E.
    + destruct (place_order_absorbs c env symbol side order_type quantity
                  price stop_price reduce_only) as (r & Hr & _).
      * rewrite E. discriminate.
      * rewrite Hr in H. discriminate.
    + destruct (validate_all_raises _ _ _ _ _ _ _ E) as [-> | [m ->]].
      * unfold place_order in H. rewrite E in H.
        injection H as <-. split; reflexivity.
      * unfold place_order in H. rewrite E in H. discriminate.
  - intros [-> H]. unfold place_order. now rewrite H.
Qed.

(** C3 (the input on which the code fails it): with the quantity ["NaN"]
    the [InvalidOperation] raised inside [validate_all] is not a
    [ValidationError], the first [try] block catches nothing else, and the
    exception crosses [place_order] whatever the client and the transport
    are. *)
Theorem place_order_propagates_InvalidOperation
  (c : Client.BinanceClient) (env : Client.Env) (reduce_only : bool) :
  place_order py_repr c env "BTCUSDT" "BUY" "MARKET" "NaN" None None
              reduce_only
  = Raise InvalidOperation.
Proof.
  apply place_order_raises_iff. split; reflexivity.
Qed.

End WithFormatting.

End OrderFacts.

(* ------------------------------------------------------------------ *)
(** * Worked scenarios *)
(* ------------------------------------------------------------------ *)

Module Scenarios.

Import PyDecimal Validators Dict Client Spec.

(** FIPS 180-4 and RFC 4231 test vectors, and the signature of the
    exchange's documentation example. *)
Example sha256_abc :
  Sha256.hexdigest (Sha256.sha256 (Sha256.bytes_of_string "abc"))
  = "ba7816bf8f01cfea414140de5dae2223b00361a396177a9cb410ff61f20015ad".
Proof. vm_compute. reflexivity. Qed.

Example hmac_rfc4231_case2 :
  Sha256.hmac_hexdigest "Jefe" "what do ya want for nothing?"
  = "5bdcc146bf60754e6a042426089575c75a003f089d2739839dec58b964ec3843".
Proof. vm_compute. reflexivity. Qed.

Example hmac_exchange_documentation :
  Sha256.hmac_hexdigest
    "NhqPtmdSJYdKjVHjA7PZj4Mge3R5YNiP1e3UZjInClVN65XAbvqqM6A7H5fATj0j"
    "symbol=LTCBTC&side=BUY&type=LIMIT&timeInForce=GTC&quantity=1&price=0.1&recvWindow=5000&timestamp=1499827319559"
  = "c8db56825ae71d6d79447849e617115f4a920fa2acdcab2b053c4b2838bd6b71".
Proof. vm_compute. reflexivity. Qed.

(** Decimals print as the decimal module prints them. *)
Example decimal_round_trips :
  List.map (fun s => match of_str s with
                     | Return d => to_str d
                     | Raise _ => "InvalidOperation"
                     end)
    ["0.00010000"; " 1_000.50 "; "1e-7"; "-0"; "+.5"; "1."; "1.5e2";
     "0.0000001"; "123456789e-14"; "snan007"; "-inf"; "."; "1e"; "abc"]
  = ["0.00010000"; "1000.50"; "1E-7"; "-0"; "0.5"; "1"; "1.5E+2";
     "1E-7"; "0.00000123456789"; "sNaN7"; "-Infinity";
     "InvalidOperation"; "InvalidOperation"; "InvalidOperation"].
Proof. vm_compute. reflexivity. Qed.

(** The market order of the specification's first scenario. *)
Example validate_all_market :
  validate_all "btcusdt" "buy" "market" "0.001" None None
  = Return (mk_params "BTCUSDT" "BUY" "MARKET" (Finite false "1" (-3))
                      None None).
Proof. vm_compute. reflexivity. Qed.

(** A limit order without a price, the second scenario. *)
Example validate_all_limit_without_price :
  validate_all "BTCUSDT" "BUY" "LIMIT" "1" None None
  = Raise (ValidationError "Price is required for LIMIT orders.").
Proof. vm_compute. reflexivity. Qed.

Example validate_quantity_rejections :
  List.map validate_quantity ["0"; "-0"; "-1.5"; "-Infinity"; "1,5"]
  = [Raise (ValidationError "Quantity must be greater than zero, got: 0.");
     Raise (ValidationError "Quantity must be greater than zero, got: -0.");
     Raise (ValidationError
              "Quantity must be greater than zero, got: -1.5.");
     Raise (ValidationError
              "Quantity must be greater than zero, got: -Infinity.");
     Raise (ValidationError
              "Invalid quantity '1,5'. Must be a positive number.")].
Proof. vm_compute. reflexivity. Qed.

(** The signed query of the third scenario. *)
Example signed_get_request :
  build_request demo_client demo_env "GET" "/api/v3/openOrders" true
    [("symbol", VStr "BTCUSDT")] []
  = mk_request "GET" "https://testnet.binance.vision/api/v3/openOrders"
      (Some [("symbol", VStr "BTCUSDT");
             ("timestamp", VInt 1499827319559);
             ("recvWindow", VInt 5000);
             ("signature",
              VStr (Sha256.hmac_hexdigest "secret"
                "symbol=BTCUSDT&timestamp=1499827319559&recvWindow=5000"))])
      None 10.
Proof. vm_compute. reflexivity. Qed.

(** The body of a stop-limit order: the price is not in it. *)
Example stop_limit_request_body :
  rq_data
    (build_request demo_client demo_env "POST" "/api/v3/order" true []
       (order_data "BTCUSDT" "BUY" "STOP_LIMIT" (Finite false "1" 0)
          (Some (Finite false "50000" 0)) (Some (Finite false "49000" 0))
          "GTC"))
  = Some ("symbol=BTCUSDT&side=BUY&type=STOP_LIMIT&quantity=1"
          ++ "&stopPrice=49000&timestamp=1499827319559&recvWindow=5000"
          ++ "&signature="
          ++ Sha256.hmac_hexdigest "secret"
               ("symbol=BTCUSDT&side=BUY&type=STOP_LIMIT&quantity=1"
                ++ "&stopPrice=49000&timestamp=1499827319559"
                ++ "&recvWindow=5000")).
Proof. vm_compute. reflexivity. Qed.

(** The body of a limit order, for comparison. *)
Example limit_request_body :
  rq_data
    (build_request demo_client demo_env "POST" "/api/v3/order" true []
       (order_data "BTCUSDT" "BUY" "LIMIT" (Finite false "1" 0)
          (Some (Finite false "50000" 0)) None "GTC"))
  = Some ("symbol=BTCUSDT&side=BUY&type=LIMIT&quantity=1&timeInForce=GTC"
          ++ "&price=50000&timestamp=1499827319559&recvWindow=5000"
          ++ "&signature="
          ++ Sha256.hmac_hexdigest "secret"
               ("symbol=BTCUSDT&side=BUY&type=LIMIT&quantity=1"
                ++ "&timeInForce=GTC&price=50000"
                ++ "&timestamp=1499827319559&recvWindow=5000")).
Proof. vm_compute. reflexivity. Qed.

(** Escaping in the encoded form. *)
Example urlencode_escapes :
  Url.urlencode [("a b", VStr "x/y&z=1~"); ("n", VInt (-5))]
  = "a+b=x%2Fy%26z%3D1~&n=-5".
Proof. vm_compute. reflexivity. Qed.

End Scenarios.

(* ------------------------------------------------------------------ *)
(** * More about the validator *)
(* ------------------------------------------------------------------ *)

Module ValidatorExtras.

Import PyStr PyStrFacts PyDecimal Validators Spec DecimalFacts ValidatorFacts.

Lemma bind_return {A B : Type} (m : result A) (k : A -> result B) (b : B) :
  bind m k = Return b -> exists a, m = Return a /\ k a = Return b.
Proof. destruct m as [a|e]; simpl; [eauto | discriminate]. Qed.

Lemma le_zero_positive (d : Decimal) :
  le_zero d = Return false <-> positive_decimal d = true.
Proof.
  destruct d as [sg ds ex|sg|sg sig dg]; simpl.
  - rewrite <- negb_orb, negb_true_iff. split; [now intros [= ->]|now intros ->].
  - destruct sg; simpl; split; congruence.
  - split; discriminate.
Qed.

(** *** What each validator returns *)

Lemma validate_symbol_returns (s t : string) :
  validate_symbol s = Return t -> t = canonical s /\ is_symbol t = true.
Proof.
  unfold validate_symbol. fold (canonical s).
  rewrite SYMBOL_PATTERN_match_canonical.
  destruct (is_symbol (canonical s)) eqn:E; simpl; [|discriminate].
  intros [= <-]. auto.
Qed.

Lemma validate_side_returns (s t : string) :
  validate_side s = Return t -> t = canonical s /\ (t = "BUY" \/ t = "SELL").
Proof.
  unfold validate_side. fold (canonical s).
  destruct (mem (canonical s) VALID_SIDES) eqn:E; simpl; [|discriminate].
  intros [= <-]. split; [reflexivity|]. now apply mem2.
Qed.

Lemma validate_order_type_returns (s t : string) :
  validate_order_type s = Return t ->
  t = canonical s /\ In t VALID_ORDER_TYPES.
Proof.
  unfold validate_order_type. fold (canonical s).
  destruct (mem (canonical s) VALID_ORDER_TYPES) eqn:E; simpl; [|discriminate].
  intros [= <-]. split; [reflexivity|].
  unfold mem in E. apply existsb_exists in E. destruct E as (x & I & Hx).
  apply String.eqb_eq in Hx. now subst x.
Qed.

Lemma checked_returns (A : Type) (d : Decimal) (msg : string) (a : A)
  (r : A) :
  (nonpos <- le_zero d ;;
   if (nonpos : bool) then Raise (ValidationError msg) else Return a)
  = Return r ->
  r = a /\ positive_decimal d = true.
Proof.
  intros H. apply bind_return in H. destruct H as (b & Hb & H).
  destruct b; [discriminate|]. injection H as <-.
  split; [reflexivity | now apply le_zero_positive].
Qed.

Lemma parsed_returns (A : Type) (s msg1 : string)
  (msg2 : Decimal -> string) (f : Decimal -> A) (r : A) :
  (d <- parse_or msg1 s ;;
   nonpos <- le_zero d ;;
   if (nonpos : bool) then Raise (ValidationError (msg2 d))
   else Return (f d))
  = Return r ->
  exists d, of_str s = Return d /\ r = f d /\ positive_decimal d = true.
Proof.
  intros H. apply bind_return in H. destruct H as (d & Hd & H).
  apply checked_returns in H. destruct H as [-> P].
  exists d. split; [|auto]. unfold parse_or in Hd.
  destruct (of_str s) as [d'|e]; [congruence|].
  destruct e; discriminate.
Qed.

Lemma validate_quantity_returns (s : string) (d : Decimal) :
  validate_quantity s = Return d -> of_str s = Return d /\ positive_decimal d = true.
Proof.
  unfold validate_quantity. intros H.
  apply (parsed_returns Decimal s _
           (fun qty => "Quantity must be greater than zero, got: "
                       ++ to_str qty ++ ".")
           (fun qty => qty)) in H.
  destruct H as (d' & H1 & -> & H2). auto.
Qed.

Lemma validate_price_returns (x : option string) (order_type : string)
  (r : option Decimal) :
  validate_price x order_type = Return r ->
  positive_or_none r = true
  /\ (mem (canonical order_type) ["LIMIT"; "STOP_LIMIT"] = true ->
      present r = true).
Proof.
  unfold validate_price. fold (canonical order_type).
  destruct (mem (canonical order_type) ["LIMIT"; "STOP_LIMIT"]) eqn:M;
    destruct x as [s|]; simpl;
    try destruct (String.eqb (strip s) ""); simpl;
    try discriminate; try (intros [= <-]; split; [reflexivity|discriminate]).
  all: intros H;
    apply (parsed_returns (option Decimal) s _
             (fun p => "Price must be greater than zero, got: "
                       ++ to_str p ++ ".")
             (fun p => Some p)) in H;
    destruct H as (d & _ & -> & P); split; [exact P | reflexivity].
Qed.

Lemma validate_stop_price_returns (x : option string) (order_type : string)
  (r : option Decimal) :
  validate_stop_price x order_type = Return r ->
  positive_or_none r = true
  /\ (mem (canonical order_type) ["STOP_MARKET"; "STOP_LIMIT"] = true ->
      present r = true).
Proof.
  unfold validate_stop_price. fold (canonical order_type).
  destruct (mem (canonical order_type) ["STOP_MARKET"; "STOP_LIMIT"]) eqn:M;
    destruct x as [s|]; simpl;
    try destruct (String.eqb (strip s) ""); simpl;
    try discriminate; try (intros [= <-]; split; [reflexivity|discriminate]).
  all: intros H;
    apply (parsed_returns (option Decimal) s _
             (fun sp => "Stop price must be greater than zero, got: "
                        ++ to_str sp ++ ".")
             (fun sp => Some sp)) in H;
    destruct H as (d & _ & -> & P); split; [exact P | reflexivity].
Qed.

(** [validate_all] returns exactly when its six validators do, and its
    fields are their results. *)
Lemma validate_all_returns (symbol side order_type quantity : string)
  (price stop_price : option string) (p : params) :
  validate_all symbol side order_type quantity price stop_price = Return p ->
  validate_symbol symbol = Return (p_symbol p)
  /\ validate_side side = Return (p_side p)
  /\ validate_order_type order_type = Return (p_order_type p)
  /\ validate_quantity quantity = Return (p_quantity p)
  /\ validate_price price order_type = Return (p_price p)
  /\ validate_stop_price stop_price order_type = Return (p_stop_price p).
Proof.
  unfold validate_all. intros H.
  apply bind_return in H. destruct H as (v1 & H1 & H).
  apply bind_return in H. destruct H as (v2 & H2 & H).
  apply bind_return in H. destruct H as (v3 & H3 & H).
  apply bind_return in H. destruct H as (v4 & H4 & H).
  apply bind_return in H. destruct H as (v5 & H5 & H).
  apply bind_return in H. destruct H as (v6 & H6 & H).
  injection H as <-. simpl. auto 10.
Qed.

(** ** The parameter set that leaves the validator *)

(** Whenever [validate_all] returns, the symbol is the trimmed upper-cased
    input and is three to twenty characters of A-Z and 0-9, the side is BUY
    or SELL, the type is one of the four supported ones, the quantity and
    any price or stop price are positive (never zero, negative or NaN), a
    LIMIT or STOP_LIMIT order has a price and a STOP_MARKET or STOP_LIMIT
    order has a stop price. *)
Theorem validate_all_invariants (symbol side order_type quantity : string)
  (price stop_price : option string) (p : params) :
  validate_all symbol side order_type quantity price stop_price = Return p ->
  p_symbol p = canonical symbol /\ is_symbol (p_symbol p) = true
  /\ p_side p = canonical side /\ (p_side p = "BUY" \/ p_side p = "SELL")
  /\ p_order_type p = canonical order_type
  /\ In (p_order_type p) VALID_ORDER_TYPES
  /\ positive_decimal (p_quantity p) = true
  /\ positive_or_none (p_price p) = true
  /\ positive_or_none (p_stop_price p) = true
  /\ (p_order_type p = "LIMIT" \/ p_order_type p = "STOP_LIMIT" ->
      present (p_price p) = true)
  /\ (p_order_type p = "STOP_MARKET" \/ p_order_type p = "STOP_LIMIT" ->
      present (p_stop_price p) = true).
Proof.
  intros H. apply validate_all_returns in H.
  destruct H as (H1 & H2 & H3 & H4 & H5 & H6).
  apply validate_symbol_returns in H1. destruct H1 as [E1 S1].
  apply validate_side_returns in H2. destruct H2 as [E2 S2].
  apply validate_order_type_returns in H3. destruct H3 as [E3 S3].
  apply validate_quantity_returns in H4. destruct H4 as [_ S4].
  apply validate_price_returns in H5. destruct H5 as [S5 N5].
  apply validate_stop_price_returns in H6. destruct H6 as [S6 N6].
  repeat (split; [assumption|]). split.
  - intros M. apply N5. rewrite <- E3. now apply mem2.
  - intros M. apply N6. rewrite <- E3. now apply mem2.
Qed.

Lemma validate_all_invariants_witness :
  exists p,
    validate_all " ethusdt" "sell" "stop_limit" "0.5" (Some "1800")
                 (Some "1750.00") = Return p
    /\ p_symbol p = "ETHUSDT" /\ p_order_type p = "STOP_LIMIT"
    /\ present (p_price p) = true /\ present (p_stop_price p) = true.
Proof.
  eexists. split; [reflexivity|].
  destruct (validate_all_invariants
              " ethusdt" "sell" "stop_limit" "0.5" (Some "1800")
              (Some "1750.00") _ eq_refl)
    as (H1 & _ & _ & _ & H5 & _ & _ & _ & _ & H10 & H11).
  split; [exact H1|]. split; [exact H5|].
  split; [apply H10; right; exact H5 | apply H11; right; exact H5].
Defined.

(** ** The first failing field decides *)

(** The error [validate_all] raises is the error of the first validator
    that fails, in the order symbol, side, order type, quantity, price,
    stop price: a later field is not looked at. *)
Theorem validate_all_first_failure (symbol side order_type quantity : string)
  (price stop_price : option string) (e : exn) :
  let all :=
    validate_all symbol side order_type quantity price stop_price in
  let ok {A} (r : result A) := exists v, r = Return v in
  (validate_symbol symbol = Raise e -> all = Raise e)
  /\ (ok (validate_symbol symbol) ->
      validate_side side = Raise e -> all = Raise e)
  /\ (ok (validate_symbol symbol) -> ok (validate_side side) ->
      validate_order_type order_type = Raise e -> all = Raise e)
  /\ (ok (validate_symbol symbol) -> ok (validate_side side) ->
      ok (validate_order_type order_type) ->
      validate_quantity quantity = Raise e -> all = Raise e)
  /\ (ok (validate_symbol symbol) -> ok (validate_side side) ->
      ok (validate_order_type order_type) ->
      ok (validate_quantity quantity) ->
      validate_price price order_type = Raise e -> all = Raise e)
  /\ (ok (validate_symbol symbol) -> ok (validate_side side) ->
      ok (validate_order_type order_type) ->
      ok (validate_quantity quantity) ->
      ok (validate_price price order_type) ->
      validate_stop_price stop_price order_type = Raise e -> all = Raise e).
Proof.
  intros all ok. subst all ok. unfold validate_all.
  repeat split; intros;
    repeat match goal with
           | H : exists v, _ = Return v |- _ => destruct H as [? H]
           end;
    repeat match goal with
           | H : _ = Return _ |- _ => rewrite H; clear H
           | H : _ = Raise _ |- _ => rewrite H; clear H
           end;
    reflexivity.
Qed.

Lemma validate_all_first_failure_witness :
  validate_all "b" "hold" "swap" "NaN" None None
  = Raise (ValidationError
             "Invalid symbol 'b'. Expected uppercase alphanumeric (e.g. BTCUSDT).")
  /\ validate_all "btcusdt" "buy" "limit" "0" None None
     = Raise (ValidationError "Quantity must be greater than zero, got: 0.").
Proof.
  split.
  - apply (proj1 (validate_all_first_failure "b" "hold" "swap" "NaN"
                    None None _)).
    reflexivity.
  - apply (proj1 (proj2 (proj2 (proj2
             (validate_all_first_failure "btcusdt" "buy" "limit" "0"
                None None _)))));
      [eexists; reflexivity | eexists; reflexivity | eexists; reflexivity
      | reflexivity].
Defined.

(** ** Canonical values validate to themselves *)

Lemma symbol_char_facts (c : ascii) :
  symbol_char c = true -> solid c = true /\ upper_char c = c.
Proof. by_cases c. Qed.

Lemma map_fixed (f : ascii -> ascii) (p : ascii -> bool) (s : string) :
  (forall c, p c = true -> f c = c) ->
  forallb p s = true -> PyStr.map f s = s.
Proof.
  intros F. induction s as [|c r IH]; simpl; [reflexivity|].
  intros H. apply andb_prop in H. destruct H as [Hc Hr].
  now rewrite (F _ Hc), IH.
Qed.

Lemma strip_solid_alone (t : string) :
  forallb solid t = true -> strip t = t.
Proof.
  intros H. pose proof (strip_solid "" t "" eq_refl eq_refl H) as E.
  simpl in E. now rewrite append_nil_r in E.
Qed.

Lemma canonical_symbol_fixed (t : string) :
  forallb symbol_char t = true -> canonical t = t.
Proof.
  intros H. unfold canonical.
  rewrite strip_solid_alone
    by (apply (forallb_impl symbol_char); [apply symbol_char_facts|exact H]).
  apply (map_fixed upper_char symbol_char); [apply symbol_char_facts|exact H].
Qed.

(** What [validate_symbol], [validate_side] and [validate_order_type]
    return is accepted again, unchanged, by the same validator. *)
Theorem validators_accept_their_output (s t : string) :
  (validate_symbol s = Return t -> validate_symbol t = Return t)
  /\ (validate_side s = Return t -> validate_side t = Return t)
  /\ (validate_order_type s = Return t ->
      validate_order_type t = Return t).
Proof.
  split; [|split]; intros H.
  - apply validate_symbol_returns in H. destruct H as [_ S].
    assert (F : canonical t = t).
    { apply canonical_symbol_fixed. unfold is_symbol in S.
      apply andb_prop in S. exact (proj2 S). }
    unfold validate_symbol. fold (canonical t).
    now rewrite SYMBOL_PATTERN_match_canonical, F, S.
  - apply validate_side_returns in H. destruct H as [_ [-> | ->]];
      reflexivity.
  - apply validate_order_type_returns in H. destruct H as [_ I].
    simpl in I. destruct I as [<- | [<- | [<- | [<- | []]]]]; reflexivity.
Qed.

Lemma validators_accept_their_output_witness :
  validate_symbol "BTCUSDT" = Return "BTCUSDT"
  /\ validate_order_type "STOP_MARKET" = Return "STOP_MARKET".
Proof.
  split.
  - apply (proj1 (validators_accept_their_output " btcUsdt " "BTCUSDT")).
    reflexivity.
  - apply (proj2 (proj2 (validators_accept_their_output
                           "stop_market" "STOP_MARKET"))).
    reflexivity.
Defined.

(** ** A price that is present *)

(** A price or stop price that is given (not blank) is parsed and range
    checked in the same way whatever the order type is, also for the types
    that do not use it. *)
Theorem present_value_ignores_order_type (s type1 type2 : string) :
  blank s = false ->
  validate_price (Some s) type1 = validate_price (Some s) type2
  /\ validate_stop_price (Some s) type1 = validate_stop_price (Some s) type2.
Proof.
  intros B.
  assert (A : String.eqb (strip s) "" = false).
  { apply String.eqb_neq. intros E. apply strip_empty_iff in E.
    unfold blank in B. congruence. }
  unfold validate_price, validate_stop_price. simpl absent.
  now rewrite A, !andb_false_r.
Qed.

Lemma present_value_ignores_order_type_witness :
  validate_price (Some "abc") "MARKET" = validate_price (Some "abc") "LIMIT"
  /\ validate_stop_price (Some "7") "MARKET"
     = validate_stop_price (Some "7") "STOP_LIMIT".
Proof.
  split.
  - exact (proj1 (present_value_ignores_order_type "abc" "MARKET" "LIMIT"
                    eq_refl)).
  - exact (proj2 (present_value_ignores_order_type "7" "MARKET" "STOP_LIMIT"
                    eq_refl)).
Defined.

(** ** Infinity *)

Lemma lower_letter_facts (c : ascii) :
  is_lower (lower_char c) = true ->
  solid c = true /\ is_digit c = false /\ c <> "."%char
  /\ c <> "-"%char /\ c <> "+"%char.
Proof. by_cases c. Qed.

Lemma forallb_map (p : ascii -> bool) (f : ascii -> ascii) (s : string) :
  forallb p (PyStr.map f s) = forallb (fun c => p (f c)) s.
Proof. induction s as [|c r IH]; simpl; [reflexivity | now rewrite IH]. Qed.

Lemma parse_number_no_digit (c : ascii) (r : string) :
  is_digit c = false -> c <> "."%char -> parse_number (String c r) = None.
Proof.
  intros D P. unfold parse_number. simpl span. rewrite D.
  now rewrite take_fraction_other.
Qed.

(** The constructor reads a signed, padded spelling of infinity. *)
Lemma of_str_infinity (lead w trail : string) (sg : sign) :
  blank lead = true -> blank trail = true ->
  lower w = "inf" \/ lower w = "infinity" ->
  of_str (lead ++ (sign_str sg ++ w) ++ trail) = Return (Infinity (is_minus sg))
  /\ blank (lead ++ (sign_str sg ++ w) ++ trail) = false.
Proof.
  intros Hl Ht Hw.
  assert (L : forallb (fun c => is_lower (lower_char c)) w = true).
  { rewrite <- forallb_map. fold (lower w).
    destruct Hw as [-> | ->]; reflexivity. }
  assert (S : forallb solid (sign_str sg ++ w) = true).
  { rewrite forallb_append, sign_str_solid. simpl.
    revert L. apply forallb_impl. intros c Hc.
    now destruct (lower_letter_facts c Hc). }
  destruct w as [|c r]; [destruct Hw; discriminate|].
  simpl in L. apply andb_prop in L. destruct L as [Lc _].
  destruct (lower_letter_facts c Lc) as (_ & D & P & N1 & N2).
  assert (St : strip (lead ++ (sign_str sg ++ String c r) ++ trail)
               = sign_str sg ++ String c r)
    by (now apply strip_solid).
  split.
  - unfold of_str. rewrite St, remove_solid by assumption.
    rewrite take_sign_render by assumption.
    rewrite parse_number_no_digit by assumption.
    assert (I : parse_inf (String c r) = true).
    { unfold parse_inf. destruct Hw as [-> | ->]; reflexivity. }
    now rewrite I.
  - apply not_true_is_false. intros B. apply strip_blank in B.
    rewrite St in B. destruct sg; discriminate.
Qed.

(** Every spelling of infinity without a minus sign ([inf] or [infinity]
    in any letter case, with an optional plus sign and surrounding white
    space) passes [validate_quantity], [validate_price] and
    [validate_stop_price] as the value plus infinity; with a minus sign it
    is refused as not greater than zero. *)
Theorem infinity_passes_validation (lead w trail order_type : string)
  (sg : sign) :
  blank lead = true -> blank trail = true ->
  lower w = "inf" \/ lower w = "infinity" ->
  let s := lead ++ (sign_str sg ++ w) ++ trail in
  if is_minus sg then
    validate_quantity s
    = Raise (ValidationError
               "Quantity must be greater than zero, got: -Infinity.")
  else
    validate_quantity s = Return (Infinity false)
    /\ validate_price (Some s) order_type = Return (Some (Infinity false))
    /\ validate_stop_price (Some s) order_type
       = Return (Some (Infinity false)).
Proof.
  intros Hl Ht Hw s.
  destruct (of_str_infinity lead w trail sg Hl Ht Hw) as [P B]. fold s in P, B.
  rewrite (validate_quantity_parsed _ _ P).
  destruct (is_minus sg) eqn:M; [reflexivity|].
  rewrite (validate_price_parsed _ order_type _ B P).
  rewrite (validate_stop_price_parsed _ order_type _ B P).
  repeat split.
Qed.

Lemma infinity_passes_validation_witness :
  validate_quantity " +Inf" = Return (Infinity false)
  /\ validate_price (Some " +Inf") "MARKET" = Return (Some (Infinity false))
  /\ validate_stop_price (Some " +Inf") "MARKET"
     = Return (Some (Infinity false)).
Proof.
  exact (infinity_passes_validation " " "Inf" "" "MARKET" Plus
           eq_refl eq_refl (or_introl eq_refl)).
Defined.

(** ** The exceptions that leave the validator *)

Lemma parsed_InvalidOperation (A : Type) (s msg1 : string)
  (msg2 : Decimal -> string) (f : Decimal -> A) :
  (d <- parse_or msg1 s ;;
   nonpos <- le_zero d ;;
   if (nonpos : bool) then Raise (ValidationError (msg2 d))
   else Return (f d))
  = Raise InvalidOperation ->
  reads_as_nan s.
Proof.
  unfold parse_or, reads_as_nan.
  destruct (of_str s) as [d|e] eqn:E; simpl.
  - destruct d as [sg ds ex|sg|sg sig dg]; simpl.
    + destruct (is_zero ds || sg); discriminate.
    + destruct sg; discriminate.
    + intros _. eauto.
  - rewrite (of_str_raises _ _ E). discriminate.
Qed.

Lemma validate_price_InvalidOperation (x : option string)
  (order_type : string) :
  validate_price x order_type = Raise InvalidOperation -> given_as_nan x.
Proof.
  unfold validate_price.
  destruct (_ && _); [discriminate|].
  destruct x as [s|]; [|discriminate].
  destruct (String.eqb (strip s) ""); [discriminate|].
  intros H. exists s. split; [reflexivity|].
  apply (parsed_InvalidOperation (option Decimal) s _
           (fun p => "Price must be greater than zero, got: "
                     ++ to_str p ++ ".")
           (fun p => Some p)) in H. exact H.
Qed.

Lemma validate_stop_price_InvalidOperation (x : option string)
  (order_type : string) :
  validate_stop_price x order_type = Raise InvalidOperation ->
  given_as_nan x.
Proof.
  unfold validate_stop_price.
  destruct (_ && _); [discriminate|].
  destruct x as [s|]; [|discriminate].
  destruct (String.eqb (strip s) ""); [discriminate|].
  intros H. exists s. split; [reflexivity|].
  apply (parsed_InvalidOperation (option Decimal) s _
           (fun sp => "Stop price must be greater than zero, got: "
                      ++ to_str sp ++ ".")
           (fun sp => Some sp)) in H. exact H.
Qed.

(** An exception that leaves [validate_all] is a [ValidationError], or it
    is the decimal module's [InvalidOperation], and then the quantity, the
    price or the stop price is a string the constructor reads as a NaN;
    no other kind of exception leaves it. *)
Theorem validate_all_exception_kinds (symbol side order_type quantity : string)
  (price stop_price : option string) (e : exn) :
  validate_all symbol side order_type quantity price stop_price = Raise e ->
  (exists m, e = ValidationError m)
  \/ (e = InvalidOperation
      /\ (reads_as_nan quantity \/ given_as_nan price
          \/ given_as_nan stop_price)).
Proof.
  intros H.
  destruct (validate_all_raises _ _ _ _ _ _ _ H) as [-> | M]; [|now left].
  right. split; [reflexivity|]. revert H. unfold validate_all.
  destruct (validate_symbol symbol) as [v1|e1] eqn:E1; simpl.
  2:{ intros [= ->]. revert E1. unfold validate_symbol.
      destruct (negb _); discriminate. }
  destruct (validate_side side) as [v2|e2] eqn:E2; simpl.
  2:{ intros [= ->]. revert E2. unfold validate_side.
      destruct (negb _); discriminate. }
  destruct (validate_order_type order_type) as [v3|e3] eqn:E3; simpl.
  2:{ intros [= ->]. revert E3. unfold validate_order_type.
      destruct (negb _); discriminate. }
  destruct (validate_quantity quantity) as [v4|e4] eqn:E4; simpl.
  2:{ intros [= ->]. left. revert E4. unfold validate_quantity.
      apply (parsed_InvalidOperation Decimal quantity _
               (fun qty => "Quantity must be greater than zero, got: "
                           ++ to_str qty ++ ".")
               (fun qty => qty)). }
  destruct (validate_price price order_type) as [v5|e5] eqn:E5; simpl.
  2:{ intros [= ->]. right. left.
      now apply (validate_price_InvalidOperation price order_type). }
  destruct (validate_stop_price stop_price order_type) as [v6|e6] eqn:E6;
    simpl; [discriminate|].
  intros [= ->]. right. right.
  now apply (validate_stop_price_InvalidOperation stop_price order_type).
Qed.

Lemma validate_all_exception_kinds_witness :
  (exists m, InvalidOperation = ValidationError m)
  \/ (InvalidOperation = InvalidOperation
      /\ (reads_as_nan "1" \/ given_as_nan (Some "-nan") \/ given_as_nan None)).
Proof.
  exact (validate_all_exception_kinds "ETHUSDT" "SELL" "LIMIT" "1"
           (Some "-nan") None InvalidOperation eq_refl).
Defined.

End ValidatorExtras.

(* ------------------------------------------------------------------ *)
(** * More about the client *)
(* ------------------------------------------------------------------ *)

Module ClientExtras.

Import PyStr PyStrFacts Dict Client Spec EnvelopeFacts.

Lemma _request_exchange (c : BinanceClient) (env : Env)
  (method endpoint : string) (signed : bool) (params data : dict pyval) :
  _request c env method endpoint signed params data
  = exchange env (build_request c env method endpoint signed params data).
Proof. reflexivity. Qed.

(** *** Which responses come back as a result *)

Lemma check_status_returns (resp : Response) (body r : json) :
  check_status resp body = Return r <->
  r = body
  /\ match body with
     | JObj _ => status_code resp <? 400
     | _ => (status_code resp <? 400) || (600 <=? status_code resp)
     end = true.
Proof.
  unfold check_status, raise_for_status.
  destruct (Z.leb_spec 400 (status_code resp)) as [H4|H4];
    destruct (Z.ltb_spec (status_code resp) 400) as [L4|L4]; try lia;
    destruct (Z.ltb_spec (status_code resp) 600) as [L6|L6];
    destruct (Z.leb_spec 600 (status_code resp)) as [H6|H6]; try lia;
    destruct body; simpl; split;
      try (intros [= <-]; now split);
      try discriminate; try (intros [-> _]; reflexivity);
      try (intros [_ F]; discriminate F).
Qed.

Lemma handle_response_returns (resp : Response) (body : json) :
  handle_response resp = Return body <->
  json_body resp = Some body /\ accepted_response resp = true.
Proof.
  unfold handle_response, accepted_response.
  destruct (json_body resp) as [b|] eqn:J.
  2:{ split; [|intros [F _]; discriminate F].
      unfold raise_for_status.
      destruct (_ && _); simpl; discriminate. }
  assert (G : forall r,
             check_status resp b = Return r <->
             Some b = Some r
             /\ match b with
                | JObj _ => status_code resp <? 400
                | _ => (status_code resp <? 400) || (600 <=? status_code resp)
                end = true).
  { intros r. rewrite check_status_returns. split.
    - intros [-> H]. now split.
    - intros [[= ->] H]. now split. }
  destruct b as [ | bb | z | f | str | l | d]; try apply G.
  destruct (get "code" d) as [code|] eqn:C.
  - destruct code as [ | bb | z | f | str | l | d']; simpl.
    + split; [discriminate | intros [_ F]; discriminate F].
    + apply G.
    + destruct (z <? 0); simpl.
      * split; [discriminate | intros [_ F]; discriminate F].
      * apply G.
    + destruct (PrimFloat.ltb f 0); simpl.
      * split; [discriminate | intros [_ F]; discriminate F].
      * apply G.
    + split; [discriminate | intros [_ F]; discriminate F].
    + split; [discriminate | intros [_ F]; discriminate F].
    + split; [discriminate | intros [_ F]; discriminate F].
  - simpl. apply G.
Qed.

(** ** What [_request] returns *)

(** [_request] returns a body exactly when the transport answered with a
    response whose JSON body is that body and which is acceptable: below
    status 400 and, for a mapping, without a negative [code] (for a body
    that is no mapping a status of 600 or more is let through as well). *)
Theorem request_returns_iff (c : BinanceClient) (env : Env)
  (method endpoint : string) (signed : bool) (params data : dict pyval)
  (body : json) :
  _request c env method endpoint signed params data = Return body
  <-> exists resp,
        session_request env
          (build_request c env method endpoint signed params data)
        = Responded resp
        /\ json_body resp = Some body
        /\ accepted_response resp = true.
Proof.
  rewrite _request_exchange. unfold exchange.
  destruct (session_request env _) as [resp|dt|dt|dt|e].
  - rewrite handle_response_returns. split.
    + intros [H1 H2]. eauto.
    + intros (r & [= <-] & H1 & H2). auto.
  - split; [discriminate | intros (r & F & _); discriminate F].
  - split; [discriminate | intros (r & F & _); discriminate F].
  - split; [discriminate | intros (r & F & _); discriminate F].
  - split; [|intros (r & F & _); discriminate F].
    intros F. discriminate F || (exfalso; revert F; destruct e; discriminate).
Qed.

Lemma request_returns_iff_witness :
  _request demo_client
    (mk_env 0 (fun _ => Responded
                 (mk_response 200 "[]" (Some (JArr [])))))
    "GET" "/api/v3/openOrders" true [] []
  = Return (JArr []).
Proof.
  apply (proj2 (request_returns_iff demo_client _ _ _ _ _ _ _)).
  exists (mk_response 200 "[]" (Some (JArr []))). repeat split.
Defined.

(** ** Responses that are errors *)

(** A [code] that cannot be compared with zero (null, a string, a list or
    a mapping) makes [_request] raise a [TypeError], whatever the status
    of the response is. *)
Theorem incomparable_code_raises_TypeError (c : BinanceClient) (env : Env)
  (method endpoint : string) (signed : bool) (params data : dict pyval)
  (resp : Response) (body : dict json) (code : json) :
  session_request env (build_request c env method endpoint signed params data)
  = Responded resp ->
  json_body resp = Some (JObj body) ->
  get "code" body = Some code ->
  incomparable code = true ->
  exists m,
    _request c env method endpoint signed params data = Raise (TypeError m).
Proof.
  intros Hs Hb Hc Hi. rewrite _request_exchange. unfold exchange.
  rewrite Hs. unfold handle_response. rewrite Hb, Hc.
  destruct code; try discriminate Hi; simpl; eexists; reflexivity.
Qed.

Lemma incomparable_code_raises_TypeError_witness :
  exists m,
    _request demo_client
      (mk_env 0 (fun _ => Responded
                   (mk_response 200 "" (Some (JObj [("code", JNull)])))))
      "GET" "/api/v3/account" true [] []
    = Raise (TypeError m).
Proof.
  apply (incomparable_code_raises_TypeError demo_client _ _ _ _ _ _
           (mk_response 200 "" (Some (JObj [("code", JNull)])))
           [("code", JNull)] JNull); reflexivity.
Defined.

(** A response with status 400 or more whose body is a mapping without a
    negative [code] raises [BinanceAPIError] with the body's [code] (the
    status when there is none), the body's [msg] (the raw text when there
    is none) and the status. *)
Theorem http_error_with_mapping (c : BinanceClient) (env : Env)
  (method endpoint : string) (signed : bool) (params data : dict pyval)
  (resp : Response) (body : dict json) :
  session_request env (build_request c env method endpoint signed params data)
  = Responded resp ->
  json_body resp = Some (JObj body) ->
  code_not_negative body = true ->
  400 <= status_code resp ->
  _request c env method endpoint signed params data
  = Raise (BinanceAPIError
             (match get "code" body with
              | Some code => code
              | None => JInt (status_code resp)
              end)
             (match get "msg" body with
              | Some m => m
              | None => JStr (text resp)
              end)
             (status_code resp)).
Proof.
  intros Hs Hb Hc H4. rewrite _request_exchange. unfold exchange.
  rewrite Hs. unfold handle_response. rewrite Hb.
  assert (K : check_status resp (JObj body)
              = Raise (BinanceAPIError
                         (json_get "code" (JInt (status_code resp)) body)
                         (json_get "msg" (JStr (text resp)) body)
                         (status_code resp))).
  { unfold check_status.
    destruct (Z.leb_spec 400 (status_code resp)); [reflexivity|lia]. }
  unfold code_not_negative in Hc. unfold json_get in K.
  destruct (get "code" body) as [code|]; [|exact K].
  destruct code; try discriminate Hc; simpl in *.
  - exact K.
  - apply negb_true_iff in Hc. rewrite Hc. exact K.
  - apply negb_true_iff in Hc. rewrite Hc. exact K.
Qed.

Lemma http_error_with_mapping_witness :
  _request demo_client
    (mk_env 0 (fun _ => Responded
                 (mk_response 404 "<html>"
                    (Some (JObj [("msg", JStr "Not found")])))))
    "GET" "/api/v3/exchangeInfo" false [] []
  = Raise (BinanceAPIError (JInt 404) (JStr "Not found") 404).
Proof.
  apply (http_error_with_mapping demo_client _ _ _ _ _ _
           (mk_response 404 "<html>"
              (Some (JObj [("msg", JStr "Not found")])))
           [("msg", JStr "Not found")]);
    [reflexivity | reflexivity | reflexivity | simpl; lia].
Defined.

(** A response whose body is not JSON never comes back as a result: it
    raises [HTTPError] for a status from 400 to 599 and the decoder's
    [ValueError] for every other status, 200 included. *)
Theorem non_json_body_raises (c : BinanceClient) (env : Env)
  (method endpoint : string) (signed : bool) (params data : dict pyval)
  (resp : Response) :
  session_request env (build_request c env method endpoint signed params data)
  = Responded resp ->
  json_body resp = None ->
  if (400 <=? status_code resp) && (status_code resp <? 600)
  then exists m,
         _request c env method endpoint signed params data
         = Raise (HTTPError m)
  else exists m,
         _request c env method endpoint signed params data
         = Raise (ValueError m).
Proof.
  intros Hs Hb. rewrite _request_exchange. unfold exchange.
  rewrite Hs. unfold handle_response, raise_for_status. rewrite Hb.
  destruct (_ && _); simpl; eexists; reflexivity.
Qed.

Lemma non_json_body_raises_witness :
  exists m,
    _request demo_client
      (mk_env 0 (fun _ => Responded (mk_response 200 "OK" None)))
      "GET" "/api/v3/ping" false [] []
    = Raise (ValueError m).
Proof.
  exact (non_json_body_raises demo_client
           (mk_env 0 (fun _ => Responded (mk_response 200 "OK" None)))
           "GET" "/api/v3/ping" false [] []
           (mk_response 200 "OK" None) eq_refl eq_refl).
Defined.

(** ** The envelope's own fields *)

Lemma set_keeps_wf {V} (k : string) (v : V) (d : dict V) :
  wf d -> wf (set k v d).
Proof.
  unfold wf. induction d as [|[k' v'] r IH]; simpl; intros H.
  - constructor; [intros []|constructor].
  - destruct (String.eqb k k') eqn:E; simpl; [exact H|].
    inversion H as [|? ? Hn Hr]; subst. constructor; [|now apply IH].
    intros I. apply Hn. clear - I E.
    induction r as [|[k2 v2] r IH]; simpl in *.
    + destruct I as [<-|[]]. rewrite String.eqb_refl in E. discriminate.
    + destruct (String.eqb k k2) eqn:E2; simpl in *; [exact I|].
      destruct I as [I|I]; [now left | right; now apply IH].
Qed.

Lemma update_keeps_wf {V} (d e : dict V) : wf d -> wf (update d e).
Proof.
  unfold update. revert d.
  induction e as [|[k v] r IH]; simpl; intros d H; [exact H|].
  apply IH. now apply set_keeps_wf.
Qed.

(** Whatever the caller passes, the signed mapping has every key once,
    its [timestamp] is the clock reading, its [recvWindow] is 5000 and its
    [signature] is the HMAC of the mapping as it was before the signature
    was written: a caller's value under one of these keys is replaced. *)
Theorem envelope_fields_win (c : BinanceClient) (env : Env)
  (params data : dict pyval) :
  let payload := signed_payload c env params data in
  wf payload
  /\ get "timestamp" payload = Some (VInt (now_ms env))
  /\ get "recvWindow" payload = Some (VInt 5000)
  /\ get "signature" payload
     = Some (VStr (Sha256.hmac_hexdigest (api_secret c)
                     (Url.urlencode (unsigned_payload env params data)))).
Proof.
  intros payload. subst payload. unfold signed_payload, unsigned_payload.
  split; [|split; [|split]].
  - repeat apply set_keeps_wf. repeat apply update_keeps_wf. constructor.
  - rewrite !get_set_other by discriminate. apply get_set_same.
  - rewrite get_set_other by discriminate. apply get_set_same.
  - apply get_set_same.
Qed.

(** ** What is signed is what is sent *)

Lemma get_none_not_in {V} (k : string) (d : dict V) :
  ~ In k (keys d) -> get k d = None.
Proof.
  induction d as [|[k' v'] r IH]; simpl; [reflexivity|].
  intros H. destruct (String.eqb k k') eqn:E.
  - apply String.eqb_eq in E. subst. tauto.
  - apply IH. tauto.
Qed.

(** When the caller's fields have no [signature] key, the encoded signed
    mapping is the string that was signed, followed by [&signature=] and
    the hexadecimal HMAC-SHA256 of that very string under the API secret;
    this holds also when the caller sets [timestamp] or [recvWindow]. *)
Theorem signature_covers_what_is_sent (c : BinanceClient) (env : Env)
  (params data : dict pyval) :
  ~ In "signature" (keys params) -> ~ In "signature" (keys data) ->
  let signed_string := Url.urlencode (unsigned_payload env params data) in
  Url.urlencode (signed_payload c env params data)
  = signed_string ++ "&signature="
    ++ Sha256.hmac_hexdigest (api_secret c) signed_string.
Proof.
  intros Hp Hd signed_string. subst signed_string.
  unfold signed_payload, _sign.
  set (u := unsigned_payload env params data).
  assert (F : get "signature" u = None).
  { subst u. unfold unsigned_payload.
    rewrite !get_set_other by discriminate.
    apply get_update_none; [|exact Hd].
    apply get_update_none; [reflexivity|exact Hp]. }
  rewrite (set_fresh _ _ _ F).
  rewrite urlencode_app by discriminate.
  assert (N : u <> []) by (subst u; apply set_nonempty).
  destruct u as [|x r] eqn:U; [contradiction|]. rewrite <- U.
  f_equal.
  unfold Url.urlencode, join, Url.encode_item.
  cbn [List.map String.concat fst snd pyval_str].
  change (Url.quote_plus "signature") with "signature".
  rewrite quote_plus_safe; [reflexivity|].
  apply (forallb_impl is_hex); [apply hex_is_safe|].
  pose proof (hexdigest_is_hex64
                (Sha256.hmac (Sha256.bytes_of_string (api_secret c))
                   (Sha256.bytes_of_string
                      (PyStr.join "&" (List.map Url.encode_item u))))) as H.
  unfold is_hex64 in H. apply andb_prop in H. exact (proj2 H).
Qed.

Lemma signature_covers_what_is_sent_witness :
  let q := "recvWindow=5000&symbol=BTCUSDT&timestamp=1499827319559" in
  Url.urlencode
    (signed_payload demo_client demo_env
       [("recvWindow", VInt 60000); ("symbol", VStr "BTCUSDT")] [])
  = q ++ "&signature=" ++ Sha256.hmac_hexdigest "secret" q.
Proof.
  apply (signature_covers_what_is_sent demo_client demo_env
           [("recvWindow", VInt 60000); ("symbol", VStr "BTCUSDT")] []).
  - simpl. intros [H|[H|[]]]; discriminate H.
  - simpl. intros [].
Defined.

(** ** The requests of the public calls *)

Lemma order_data_fields (symbol side order_type tif : string)
  (quantity : PyDecimal.Decimal) (price stop : option PyDecimal.Decimal) :
  order_data symbol side order_type quantity price stop tif
  = order_fields symbol side order_type quantity price stop tif
  /\ merged [] (order_data symbol side order_type quantity price stop tif)
     = order_fields symbol side order_type quantity price stop tif.
Proof.
  unfold order_data, order_fields.
  destruct (String.eqb order_type "LIMIT"), price, stop; split; reflexivity.
Qed.

Lemma place_order_round_trip (c : BinanceClient) (env : Env)
  (symbol side order_type tif : string) (quantity : PyDecimal.Decimal)
  (price stop : option PyDecimal.Decimal) (reduce_only : bool) :
  place_order c env symbol side order_type quantity price stop tif
              reduce_only
  = (response <-
       exchange env
         (order_request c env symbol side order_type quantity price stop
                        tif) ;;
     match response with
     | JObj _ => Return response
     | x => Raise (no_get x)
     end).
Proof.
  unfold place_order, order_request. rewrite _request_exchange.
  destruct (order_data_fields symbol side order_type tif quantity price stop)
    as [E M].
  unfold build_request.
  rewrite signed_payload_layout
    by (reflexivity || apply order_data_no_reserved_key).
  unfold expected_signature. rewrite M.
  change (is_query_method "POST") with false. cbv iota beta.
  unfold enveloped, signed_query.
  set (f := order_fields symbol side order_type quantity price stop tif).
  assert (N : (f ++ sync_fields env
               ++ [("signature",
                    VStr (Sha256.hmac_hexdigest (api_secret c)
                            (Url.urlencode (f ++ sync_fields env)%list)))])%list
              <> []).
  { subst f. unfold order_fields. discriminate. }
  destruct (f ++ _)%list eqn:F; [contradiction|]. rewrite <- F.
  destruct (exchange env _) as [response|e]; simpl; [|reflexivity].
  destruct response; reflexivity.
Qed.

(** [BinanceClient.place_order] makes one round trip: a POST to
    [/api/v3/order] without query parameters whose form body is symbol,
    side, type and quantity, then [timeInForce] and the price only for the
    type LIMIT, then [stopPrice] whenever a stop price is given, then the
    envelope; a reply that is not a mapping ends in the [AttributeError]
    of the closing log line, which names the type of the reply. *)
Theorem place_order_request (c : BinanceClient) (env : Env)
  (symbol side order_type tif : string) (quantity : PyDecimal.Decimal)
  (price stop : option PyDecimal.Decimal) (reduce_only : bool) :
  place_order c env symbol side order_type quantity price stop tif
              reduce_only
  = (response <-
       exchange env
         (mk_request "POST" (base_url c ++ "/api/v3/order") None
            (Some (Url.urlencode
                     (enveloped c env
                        (order_fields symbol side order_type quantity
                                      price stop tif))))
            10) ;;
     match response with
     | JObj _ => Return response
     | x =>
         Raise (AttributeError
                  ("'" ++ type_name x ++ "' object has no attribute 'get'"))
     end).
Proof. apply place_order_round_trip. Qed.

(** A reply that is a JSON list is returned by [_request] and fails in the
    log line. *)
Lemma place_order_request_witness :
  place_order demo_client
    (mk_env 0 (fun _ => Responded (mk_response 200 "[1]" (Some (JArr [JInt 1])))))
    "BTCUSDT" "BUY" "MARKET" (PyDecimal.Finite false "1" 0) None None "GTC"
    false
  = Raise (AttributeError "'list' object has no attribute 'get'")
  /\ place_order demo_client
       (mk_env 0 (fun _ => Responded (mk_response 200 "null" (Some JNull))))
       "BTCUSDT" "BUY" "MARKET" (PyDecimal.Finite false "1" 0) None None
       "GTC" true
     = Raise (AttributeError "'NoneType' object has no attribute 'get'").
Proof.
  split; rewrite place_order_request; vm_compute; reflexivity.
Defined.

(** [cancel_order] makes one round trip: a DELETE to [/api/v3/order]
    whose query parameters are symbol, orderId and the envelope, and which
    has no body although the fields were passed as body data. *)
Theorem cancel_order_request (c : BinanceClient) (env : Env)
  (symbol : string) (order_id : Z) :
  cancel_order c env symbol order_id
  = exchange env
      (mk_request "DELETE" (base_url c ++ "/api/v3/order")
         (Some (enveloped c env
                  [("symbol", VStr symbol); ("orderId", VInt order_id)]))
         None 10).
Proof.
  unfold cancel_order. rewrite _request_exchange. unfold build_request.
  rewrite signed_payload_layout by reflexivity. reflexivity.
Qed.

Lemma symbol_filter_fields (symbol : option string) :
  symbol_filter symbol = filter_fields symbol
  /\ merged (symbol_filter symbol) [] = filter_fields symbol
  /\ no_reserved_key (symbol_filter symbol) = true.
Proof. destruct symbol as [[|a r]|]; repeat split. Qed.

(** The queries: [get_account] and [get_open_orders] send a GET whose
    query parameters are the envelope, after the symbol when a non-empty
    one is given, and no body; [get_exchange_info] sends a GET with the
    symbol alone, or no parameter at all, and neither timestamp nor
    signature. *)
Theorem query_requests (c : BinanceClient) (env : Env)
  (symbol : option string) :
  get_account c env
  = exchange env
      (mk_request "GET" (base_url c ++ "/api/v3/account")
         (Some (enveloped c env [])) None 10)
  /\ get_open_orders c env symbol
     = exchange env
         (mk_request "GET" (base_url c ++ "/api/v3/openOrders")
            (Some (enveloped c env (filter_fields symbol))) None 10)
  /\ get_exchange_info c env symbol
     = exchange env
         (mk_request "GET" (base_url c ++ "/api/v3/exchangeInfo")
            (match filter_fields symbol with
             | [] => None
             | f => Some f
             end) None 10).
Proof.
  destruct (symbol_filter_fields symbol) as (E & M & R).
  split; [|split].
  - unfold get_account. rewrite _request_exchange. unfold build_request.
    rewrite signed_payload_layout by reflexivity. reflexivity.
  - unfold get_open_orders. rewrite _request_exchange. unfold build_request.
    rewrite signed_payload_layout by (exact R || reflexivity).
    unfold expected_signature. rewrite M.
    destruct symbol as [[|a r]|]; reflexivity.
  - unfold get_exchange_info. rewrite _request_exchange, E.
    destruct symbol as [[|a r]|]; reflexivity.
Qed.

(** ** Construction and connectivity *)

Lemma rstrip_char_spec (x : ascii) (s : string) :
  (exists n, s = rstrip_char x s ++ PyStr.repeat x n)
  /\ last (rstrip_char x s) <> Some x.
Proof.
  induction s as [|ch r [[n Hn] Hl]]; simpl.
  - split; [now exists 0%nat | discriminate].
  - destruct (rstrip_char x r) as [|y r'] eqn:E.
    + simpl in Hn. destruct (Ascii.eqb ch x) eqn:C.
      * apply Ascii.eqb_eq in C. subst ch.
        split; [|discriminate]. exists (S n). simpl. now rewrite <- Hn.
      * apply Ascii.eqb_neq in C.
        split; [exists n; simpl; now rewrite <- Hn|].
        simpl. congruence.
    + split; [exists n; simpl in *; congruence|]. exact Hl.
Qed.

(** The constructor refuses an empty key or secret with a [ValueError];
    otherwise the client keeps both unchanged and its base URL is the given
    one without its trailing slashes, all of them and nothing else. *)
Theorem init_spec (key secret url : string) :
  if String.eqb key "" || String.eqb secret "" then
    init key secret url
    = Raise (ValueError "API key and secret must not be empty.")
  else
    exists c,
      init key secret url = Return c
      /\ api_key c = key /\ api_secret c = secret
      /\ last (base_url c) <> Some "/"%char
      /\ exists n, url = base_url c ++ PyStr.repeat "/" n.
Proof.
  unfold init. destruct (_ || _); [reflexivity|].
  eexists. split; [reflexivity|]. simpl.
  destruct (rstrip_char_spec "/" url) as [Hn Hl]. auto.
Qed.

(** [ping] answers [True] exactly when the transport answers the bare GET
    of [/api/v3/ping] (no parameter, no body, no signature) with an
    acceptable response; every failure, whatever its kind, gives [False]. *)
Theorem ping_true_iff (c : BinanceClient) (env : Env) :
  ping c env = true
  <-> exists resp,
        session_request env
          (mk_request "GET" (base_url c ++ "/api/v3/ping") None None 10)
        = Responded resp
        /\ accepted_response resp = true.
Proof.
  unfold ping. rewrite _request_exchange.
  change (build_request c env "GET" "/api/v3/ping" false [] [])
    with (mk_request "GET" (base_url c ++ "/api/v3/ping") None None 10).
  unfold exchange.
  destruct (session_request env _) as [resp|dt|dt|dt|e].
  - destruct (handle_response resp) as [body|e] eqn:H.
    + apply handle_response_returns in H. destruct H as [_ A].
      split; [eauto | reflexivity].
    + split; [discriminate|].
      intros (r & [= <-] & A). exfalso.
      unfold accepted_response in A.
      destruct (json_body resp) as [b|] eqn:J; [|discriminate].
      assert (K : handle_response resp = Return b).
      { apply handle_response_returns. split; [exact J|].
        unfold accepted_response. now rewrite J. }
      congruence.
  - split; [discriminate | intros (r & F & _); discriminate F].
  - split; [discriminate | intros (r & F & _); discriminate F].
  - split; [discriminate | intros (r & F & _); discriminate F].
  - split; [discriminate | intros (r & F & _); discriminate F].
Qed.

Lemma ping_true_iff_witness :
  ping demo_client
    (mk_env 0 (fun _ => Responded (mk_response 200 "{}" (Some (JObj [])))))
  = true.
Proof.
  apply (proj2 (ping_true_iff demo_client _)).
  exists (mk_response 200 "{}" (Some (JObj []))). split; reflexivity.
Defined.

End ClientExtras.

(* ------------------------------------------------------------------ *)
(** * More about the commands and the orchestration *)
(* ------------------------------------------------------------------ *)

Module CliExtras.

Import PyStr PyStrFacts Client Cli Spec.

(** [_get_client] ends in one of two ways: with exit status 1 when the
    key or the secret is missing or blank in the environment, or with a
    client holding the stripped key and secret and the testnet base URL;
    the constructor's [ValueError] cannot occur. *)
Theorem get_client_outcome (environ : string -> option string) :
  let key := strip (getenv_or_empty environ "BINANCE_API_KEY") in
  let secret := strip (getenv_or_empty environ "BINANCE_API_SECRET") in
  match _get_client environ with
  | Done c =>
      c = mk_client key secret BASE_URL /\ key <> "" /\ secret <> ""
  | Exit code =>
      code = 1
      /\ (blank (getenv_or_empty environ "BINANCE_API_KEY") = true
          \/ blank (getenv_or_empty environ "BINANCE_API_SECRET") = true)
  | Uncaught _ => False
  end.
Proof.
  intros key secret. unfold _get_client, init. fold key secret.
  destruct (String.eqb key "") eqn:K; simpl.
  - split; [reflexivity|]. left. apply String.eqb_eq in K.
    now apply strip_empty_iff.
  - destruct (String.eqb secret "") eqn:S; simpl.
    + split; [reflexivity|]. right. apply String.eqb_eq in S.
      now apply strip_empty_iff.
    + apply String.eqb_neq in K, S. repeat split; assumption.
Qed.

End CliExtras.

Module OrderExtras.

Import Validators ValidatorFacts Dict Client Orders Spec ClientExtras.

Section WithFormatting.

Variable py_repr : json -> string.

(** For validated input the orchestration is the client's round trip with
    the canonical fields, wrapped in the four handlers. *)
Lemma place_order_validated (c : BinanceClient) (env : Env)
  (symbol side order_type quantity : string)
  (price stop_price : option string) (reduce_only : bool) (p : params) :
  validate_all symbol side order_type quantity price stop_price = Return p ->
  Orders.place_order py_repr c env symbol side order_type quantity price
                     stop_price reduce_only
  = match (response <- exchange env (request_of c env p) ;;
           match response with
           | JObj _ => Return response
           | x => Raise (no_get x)
           end) with
    | Return response => Return (mk_result true response None)
    | Raise (ValidationError m) => Return (failure m)
    | Raise (BinanceAPIError code msg _) =>
        Return (failure ("Binance API Error [" ++ json_str py_repr code
                         ++ "]: " ++ json_str py_repr msg))
    | Raise (ConnectionError m) | Raise (TimeoutError m) =>
        Return (failure ("Network Error: " ++ m))
    | Raise e => Return (failure ("Unexpected error: " ++ exn_str py_repr e))
    end.
Proof.
  intros H. unfold Orders.place_order. rewrite H.
  rewrite place_order_round_trip. reflexivity.
Qed.

(** ** Failures of the network *)

(** For input that passes validation, a failure to reach the exchange
    comes back as a failed result and nothing is raised.  What the
    transport raised is matched against the [except] clauses in their
    order: a connection error, a connect timeout included (it is a
    connection error and a timeout at once, and the first clause takes
    it), gives the cannot-connect message with the URL of the order
    endpoint; a timeout that is no connection error gives the timed-out
    message. *)
Theorem network_failures_are_reported (c : BinanceClient) (env : Env)
  (symbol side order_type quantity : string)
  (price stop_price : option string) (reduce_only : bool) (p : params) :
  validate_all symbol side order_type quantity price stop_price = Return p ->
  let raised := session_request env (request_of c env p) in
  (is_ConnectionError raised = true ->
   Orders.place_order py_repr c env symbol side order_type quantity price
                      stop_price reduce_only
   = Return (failure
               ("Network Error: Cannot connect to Binance Testnet ("
                ++ base_url c ++ "/api/v3/order). Check your internet.")))
  /\ (is_ConnectionError raised = false -> is_Timeout raised = true ->
      Orders.place_order py_repr c env symbol side order_type quantity price
                         stop_price reduce_only
      = Return (failure "Network Error: Request to Binance timed out.")).
Proof.
  intros H raised. rewrite (place_order_validated _ _ _ _ _ _ _ _ _ _ H).
  unfold exchange. fold raised.
  split; destruct raised as [resp|dt|dt|dt|e]; simpl;
    try discriminate; intros; try reflexivity;
    now rewrite PyStrFacts.append_assoc.
Qed.

(** ** Errors of the exchange *)

(** For input that passes validation, a reply whose body is a mapping
    with a negative integer [code] and a string [msg] comes back as a
    failed result with the message [Binance API Error [code]: msg]. *)
Theorem exchange_errors_are_reported (c : BinanceClient) (env : Env)
  (symbol side order_type quantity : string)
  (price stop_price : option string) (reduce_only : bool) (p : params)
  (resp : Response) (body : dict json) (code : Z) (msg : string) :
  validate_all symbol side order_type quantity price stop_price = Return p ->
  session_request env (request_of c env p) = Responded resp ->
  json_body resp = Some (JObj body) ->
  get "code" body = Some (JInt code) -> code < 0 ->
  get "msg" body = Some (JStr msg) ->
  Orders.place_order py_repr c env symbol side order_type quantity price
                     stop_price reduce_only
  = Return (failure ("Binance API Error [" ++ PyStr.of_Z code ++ "]: "
                     ++ msg)).
Proof.
  intros H T J C N M. rewrite (place_order_validated _ _ _ _ _ _ _ _ _ _ H).
  unfold exchange. rewrite T. unfold handle_response. rewrite J, C.
  simpl lt_zero. destruct (Z.ltb_spec code 0) as [_|F]; [|lia].
  simpl. unfold json_get. rewrite M. reflexivity.
Qed.

(** ** Success *)

(** For input that passes validation, an acceptable reply whose body is a
    mapping comes back as a successful result carrying that mapping and no
    error, and the properties of the result read the mapping's fields,
    with their defaults for the missing ones. *)
Theorem accepted_orders_succeed (c : BinanceClient) (env : Env)
  (symbol side order_type quantity : string)
  (price stop_price : option string) (reduce_only : bool) (p : params)
  (resp : Response) (body : dict json) :
  validate_all symbol side order_type quantity price stop_price = Return p ->
  session_request env (request_of c env p) = Responded resp ->
  json_body resp = Some (JObj body) ->
  accepted_response resp = true ->
  let r := mk_result true (JObj body) None in
  Orders.place_order py_repr c env symbol side order_type quantity price
                     stop_price reduce_only = Return r
  /\ order_id r
     = Return (match get "orderId" body with Some v => v | None => JNull end)
  /\ executed_qty r
     = Return (match get "executedQty" body with
               | Some v => v
               | None => JStr "0"
               end)
  /\ avg_price r
     = Return (match get "avgPrice" body with
               | Some v => v
               | None => JStr "N/A"
               end).
Proof.
  intros H T J A r. rewrite (place_order_validated _ _ _ _ _ _ _ _ _ _ H).
  unfold exchange. rewrite T.
  assert (K : handle_response resp = Return (JObj body))
    by (apply handle_response_returns; auto).
  rewrite K. simpl. repeat split.
Qed.

(** ** Results are always readable *)

Lemma round_trip_returns_mapping (env : Env)
  (rq : HttpRequest) (response : json) :
  (response <- exchange env rq ;;
   match response with
   | JObj _ => Return response
   | x => Raise (no_get x)
   end) = Return response ->
  exists d, response = JObj d.
Proof.
  destruct (exchange env rq) as [r|e]; simpl; [|discriminate].
  destruct r; try discriminate. intros [= <-]. eauto.
Qed.

(** Every result that [place_order] returns carries a mapping, so its
    properties never fail; a failed result carries the empty mapping and a
    message, and its properties give [None] for the order id, the status
    and the client order id, ["0"] for the executed quantity and ["N/A"]
    for the average price. *)
Theorem results_are_readable (c : BinanceClient) (env : Env)
  (symbol side order_type quantity : string)
  (price stop_price : option string) (reduce_only : bool)
  (r : OrderResult) :
  Orders.place_order py_repr c env symbol side order_type quantity price
                     stop_price reduce_only = Return r ->
  (exists d,
     data r = JObj d
     /\ order_id r = Return (json_get "orderId" JNull d)
     /\ status r = Return (json_get "status" JNull d)
     /\ executed_qty r = Return (json_get "executedQty" (JStr "0") d)
     /\ avg_price r = Return (json_get "avgPrice" (JStr "N/A") d)
     /\ client_order_id r = Return (json_get "clientOrderId" JNull d))
  /\ (success r = false ->
      data r = JObj [] /\ (exists m, error r = Some m)
      /\ order_id r = Return JNull /\ status r = Return JNull
      /\ executed_qty r = Return (JStr "0")
      /\ avg_price r = Return (JStr "N/A")
      /\ client_order_id r = Return JNull).
Proof.
  intros H.
  assert (F : forall m, r = failure m ->
              (exists d,
                 data r = JObj d
                 /\ order_id r = Return (json_get "orderId" JNull d)
                 /\ status r = Return (json_get "status" JNull d)
                 /\ executed_qty r
                    = Return (json_get "executedQty" (JStr "0") d)
                 /\ avg_price r = Return (json_get "avgPrice" (JStr "N/A") d)
                 /\ client_order_id r
                    = Return (json_get "clientOrderId" JNull d))
              /\ (success r = false ->
                  data r = JObj [] /\ (exists m, error r = Some m)
                  /\ order_id r = Return JNull /\ status r = Return JNull
                  /\ executed_qty r = Return (JStr "0")
                  /\ avg_price r = Return (JStr "N/A")
                  /\ client_order_id r = Return JNull)).
  { intros m ->. split.
    - exists []. repeat split.
    - intros _. split; [reflexivity|]. split; [eexists; reflexivity|].
      repeat split. }
  destruct (validate_all symbol side order_type quantity price stop_price)
    as [p|e] eqn:V.
  - rewrite (place_order_validated _ _ _ _ _ _ _ _ _ _ V) in H.
    destruct (response <- exchange env (request_of c env p) ;; _)
      as [response|e] eqn:R.
    + apply round_trip_returns_mapping in R. destruct R as [d ->].
      injection H as <-. split.
      * exists d. repeat split.
      * simpl. intros F'. discriminate F'.
    + destruct e; injection H as H; symmetry in H; eapply F; exact H.
  - unfold Orders.place_order in H. rewrite V in H.
    destruct e; try discriminate H.
    injection H as H. symmetry in H. eapply F; exact H.
Qed.

(** ** Invalid input makes no request *)

(** When validation does not return, the result of [place_order] (a
    failed result, or the escaping exception) is the same for every client
    and every transport: no request is made. *)
Theorem invalid_input_sends_nothing (c1 c2 : BinanceClient) (env1 env2 : Env)
  (symbol side order_type quantity : string)
  (price stop_price : option string) (reduce_only : bool) :
  (forall p, validate_all symbol side order_type quantity price stop_price
             <> Return p) ->
  Orders.place_order py_repr c1 env1 symbol side order_type quantity price
                     stop_price reduce_only
  = Orders.place_order py_repr c2 env2 symbol side order_type quantity price
                       stop_price reduce_only.
Proof.
  intros H. unfold Orders.place_order.
  destruct (validate_all symbol side order_type quantity price stop_price)
    as [p|e]; [now destruct (H p) | reflexivity].
Qed.

End WithFormatting.

(** A refused connection and a connect timeout are reported as a failure
    to connect, a read timeout as a timeout. *)
Lemma network_failures_are_reported_witness :
  Orders.place_order (fun _ => "") demo_client
    (mk_env 0 (fun _ => ConnectionFailed "refused"))
    "btcusdt" "buy" "market" "1" None None false
  = Return (failure
              "Network Error: Cannot connect to Binance Testnet (https://testnet.binance.vision/api/v3/order). Check your internet.")
  /\ Orders.place_order (fun _ => "") demo_client
       (mk_env 0 (fun _ => ConnectTimedOut "connect timeout=10"))
       "btcusdt" "buy" "market" "1" None None false
     = Return (failure
                 "Network Error: Cannot connect to Binance Testnet (https://testnet.binance.vision/api/v3/order). Check your internet.")
  /\ Orders.place_order (fun _ => "") demo_client
       (mk_env 0 (fun _ => TimedOut "read timeout=10"))
       "btcusdt" "buy" "market" "1" None None false
     = Return (failure "Network Error: Request to Binance timed out.").
Proof.
  split; [|split].
  - apply (proj1 (network_failures_are_reported (fun _ => "") demo_client
                    (mk_env 0 (fun _ => ConnectionFailed "refused"))
                    "btcusdt" "buy" "market" "1" None None false
                    sample_params eq_refl)).
    reflexivity.
  - apply (proj1 (network_failures_are_reported (fun _ => "") demo_client
                    (mk_env 0 (fun _ => ConnectTimedOut "connect timeout=10"))
                    "btcusdt" "buy" "market" "1" None None false
                    sample_params eq_refl)).
    reflexivity.
  - apply (proj2 (network_failures_are_reported (fun _ => "") demo_client
                    (mk_env 0 (fun _ => TimedOut "read timeout=10"))
                    "btcusdt" "buy" "market" "1" None None false
                    sample_params eq_refl)); reflexivity.
Defined.

Lemma exchange_errors_are_reported_witness :
  Orders.place_order (fun _ => "") demo_client
    (mk_env 0 (fun _ => Responded
                 (mk_response 400 ""
                    (Some (JObj [("code", JInt (-2010));
                                 ("msg", JStr "Insufficient balance.")])))))
    "btcusdt" "buy" "market" "1" None None false
  = Return (failure "Binance API Error [-2010]: Insufficient balance.").
Proof.
  apply (exchange_errors_are_reported (fun _ => "") demo_client
           (mk_env 0 (fun _ => Responded
                        (mk_response 400 ""
                           (Some (JObj [("code", JInt (-2010));
                                        ("msg",
                                         JStr "Insufficient balance.")])))))
           "btcusdt" "buy" "market" "1" None None false sample_params
           (mk_response 400 ""
              (Some (JObj [("code", JInt (-2010));
                           ("msg", JStr "Insufficient balance.")])))
           [("code", JInt (-2010)); ("msg", JStr "Insufficient balance.")]
           (-2010) "Insufficient balance.");
    reflexivity.
Defined.

Lemma accepted_orders_succeed_witness :
  Orders.place_order (fun _ => "") demo_client
    (mk_env 0 (fun _ => Responded
                 (mk_response 200 ""
                    (Some (JObj [("orderId", JInt 28);
                                 ("status", JStr "FILLED")])))))
    "btcusdt" "buy" "market" "1" None None false
  = Return (mk_result true
              (JObj [("orderId", JInt 28); ("status", JStr "FILLED")]) None).
Proof.
  apply (proj1 (accepted_orders_succeed (fun _ => "") demo_client
                  (mk_env 0 (fun _ => Responded
                               (mk_response 200 ""
                                  (Some (JObj [("orderId", JInt 28);
                                               ("status", JStr "FILLED")])))))
                  "btcusdt" "buy" "market" "1" None None false sample_params
                  (mk_response 200 ""
                     (Some (JObj [("orderId", JInt 28);
                                  ("status", JStr "FILLED")])))
                  [("orderId", JInt 28); ("status", JStr "FILLED")]
                  eq_refl eq_refl eq_refl eq_refl)).
Defined.

Lemma results_are_readable_witness :
  executed_qty (failure "Price is required for LIMIT orders.")
  = Return (JStr "0").
Proof.
  destruct (results_are_readable (fun _ => "") demo_client demo_env
              "btcusdt" "buy" "limit" "1" None None false
              (failure "Price is required for LIMIT orders.") eq_refl)
    as [_ H].
  destruct (H eq_refl) as (_ & _ & _ & _ & E & _). exact E.
Defined.

Lemma invalid_input_sends_nothing_witness :
  Orders.place_order (fun _ => "") demo_client demo_env
    "btcusdt" "buy" "limit" "NaN" None None false
  = Orders.place_order (fun _ => "") demo_client
      (mk_env 1 (fun _ => ConnectionFailed "refused"))
      "btcusdt" "buy" "limit" "NaN" None None false.
Proof.
  apply (invalid_input_sends_nothing (fun _ => "")).
  intros p H. discriminate H.
Defined.

End OrderExtras.

(* ------------------------------------------------------------------ *)
(** * Decimals on the wire *)
(* ------------------------------------------------------------------ *)

Module WireFacts.

Import PyStr PyStrFacts PyDecimal Validators Spec DecimalFacts ValidatorFacts.
Import ValidatorExtras.

(** *** [str(n)] for integers *)

Lemma string_of_uint_digits (d : Decimal.uint) :
  all_digits (NilEmpty.string_of_uint d) = true.
Proof. unfold all_digits. induction d; simpl; auto. Qed.

Lemma of_uint_acc_positional (d : Decimal.uint) (acc : positive) :
  Npos (Pos.of_uint_acc d acc)
  = (Npos acc * 10 ^ N.of_nat (String.length (NilEmpty.string_of_uint d))
     + positional (NilEmpty.string_of_uint d))%N.
Proof.
  revert acc.
  induction d; intros acc; cbn [Pos.of_uint_acc NilEmpty.string_of_uint];
    [simpl; lia | ..];
    rewrite IHd; cbn [String.length positional];
    rewrite Nat2N.inj_succ, N.pow_succ_r';
    match goal with
    | |- context [digit_val ?c] =>
        let v := eval vm_compute in (digit_val c) in
        change (digit_val c) with v
    end; lia.
Qed.

Lemma positional_string_of_uint (d : Decimal.uint) :
  positional (NilEmpty.string_of_uint d) = Pos.of_uint d.
Proof.
  induction d; cbn [Pos.of_uint NilEmpty.string_of_uint positional];
    [reflexivity | ..];
    try rewrite of_uint_acc_positional;
    match goal with
    | |- context [digit_val ?c] =>
        let v := eval vm_compute in (digit_val c) in
        change (digit_val c) with v
    end; lia.
Qed.

(** [str(k)] for [k >= 0] is a non-empty string of digits worth [k]. *)
Lemma of_Z_nonneg (k : Z) :
  0 <= k ->
  all_digits (of_Z k) = true /\ nonempty (of_Z k) = true
  /\ positional (of_Z k) = Z.to_N k.
Proof.
  intros H. destruct k as [|p|p]; [repeat split| |lia].
  pose proof (DecimalPos.Unsigned.to_uint_nonnil p) as Nn.
  pose proof (DecimalPos.Unsigned.of_to p) as Ot.
  assert (E : of_Z (Z.pos p) = NilEmpty.string_of_uint (Pos.to_uint p)).
  { unfold of_Z, NilZero.string_of_int, NilZero.string_of_uint.
    simpl Z.to_int. destruct (Pos.to_uint p); [congruence | reflexivity ..]. }
  rewrite E. split; [apply string_of_uint_digits|]. split.
  - destruct (Pos.to_uint p); [congruence | reflexivity ..].
  - now rewrite positional_string_of_uint, Ot.
Qed.

Lemma of_Z_negative (k : Z) : k < 0 -> of_Z k = "-" ++ of_Z (- k).
Proof. intros H. destruct k as [|p|p]; try lia. reflexivity. Qed.

(** ["%+d" % k] is a sign and the digits of the magnitude. *)
Lemma fmt_plus_d_sign (k : Z) :
  fmt_plus_d k
  = sign_str (if k <? 0 then Minus else Plus) ++ of_Z (Z.abs k).
Proof.
  unfold fmt_plus_d. destruct (Z.ltb_spec k 0) as [H|H].
  - rewrite of_Z_negative by exact H. now rewrite Z.abs_neq by lia.
  - now rewrite Z.abs_eq by lia.
Qed.

(** *** Pieces of strings *)

Lemma length_repeat (c : ascii) (k : nat) :
  String.length (PyStr.repeat c k) = k.
Proof. induction k; simpl; congruence. Qed.

Lemma zeros_digits (k : nat) : all_digits (PyStr.repeat "0" k) = true.
Proof. unfold all_digits. induction k; simpl; auto. Qed.

Lemma lstrip_zeros_repeat (k : nat) (s : string) :
  lstrip_zeros (PyStr.repeat "0" k ++ s) = lstrip_zeros s.
Proof. induction k; simpl; auto. Qed.

Lemma length_drop (k : nat) (s : string) :
  String.length (drop k s) = (String.length s - k)%nat.
Proof.
  revert s. induction k as [|k IH]; intros [|c r]; simpl; auto.
Qed.

Lemma take_drop_digits (k : nat) (s : string) :
  all_digits s = true ->
  all_digits (take k s) = true /\ all_digits (drop k s) = true.
Proof.
  intros H. rewrite <- (take_drop k s) in H. unfold all_digits in *.
  rewrite forallb_append in H. now apply andb_prop in H.
Qed.

Lemma canonical_coeff_parts (ds : string) :
  canonical_coeff ds = true ->
  all_digits ds = true /\ nonempty ds = true /\ str_int ds = ds
  /\ (1 <= Z.of_nat (String.length ds)).
Proof.
  unfold canonical_coeff. intros H.
  apply andb_prop in H. destruct H as [H E].
  apply andb_prop in H. destruct H as [D N].
  apply String.eqb_eq in E. repeat split; try assumption.
  destruct ds; [discriminate | simpl; lia].
Qed.

(** What the constructor stores as a coefficient is canonical. *)
Lemma canonical_str_int (x : string) :
  all_digits x = true -> nonempty x = true ->
  canonical_coeff (str_int x) = true.
Proof.
  intros D N. unfold canonical_coeff, str_int.
  destruct (lstrip_zeros_cases x) as (_ & H2 & H3). specialize (H2 D).
  destruct (lstrip_zeros x) as [|c r]; [reflexivity|].
  rewrite H2. simpl nonempty. simpl andb.
  apply String.eqb_eq.
  assert (L : lstrip_zeros (String c r) = String c r).
  { destruct c as [[] [] [] [] [] [] [] []]; try reflexivity; congruence. }
  change (match lstrip_zeros (String c r) with
          | EmptyString => "0"
          | String a s0 => String a s0
          end = String c r).
  now rewrite L.
Qed.

(** *** What [str(d)] writes is a literal for [d] *)

Section Printed.

Variables (sg : bool) (ds : string) (exp : Z).
Hypothesis canonical : canonical_coeff ds = true.

Let n := Z.of_nat (String.length ds).
Let leftdigits := exp + n.
Let dotplace :=
  if (exp <=? 0) && (-6 <? leftdigits) then leftdigits else 1.

Lemma dotplace_bounds :
  dotplace <= n
  /\ (dotplace <= 0 -> leftdigits = dotplace)
  /\ (leftdigits = dotplace -> exp <= 0).
Proof.
  destruct (canonical_coeff_parts ds canonical) as (_ & _ & _ & L).
  fold n in L. subst dotplace leftdigits.
  destruct (Z.leb_spec exp 0); destruct (Z.ltb_spec (-6) (exp + n));
    simpl; lia.
Qed.

Lemma printed_core : core (printed sg ds exp) = to_str (Finite sg ds exp).
Proof.
  destruct dotplace_bounds as (B1 & B2 & B3).
  unfold printed, to_str, core. fold n leftdigits dotplace.
  cbn [lit_sign lit_int lit_frac lit_exp].
  rewrite fmt_plus_d_sign.
  assert (S : sign_str (if sg then Minus else NoSign)
              = if sg then "-" else "") by now destruct sg.
  rewrite S. f_equal.
  destruct (Z.leb_spec dotplace 0) as [D0|D0].
  - destruct (Z.eqb_spec leftdigits dotplace) as [E|E]; [reflexivity|].
    specialize (B2 D0). contradiction.
  - destruct (Z.leb_spec n dotplace) as [D1|D1].
    + replace (Z.to_nat (dotplace - n)) with 0%nat by lia.
      simpl PyStr.repeat. rewrite append_nil_r.
      destruct (Z.eqb_spec leftdigits dotplace); reflexivity.
    + destruct (Z.eqb_spec leftdigits dotplace); simpl;
        now rewrite ?append_assoc.
Qed.

Lemma printed_well_formed : well_formed (printed sg ds exp) = true.
Proof.
  destruct (canonical_coeff_parts ds canonical) as (D & N & _ & _).
  unfold well_formed, printed, frac_digits. fold n leftdigits dotplace.
  cbn [lit_lead lit_trail lit_int lit_frac lit_exp blank PyStr.forallb andb].
  assert (Ex : exp_ok
                 (if leftdigits =? dotplace then None
                  else Some ("E"%char,
                             if leftdigits - dotplace <? 0 then Minus
                             else Plus,
                             of_Z (Z.abs (leftdigits - dotplace)))) = true).
  { destruct (leftdigits =? dotplace); [reflexivity|]. simpl.
    destruct (of_Z_nonneg (Z.abs (leftdigits - dotplace)) (Z.abs_nonneg _))
      as (A & B & _).
    now rewrite A, B. }
  rewrite Ex, andb_true_r.
  destruct (Z.leb_spec dotplace 0) as [D0|D0].
  - unfold all_digits in *. simpl. rewrite forallb_append.
    fold (all_digits (PyStr.repeat "0" (Z.to_nat (- dotplace)))).
    now rewrite zeros_digits, D.
  - destruct (Z.leb_spec n dotplace) as [D1|D1].
    + rewrite append_nil_r. now rewrite D, N.
    + destruct (take_drop_digits (Z.to_nat dotplace) ds D) as [T Dr].
      rewrite T, Dr, take_drop, N. reflexivity.
Qed.

Lemma printed_exponent : exponent (printed sg ds exp) = leftdigits - dotplace.
Proof.
  unfold exponent, printed. fold n leftdigits dotplace.
  cbn [lit_exp].
  destruct (Z.eqb_spec leftdigits dotplace) as [E|E]; [lia|].
  destruct (of_Z_nonneg (Z.abs (leftdigits - dotplace)) (Z.abs_nonneg _))
    as (_ & _ & P).
  rewrite P, Z2N.id by apply Z.abs_nonneg.
  destruct (Z.ltb_spec (leftdigits - dotplace) 0); simpl; lia.
Qed.

Lemma printed_decimal : lit_decimal (printed sg ds exp) = Finite sg ds exp.
Proof.
  destruct (canonical_coeff_parts ds canonical) as (D & N & C & L).
  destruct dotplace_bounds as (B1 & B2 & B3).
  unfold lit_decimal. rewrite printed_exponent.
  unfold printed, frac_digits. fold n leftdigits dotplace.
  cbn [lit_sign lit_int lit_frac].
  assert (S : is_minus (if sg then Minus else NoSign) = sg) by now destruct sg.
  rewrite S.
  destruct (Z.leb_spec dotplace 0) as [D0|D0].
  - f_equal.
    + unfold str_int.
      change ("0" ++ PyStr.repeat "0" (Z.to_nat (- dotplace)) ++ ds)
        with (String "0" (PyStr.repeat "0" (Z.to_nat (- dotplace)) ++ ds)).
      cbn [lstrip_zeros]. rewrite lstrip_zeros_repeat. exact C.
    + rewrite length_append, length_repeat, Nat2Z.inj_add.
      fold n. subst leftdigits. lia.
  - destruct (Z.leb_spec n dotplace) as [D1|D1].
    + rewrite append_nil_r. f_equal; [exact C|]. simpl. subst leftdigits. lia.
    + rewrite take_drop. f_equal; [exact C|].
      rewrite length_drop. fold n. subst leftdigits. lia.
Qed.

(** Reading back what [str] wrote gives the decimal again: the literal
    written has the digits and the exponent of the decimal, so it is
    within the limits when the decimal is. *)
Lemma of_str_to_str_finite :
  within_limits ds exp = true ->
  of_str (to_str (Finite sg ds exp)) = Return (Finite sg ds exp).
Proof.
  intros L. rewrite <- printed_core, <- printed_decimal.
  pose proof (of_str_literal (printed sg ds exp) printed_well_formed) as H.
  assert (E : within_limits
                (str_int (lit_int (printed sg ds exp)
                          ++ frac_digits (printed sg ds exp)))
                (exponent (printed sg ds exp)
                 - Z.of_nat (String.length (frac_digits (printed sg ds exp))))
              = true).
  { pose proof printed_decimal as E. unfold lit_decimal in E.
    rewrite <- L. f_equal; congruence. }
  rewrite E in H.
  unfold render in H. change (lit_lead (printed sg ds exp)) with "" in H.
  change (lit_trail (printed sg ds exp)) with "" in H.
  simpl append in H. now rewrite append_nil_r in H.
Qed.

End Printed.

Lemma digit_plain (c : ascii) : is_digit c = true -> plain_char c = true.
Proof. unfold plain_char. now intros ->. Qed.

(** ** Which notation reaches the wire *)

(** The string form of a finite decimal with coefficient digits [ds] and
    exponent [exp] is written without an exponent exactly when [exp <= 0]
    and [exp + len(ds) > -6]; otherwise (a positive exponent, or a value
    below one millionth such as 0.0000001) it is in scientific notation and
    ends in [E] and the signed exponent [exp + len(ds) - 1]. *)
Theorem notation_on_the_wire (sg : bool) (ds : string) (exp : Z) :
  canonical_coeff ds = true ->
  let left := exp + Z.of_nat (String.length ds) in
  if (exp <=? 0) && (-6 <? left)
  then plain_number (to_str (Finite sg ds exp)) = true
  else exists mantissa,
         plain_number mantissa = true
         /\ to_str (Finite sg ds exp)
            = mantissa ++ "E" ++ fmt_plus_d (left - 1).
Proof.
  intros C left.
  destruct (canonical_coeff_parts ds C) as (D & N & _ & L).
  pose proof (take_drop_digits 1 ds D) as [T Dr].
  assert (P : forall x, all_digits x = true -> plain_number x = true).
  { intros x. apply forallb_impl, digit_plain. }
  assert (Sg : plain_number (if sg then "-" else "") = true)
    by now destruct sg.
  unfold to_str. fold left.
  destruct ((exp <=? 0) && (-6 <? left)) eqn:A.
  - apply andb_prop in A. destruct A as [A1 A2].
    apply Z.leb_le in A1. apply Z.ltb_lt in A2.
    rewrite Z.eqb_refl. unfold plain_number in *.
    rewrite !forallb_append, Sg. simpl.
    destruct (Z.leb_spec left 0) as [D0|D0].
    + simpl. rewrite forallb_append.
      rewrite (P _ (zeros_digits _)), (P _ D). reflexivity.
    + destruct (Z.leb_spec (Z.of_nat (String.length ds)) left) as [D1|D1].
      * rewrite forallb_append, (P _ D), (P _ (zeros_digits _)). reflexivity.
      * destruct (take_drop_digits (Z.to_nat left) ds D) as [T' Dr'].
        simpl. rewrite (P _ T'), (P _ Dr'). reflexivity.
  - assert (Ne : left <> 1).
    { intros E. apply andb_false_iff in A.
      destruct A as [A|A]; [apply Z.leb_gt in A | apply Z.ltb_ge in A];
        subst left; lia. }
    destruct (Z.eqb_spec left 1) as [E|_]; [contradiction|].
    change (1 <=? 0) with false. cbv iota.
    destruct (Z.leb_spec (Z.of_nat (String.length ds)) 1) as [D1|D1].
    + exists ((if sg then "-" else "") ++ ds).
      replace (Z.to_nat (1 - Z.of_nat (String.length ds))) with 0%nat by lia.
      simpl PyStr.repeat. rewrite append_nil_r. split.
      * unfold plain_number in *. now rewrite forallb_append, Sg, (P _ D).
      * simpl. now rewrite !append_assoc.
    + exists ((if sg then "-" else "") ++ take 1 ds ++ "." ++ drop 1 ds).
      split.
      * unfold plain_number in *. rewrite !forallb_append, Sg, (P _ T).
        change ("." ++ drop 1 ds) with (String "." (drop 1 ds)).
        cbn [PyStr.forallb]. now rewrite (P _ Dr).
      * change (Z.to_nat 1) with 1%nat. now rewrite !append_assoc.
Qed.

Lemma notation_on_the_wire_witness :
  exists mantissa,
    plain_number mantissa = true
    /\ to_str (Finite false "1" (-7)) = mantissa ++ "E" ++ fmt_plus_d (-7).
Proof.
  exact (notation_on_the_wire false "1" (-7) eq_refl).
Defined.

Lemma of_str_to_str (d : Decimal) :
  canonical_decimal d = true ->
  match d with
  | Finite _ ds ex => within_limits ds ex = true
  | _ => True
  end ->
  of_str (to_str d) = Return d.
Proof.
  destruct d as [sg ds ex|sg|sg sig dg]; simpl canonical_decimal.
  - apply of_str_to_str_finite.
  - intros _ _. destruct sg; reflexivity.
  - discriminate.
Qed.

(** The constructor builds canonical decimals, NaN apart. *)
Lemma of_str_canonical (s : string) (d : Decimal) :
  of_str s = Return d ->
  canonical_decimal d = true \/ exists sg sig dg, d = NaN sg sig dg.
Proof.
  unfold of_str.
  destruct (take_sign (remove "_" (strip s))) as [b body].
  destruct (parse_number body) as [[[ip fp] e]|] eqn:P.
  - cbv zeta. destruct (within_limits _ _); [|discriminate].
    intros [= <-]. left. simpl.
    destruct (parse_number_sound _ _ _ _ P)
      as (frac & ex & _ & _ & Hip & Hfd & Hne & _).
    apply canonical_str_int; [|exact Hne].
    unfold all_digits in *. now rewrite forallb_append, Hip, Hfd.
  - destruct (parse_inf body).
    + intros [= <-]. now left.
    + destruct (parse_nan body) as [[sig dg]|]; [|discriminate].
      intros [= <-]. right. eauto.
Qed.

Lemma blank_not_parsed (t : string) (d : Decimal) :
  of_str t = Return d -> blank t = false.
Proof.
  intros H. apply not_true_is_false. intros B. apply strip_blank in B.
  unfold of_str in H. rewrite B in H. discriminate H.
Qed.

(** ** No precision is lost on the way to the wire *)

(** The string form of a validated quantity, price or stop price, which
    is what [BinanceClient.place_order] transmits, is read back by the
    decimal constructor as the very same decimal and passes the same
    validator with the same result. *)
Theorem transmitted_decimal_revalidates (s order_type : string)
  (d : Decimal) :
  (validate_quantity s = Return d ->
   of_str (to_str d) = Return d /\ validate_quantity (to_str d) = Return d)
  /\ (validate_price (Some s) order_type = Return (Some d) ->
      validate_price (Some (to_str d)) order_type = Return (Some d))
  /\ (validate_stop_price (Some s) order_type = Return (Some d) ->
      validate_stop_price (Some (to_str d)) order_type = Return (Some d)).
Proof.
  assert (K : forall s0, of_str s0 = Return d -> positive_decimal d = true ->
              of_str (to_str d) = Return d
              /\ le_zero d = Return false).
  { intros s0 P Pos. split; [|now apply le_zero_positive].
    destruct (of_str_canonical _ _ P) as [C | (sg & sig & dg & ->)];
      [|discriminate Pos].
    apply of_str_to_str; [exact C|].
    destruct d as [sg ds ex|sg|sg sig dg]; [|exact I|exact I].
    exact (of_str_within_limits _ _ _ _ P). }
  split; [|split]; intros H.
  - apply validate_quantity_returns in H. destruct H as [P Pos].
    destruct (K s P Pos) as [R L]. split; [exact R|].
    rewrite (validate_quantity_parsed _ _ R), L. reflexivity.
  - unfold validate_price in H.
    destruct (_ && _) in H; [discriminate|].
    destruct (String.eqb (strip s) "") in H; [discriminate|].
    apply (parsed_returns (option Decimal) s _
             (fun p => "Price must be greater than zero, got: "
                       ++ to_str p ++ ".")
             (fun p => Some p)) in H.
    destruct H as (d' & P & [= <-] & Pos).
    destruct (K s P Pos) as [R L].
    rewrite (validate_price_parsed _ order_type _ (blank_not_parsed _ _ R) R).
    rewrite L. reflexivity.
  - unfold validate_stop_price in H.
    destruct (_ && _) in H; [discriminate|].
    destruct (String.eqb (strip s) "") in H; [discriminate|].
    apply (parsed_returns (option Decimal) s _
             (fun sp => "Stop price must be greater than zero, got: "
                        ++ to_str sp ++ ".")
             (fun sp => Some sp)) in H.
    destruct H as (d' & P & [= <-] & Pos).
    destruct (K s P Pos) as [R L].
    rewrite (validate_stop_price_parsed _ order_type _
               (blank_not_parsed _ _ R) R).
    rewrite L. reflexivity.
Qed.

Lemma transmitted_decimal_revalidates_witness :
  of_str "1E-7" = Return (Finite false "1" (-7))
  /\ validate_quantity "1E-7" = Return (Finite false "1" (-7)).
Proof.
  exact (proj1 (transmitted_decimal_revalidates
                  "0.0000001" "MARKET" (Finite false "1" (-7)))
               eq_refl).
Defined.

End WireFacts.

(* ------------------------------------------------------------------ *)
(** * Exact decimals *)
(* ------------------------------------------------------------------ *)

Module DecimalFields.

Import PyStr PyStrFacts PyDecimal Validators Spec DecimalFacts ValidatorFacts.
Import ValidatorExtras WireFacts.

(** ** Powers of ten *)






(** ** The size of a coefficient *)












(** *** The limits of a literal, read off its digits *)




(** ** The special literals *)



(** ** C8 *)







End DecimalFields.
